(** * IITU assistant: crawler, processor, knowledge store and conversation sessions

    A shallow embedding of the Python sources
    - [src/iitu_bot/database/__init__.py]  (class [VectorDatabase]),
    - [src/iitu_bot/processor/__init__.py] (class [DataProcessor]),
    - [src/iitu_bot/bot/__init__.py]       (class [IITUTelegramBot]),
    - [src/iitu_bot/scraper/__init__.py]   (class [IITUWebScraper]),
    and the properties of the specification checked against them.

    Python objects with mutable attributes become explicit state; a Python
    exception becomes the [Raise] outcome of a small state-and-exception
    monad, and [try ... except Exception] becomes [catch].  The external
    collaborators (ChromaDB, the Gemini completion service, LangChain's
    splitter, [requests]/BeautifulSoup, [urllib.parse]) are oracles: section
    variables that say, call by call, whether the collaborator answers or
    raises. *)

From Stdlib Require Import ZArith String Ascii List Bool Lia Floats.
From stdpp Require Import gmap strings list pretty.
Import ListNotations.

Local Open Scope string_scope.
Local Open Scope list_scope.

(** ** Python built-ins used by the sources

    A [string] is read as a Python [str], one character per code point
    (the texts of the bot are spelled in UTF-8). *)

Module Py.

(** [str.isspace] on the code points below 128. *)
Definition is_space (c : ascii) : bool :=
  let n := nat_of_ascii c in
  (Nat.leb 9 n && Nat.leb n 13) || (Nat.leb 28 n && Nat.leb n 32).

Fixpoint lstrip (s : string) : string :=
  match s with
  | EmptyString => EmptyString
  | String c rest => if is_space c then lstrip rest else s
  end.

Fixpoint rstrip (s : string) : string :=
  match s with
  | EmptyString => EmptyString
  | String c rest =>
      match rstrip rest with
      | EmptyString => if is_space c then EmptyString else String c EmptyString
      | kept => String c kept
      end
  end.

(** [s.strip()] *)
Definition strip (s : string) : string := rstrip (lstrip s).

(** truth value of a string: [bool(s)] *)
Definition truthy (s : string) : bool :=
  match s with EmptyString => false | _ => true end.

(** [not s.strip()] *)
Definition blank (s : string) : bool := negb (truthy (strip s)).

(** [s[:n]] *)
Definition upto (n : nat) (s : string) : string := String.substring 0 n s.

(** [needle in hay] on strings *)
Fixpoint contains (needle hay : string) : bool :=
  String.prefix needle hay
  || match hay with
     | EmptyString => false
     | String _ rest => contains needle rest
     end.

(** [l[-n:]] for [n > 0] *)
Definition last_n {A} (n : nat) (l : list A) : list A :=
  skipn (length l - n)%nat l.

(** [l[i:j]] for [0 <= i <= j] *)
Definition slice {A} (i j : nat) (l : list A) : list A :=
  firstn (j - i)%nat (skipn i l).

(** [list(range(0, stop, step))] for [step > 0] *)
Definition range_step (stop step : nat) : list nat :=
  map (fun k => (k * step)%nat) (seq 0 ((stop + step - 1) / step)%nat).

End Py.

(** ** The world the program runs in, and the exception monad *)

(** Values ChromaDB accepts in a metadata dictionary. *)
Inductive MetaValue := MStr (s : string) | MInt (z : Z).

(** One stored KnowledgeEntry: identifier, document text, metadata dict. *)
Record Entry := mkEntry {
  entry_id : nat;
  entry_document : string;
  entry_metadata : gmap string MetaValue
}.

(** [{query, response, source}], one exchange of a session's context. *)
Record Interaction := mkInteraction {
  i_query : string;
  i_response : string;
  i_source : string
}.

(** The per-user session dict [{'retry_count', 'last_query', 'context'}]. *)
Record Session := mkSession {
  retry_count : Z;
  last_query : option string;
  context : list Interaction
}.

Record World := mkWorld {
  (** ChromaDB: the collection named [iitu_knowledge]; [None] once deleted *)
  collection : option (list Entry);
  (** number of calls made to the ChromaDB client so far *)
  db_calls : nat;
  (** number of [uuid.uuid4()] draws so far *)
  uuid_drawn : nat;
  (** prompts submitted to [generate_content], oldest first *)
  ai_log : list string;
  (** [self.user_sessions] *)
  user_sessions : gmap Z Session;
  (** texts sent with [message.answer], oldest first, with the addressee *)
  outbox : list (Z * string)
}.

Definition set_collection (c : option (list Entry)) (w : World) : World :=
  mkWorld c (db_calls w) (uuid_drawn w) (ai_log w) (user_sessions w) (outbox w).
Definition set_db_calls (n : nat) (w : World) : World :=
  mkWorld (collection w) n (uuid_drawn w) (ai_log w) (user_sessions w) (outbox w).
Definition set_uuid_drawn (n : nat) (w : World) : World :=
  mkWorld (collection w) (db_calls w) n (ai_log w) (user_sessions w) (outbox w).
Definition set_ai_log (l : list string) (w : World) : World :=
  mkWorld (collection w) (db_calls w) (uuid_drawn w) l (user_sessions w) (outbox w).
Definition set_user_sessions (m : gmap Z Session) (w : World) : World :=
  mkWorld (collection w) (db_calls w) (uuid_drawn w) (ai_log w) m (outbox w).
Definition set_outbox (o : list (Z * string)) (w : World) : World :=
  mkWorld (collection w) (db_calls w) (uuid_drawn w) (ai_log w) (user_sessions w) o.

Inductive result (A : Type) : Type :=
| Ok (a : A)
| Raise (e : string).
Arguments Ok {A} a.
Arguments Raise {A} e.

(** A computation: runs in a world, ends normally or by an exception, and
    leaves a world behind either way (Python does not roll back). *)
Definition M (A : Type) : Type := World -> result A * World.

Definition ret {A} (a : A) : M A := fun w => (Ok a, w).
Definition raise {A} (e : string) : M A := fun w => (Raise e, w).
Definition bind {A B} (m : M A) (k : A -> M B) : M B :=
  fun w => match m w with
           | (Ok a, w') => k a w'
           | (Raise e, w') => (Raise e, w')
           end.
(** [try: m except Exception as e: h e] *)
Definition catch {A} (m : M A) (h : string -> M A) : M A :=
  fun w => match m w with
           | (Ok a, w') => (Ok a, w')
           | (Raise e, w') => h e w'
           end.
Definition gets {A} (f : World -> A) : M A := fun w => (Ok (f w), w).
Definition modify (f : World -> World) : M unit := fun w => (Ok tt, f w).

Notation "'let*' x ':=' c1 'in' c2" := (bind c1 (fun x => c2))
  (at level 10, x pattern, c1 at level 100, c2 at level 200).
Notation "'run' c1 'then' c2" := (bind c1 (fun _ => c2))
  (at level 10, c1 at level 100, c2 at level 200).

(** [for x in l: body x] *)
Fixpoint for_each {A} (l : list A) (body : A -> M unit) : M unit :=
  match l with
  | [] => ret tt
  | x :: rest => run body x then for_each rest body
  end.

Definition is_ok {A} (r : result A) : bool :=
  match r with Ok _ => true | Raise _ => false end.

(** [for x in l], collecting what [body] returns *)
Fixpoint map_m {A B} (body : A -> M B) (l : list A) : M (list B) :=
  match l with
  | [] => ret []
  | x :: rest =>
      let* y := body x in
      let* ys := map_m body rest in
      ret (y :: ys)
  end.

(** [l[i]], an [IndexError] when out of range *)
Definition index {A} (l : list A) (i : nat) : M A :=
  match nth_error l i with
  | Some x => ret x
  | None => raise "IndexError"
  end.

(** *** The completion service (Gemini)

    [completion k prompt] is what the [k]-th call of
    [model.generate_content(prompt)] followed by [response.text] yields:
    [Some text], or [None] when either raises. *)

Section Completion.

Variable completion : nat -> string -> option string.

Definition generate_content (prompt : string) : M string :=
  fun w =>
    let k := length (ai_log w) in
    let w1 := set_ai_log (ai_log w ++ [prompt]) w in
    match completion k prompt with
    | Some text => (Ok text, w1)
    | None => (Raise "completion service error", w1)
    end.

End Completion.

(** *** Page dictionaries

    The dict [scrape_page] builds and [process_page_data] extends; a key
    that may be absent is an [option]. *)

Record Page := mkPage {
  p_url : string;
  p_title : string;
  p_description : string;
  p_content : string;
  p_links : list string;
  p_scraped_at : float;
  p_error : option string;
  p_original_content : option string;
  p_improved_content : option string;
  p_chunks : option (list string);
  p_chunk_count : option nat;
  p_processed : option bool;
  p_processing_error : option string
}.

(** ** [database/__init__.py]: the knowledge store *)

Module Database.

(** A ChunkRecord, the dict built by [extract_all_chunks]. *)
Record Chunk := mkChunk {
  chunk_content : string;
  chunk_source_url : string;
  chunk_page_title : string;
  chunk_page_description : string;
  chunk_index : Z;
  chunk_total_chunks : Z
}.

(** What [collection.query] returns: a dict of lists, one inner list per
    query text; a key not included is [None]. *)
Record QueryResult := mkQueryResult {
  qr_documents : option (list (list string));
  qr_metadatas : option (list (list (gmap string MetaValue)));
  qr_distances : option (list (list float))
}.

(** One SearchResult, the dict [{'content', 'metadata', 'distance'}]. *)
Record SearchResult := mkSearchResult {
  sr_content : string;
  sr_metadata : gmap string MetaValue;
  sr_distance : float
}.

(** truth value of an optional list: [None] and [[]] are false *)
Definition some_items {A} (o : option (list A)) : bool :=
  match o with
  | Some (_ :: _) => true
  | _ => false
  end.

Definition batch_size : nat := 100.
Definition default_threshold : float := 0.5%float.

Definition chunk_metadata (chunk : Chunk) : gmap string MetaValue :=
  <["source_url" := MStr (chunk_source_url chunk)]>
  (<["page_title" := MStr (chunk_page_title chunk)]>
  (<["page_description" := MStr (chunk_page_description chunk)]>
  (<["chunk_index" := MInt (chunk_index chunk)]>
  (<["total_chunks" := MInt (chunk_total_chunks chunk)]> ∅)))).

(** The entries a rebuild is to leave in the store: one per chunk whose
    content is not blank, in order, the [k]-th chunk of the list under the
    [k]-th identifier drawn. *)
Fixpoint knowledge_entries (next_id : nat) (chunks : list Chunk) : list Entry :=
  match chunks with
  | [] => []
  | chunk :: rest =>
      if Py.blank (chunk_content chunk)
      then knowledge_entries (S next_id) rest
      else mkEntry next_id (chunk_content chunk) (chunk_metadata chunk)
           :: knowledge_entries (S next_id) rest
  end.

Section VectorDatabase.

(** The ChromaDB client: its [k]-th call raises when [backend_fault k]. *)
Variable backend_fault : nat -> bool.
(** Distance between the embeddings of a query text and of a document. *)
Variable embedding_distance : string -> string -> float.

(** *** The collaborator: ChromaDB's client and collection *)

Definition client_call {A} (op : M A) : M A :=
  fun w =>
    let k := db_calls w in
    let w1 := set_db_calls (S k) w in
    if backend_fault k then (Raise "chromadb error", w1) else op w1.

Definition delete_collection : M unit :=
  client_call (fun w =>
    match collection w with
    | Some _ => (Ok tt, set_collection None w)
    | None => (Raise "collection does not exist", w)
    end).

Definition create_collection : M unit :=
  client_call (fun w =>
    match collection w with
    | None => (Ok tt, set_collection (Some []) w)
    | Some _ => (Raise "collection already exists", w)
    end).

Fixpoint zip_entries (documents : list string)
    (metadatas : list (gmap string MetaValue)) (ids : list nat) : list Entry :=
  match documents, metadatas, ids with
  | d :: ds, m :: ms, i :: is_ => mkEntry i d m :: zip_entries ds ms is_
  | _, _, _ => []
  end.

Definition collection_add (documents : list string)
    (metadatas : list (gmap string MetaValue)) (ids : list nat) : M unit :=
  client_call (fun w =>
    match collection w with
    | Some es =>
        (Ok tt, set_collection (Some (es ++ zip_entries documents metadatas ids)) w)
    | None => (Raise "collection does not exist", w)
    end).

Definition collection_count : M nat :=
  client_call (fun w =>
    match collection w with
    | Some es => (Ok (length es), w)
    | None => (Raise "collection does not exist", w)
    end).

(** nearest first; an entry stays behind those at the same distance *)
Fixpoint insert_hit (h : Entry * float) (l : list (Entry * float))
    : list (Entry * float) :=
  match l with
  | [] => [h]
  | h' :: rest =>
      if PrimFloat.ltb (snd h) (snd h') then h :: l else h' :: insert_hit h rest
  end.

Definition nearest (query : string) (n : nat) (es : list Entry)
    : list (Entry * float) :=
  firstn n
    (fold_right insert_hit []
       (map (fun e => (e, embedding_distance query (entry_document e))) es)).

Definition collection_query (query : string) (n_results : nat) : M QueryResult :=
  client_call (fun w =>
    match collection w with
    | Some es =>
        let hits := nearest query n_results es in
        (Ok (mkQueryResult
               (Some [map (fun h => entry_document (fst h)) hits])
               (Some [map (fun h => entry_metadata (fst h)) hits])
               (Some [map snd hits])), w)
    | None => (Raise "collection does not exist", w)
    end).

Definition uuid4 : M nat :=
  fun w => (Ok (uuid_drawn w), set_uuid_drawn (S (uuid_drawn w)) w).

(** *** [VectorDatabase] *)

(** the first loop of [add_chunks]: the three parallel lists *)
Fixpoint prepare (chunks : list Chunk)
    (documents : list string) (metadatas : list (gmap string MetaValue))
    (ids : list nat)
    : M (list string * list (gmap string MetaValue) * list nat) :=
  match chunks with
  | [] => ret (documents, metadatas, ids)
  | chunk :: rest =>
      let* chunk_id := uuid4 in
      let content := chunk_content chunk in
      if Py.blank content then prepare rest documents metadatas ids
      else prepare rest (documents ++ [content])
                        (metadatas ++ [chunk_metadata chunk])
                        (ids ++ [chunk_id])
  end.

Definition add_chunks (chunks : list Chunk) : M unit :=
  match chunks with
  | [] => ret tt
  | _ =>
      let* (documents, metadatas, ids) := prepare chunks [] [] [] in
      match documents with
      | _ :: _ =>
          for_each (Py.range_step (length documents) batch_size) (fun i =>
            collection_add (Py.slice i (i + batch_size) documents)
                           (Py.slice i (i + batch_size) metadatas)
                           (Py.slice i (i + batch_size) ids))
      | [] => ret tt
      end
  end.

Definition search (query : string) (n_results : nat) : M (list SearchResult) :=
  catch
    (let* results := collection_query query n_results in
     match qr_documents results with
     | Some ((_ :: _) as docs0 :: _) =>
         map_m (fun '(i, doc) =>
                  let* metadata :=
                    if some_items (qr_metadatas results)
                    then let* m0 := index (default [] (qr_metadatas results)) 0 in
                         index m0 i
                    else ret ∅ in
                  let* distance :=
                    if some_items (qr_distances results)
                    then let* d0 := index (default [] (qr_distances results)) 0 in
                         index d0 i
                    else ret 0%float in
                  ret (mkSearchResult doc metadata distance))
               (combine (seq 0 (length docs0)) docs0)
     | _ => ret []
     end)
    (fun _ => ret []).

(** [{'name', 'count', 'path'}], or [{}] *)
Definition get_collection_info : M (option (string * nat)) :=
  catch
    (let* count := collection_count in
     ret (Some ("iitu_knowledge", count)))
    (fun _ => ret None).

Definition clear_collection : M unit :=
  catch
    (run delete_collection then
     create_collection)
    (fun _ => ret tt).

Definition build_knowledge_base (processed_chunks : list Chunk) : M unit :=
  run clear_collection then
  run add_chunks processed_chunks then
  let* info := get_collection_info in
  ret tt.

Definition is_relevant (query : string) (threshold : float) : M bool :=
  let* results := search query 1 in
  match results with
  | top :: _ =>
      let distance := sr_distance top in
      let similarity := PrimFloat.sub 1%float distance in
      ret (PrimFloat.leb threshold similarity)
  | [] => ret false
  end.

(** [isRelevant] in the words of the specification: false without a hit,
    otherwise [similarity >= threshold] for [similarity = 1 - distance] of
    the top hit. *)
Definition relevant_by_spec (results : list SearchResult) (threshold : float)
    : bool :=
  match results with
  | [] => false
  | top :: _ => PrimFloat.leb threshold (PrimFloat.sub 1 (sr_distance top))
  end.

(** The claim that a rebuild is all or nothing: whatever the client does,
    the collection afterwards holds the new entries or still the prior ones. *)
Definition rebuild_atomic : Prop :=
  forall (chunks : list Chunk) (w : World) (prior : list Entry),
    collection w = Some prior ->
    let after := collection (snd (build_knowledge_base chunks w)) in
    after = Some (knowledge_entries (uuid_drawn w) chunks) \/ after = Some prior.

End VectorDatabase.

(** *** [VectorDatabase.__init__]: connect to the collection or create it *)

Section Connect.

Variable backend_fault : nat -> bool.

Definition get_collection : M unit :=
  client_call backend_fault (fun w =>
    match collection w with
    | Some _ => (Ok tt, w)
    | None => (Raise "collection does not exist", w)
    end).

(** [try: get_collection(...) except: create_collection(...)] *)
Definition connect : M unit :=
  catch get_collection (fun _ => create_collection backend_fault).

End Connect.

(** the SearchResult [search] makes of one hit of the query *)
Definition hit_result (h : Entry * float) : SearchResult :=
  mkSearchResult (entry_document (fst h)) (entry_metadata (fst h)) (snd h).

(** the chunks [add_chunks] does not skip *)
Definition with_content (chunks : list Chunk) : list Chunk :=
  filter (fun chunk => Py.blank (chunk_content chunk) = false) chunks.

(** A store holding one entry, one chunk to rebuild it from, and a client
    whose third call (the insert, after delete and create) raises. *)
Definition demo_prior : list Entry := [mkEntry 7 "old" ∅].
Definition demo_world : World := mkWorld (Some demo_prior) 0 0 [] ∅ [].
Definition demo_chunk : Chunk := mkChunk "new" "https://iitu.edu.kz" "IITU" "" 0 1.
Definition insert_fails (k : nat) : bool := Nat.eqb k 2.
Definition delete_fails (k : nat) : bool := Nat.eqb k 0.
Definition never_fails (k : nat) : bool := false.
Definition level_distance (query document : string) : float := 0.25%float.

End Database.

(** ** [processor/__init__.py]: text enhancement and chunking *)

Module Processor.

Import Database.

Definition improve_prompt (page_title text : string) : string :=
  "
        Ты — эксперт по обработке текста для университета IITU. Улучши следующий текст:
        
        Заголовок страницы: " +:+ page_title +:+ "
        
        Текст: " +:+ Py.upto 2000 text +:+ "  # Limit text length for API
        
        Требования:
        1. Исправь грамматические и орфографические ошибки
        2. Улучши читаемость и структуру
        3. Сохрани всю важную информацию
        4. Удали ненужные элементы (навигация, реклама и т.д.)
        5. Структурируй информацию логично
        6. Сохрани информацию на оригинальном языке (казахский/русский/английский)
        
        Верни только улучшенный текст без дополнительных комментариев.
        ".

Section DataProcessor.

Variable completion : nat -> string -> option string.
(** [RecursiveCharacterTextSplitter.split_text] with the configured chunk
    size, overlap and separators; [None] when it raises. *)
Variable split_text : string -> option (list string).

Definition improve_text_with_ai (text page_title : string) : M string :=
  if Py.blank text then ret text
  else
    let prompt := improve_prompt page_title text in
    catch
      (let* response := generate_content completion prompt in
       let improved_text := Py.strip response in
       ret improved_text)
      (fun _ => ret text).

Definition create_chunks (text : string) : M (list string) :=
  if Py.blank text then ret []
  else
    match split_text text with
    | Some chunks => ret chunks
    | None => raise "text splitter error"
    end.

Definition process_page_data (page_data : Page) : M Page :=
  match p_error page_data with
  | Some _ => ret page_data
  | None =>
      let original_content := p_content page_data in
      let page_title := p_title page_data in
      let* improved_content := improve_text_with_ai original_content page_title in
      let* chunks := create_chunks improved_content in
      ret (mkPage (p_url page_data) (p_title page_data)
             (p_description page_data) (p_content page_data)
             (p_links page_data) (p_scraped_at page_data) (p_error page_data)
             (Some original_content) (Some improved_content)
             (Some chunks) (Some (length chunks)) (Some true)
             (p_processing_error page_data))
  end.

(** [error_page = page_data.copy(); error_page['processing_error'] = str(e)] *)
Definition with_processing_error (e : string) (page_data : Page) : Page :=
  mkPage (p_url page_data) (p_title page_data)
    (p_description page_data) (p_content page_data)
    (p_links page_data) (p_scraped_at page_data) (p_error page_data)
    (p_original_content page_data) (p_improved_content page_data)
    (p_chunks page_data) (p_chunk_count page_data) (p_processed page_data)
    (Some e).

Definition process_all_data (scraped_data : list Page) : M (list Page) :=
  map_m (fun page_data =>
           catch (process_page_data page_data)
                 (fun e => ret (with_processing_error e page_data)))
        scraped_data.

End DataProcessor.

Definition extract_all_chunks (processed_data : list Page) : list Chunk :=
  flat_map (fun page_data =>
    match p_processed page_data, p_chunks page_data with
    | Some true, Some chunks =>
        let url := p_url page_data in
        let title := p_title page_data in
        let description := p_description page_data in
        map (fun '(i, chunk) =>
               mkChunk chunk url title description
                       (Z.of_nat i) (Z.of_nat (length chunks)))
            (combine (seq 0 (length chunks)) chunks)
    | _, _ => []
    end) processed_data.

(** A page dict as [scrape_page] builds it: none of the processor's keys. *)
Definition unprocessed (page_data : Page) : Prop :=
  p_original_content page_data = None /\ p_improved_content page_data = None /\
  p_chunks page_data = None /\ p_chunk_count page_data = None /\
  p_processed page_data = None /\ p_processing_error page_data = None.

(** How [process_all_data] treats one page: [q] is what it emits for [p]
    when [process_page_data p] ends with [r]. *)
Definition emitted (p : Page) (r : result Page) (q : Page) : Prop :=
  match r with
  | Ok processed_page => q = processed_page
  | Raise e => q = with_processing_error e p
  end.

(** A scraped page, a completion service that answers and a splitter that
    raises. *)
Definition demo_page : Page :=
  mkPage "https://iitu.edu.kz" "IITU" "" "Admission is open" [] 0%float
         None None None None None None None.
Definition demo_failed_page : Page :=
  mkPage "https://iitu.edu.kz/x" "" "" "" [] 0%float
         (Some "404") None None None None None None.
Definition service_answers (k : nat) (prompt : string) : option string :=
  Some "Admission is open.".
Definition service_down (k : nat) (prompt : string) : option string := None.
Definition splitter_raises (text : string) : option (list string) := None.
Definition splitter_whole (text : string) : option (list string) := Some [text].
Definition quiet_world : World := mkWorld (Some []) 0 0 [] ∅ [].

(** the chunks [extract_all_chunks] takes from a page: those of a page
    marked processed that has the key [chunks] *)
Definition page_chunks (page_data : Page) : list string :=
  match p_processed page_data, p_chunks page_data with
  | Some true, Some chunks => chunks
  | _, _ => []
  end.

(** a page keeps what the scraper recorded *)
Definition same_scrape (p q : Page) : Prop :=
  p_url q = p_url p /\ p_title q = p_title p /\
  p_description q = p_description p /\ p_content q = p_content p /\
  p_links q = p_links p /\ p_scraped_at q = p_scraped_at p /\
  p_error q = p_error p.

Definition demo_blank_page : Page :=
  mkPage "https://iitu.edu.kz/empty" "Empty" "" "   " [] 0%float
         None None None None None None None.

End Processor.

(** ** [bot/__init__.py]: retrieval gate and conversation sessions *)

Module Bot.

Import Database.

(** What the handlers read of an aiogram [Message]. *)
Record Message := mkMessage {
  from_user_id : Z;
  chat_id : Z;
  text : string
}.

(** the double quote character *)
Definition dq : string := String (ascii_of_nat 34) EmptyString.

Definition welcome_text : string :=
  "
🎓 Добро пожаловать в IITU Assistant!

Я — ваш персональный помощник для абитуриентов и студентов Международного университета информационных технологий (IITU).

Я могу помочь вам с:
• Информацией о факультетах и специальностях
• Процедурах поступления
• Расписании и учебных программах
• Контактной информации
• Новостях университета
• И многим другим!

Просто задайте свой вопрос, и я постараюсь дать вам точный и полезный ответ.

Используйте /help для получения дополнительной информации.
        ".

Definition help_text : string :=
  "
📖 IITU Assistant - Справка

🔍 Как использовать бота:
• Задавайте вопросы на русском, казахском или английском языке
• Я отвечу на основе актуальной информации об IITU
• Если ответ не подходит, используйте команду /return для уточнения

🤖 Доступные команды:
/start - Начать работу с ботом
/help - Показать эту справку
/return - Переформулировать последний запрос (до 3 раз)

💡 Примеры вопросов:
• " +:+ dq +:+ "Какие факультеты есть в IITU?" +:+ dq +:+ "
• " +:+ dq +:+ "Как поступить в университет?" +:+ dq +:+ "
• " +:+ dq +:+ "Расскажи о специальности IT" +:+ dq +:+ "
• " +:+ dq +:+ "Контакты приемной комиссии" +:+ dq +:+ "

Если у вас есть вопросы или предложения, свяжитесь с администрацией IITU.
        ".

Definition ask_first_text : string :=
  "Сначала задайте вопрос, чтобы я мог его переформулировать.".
Definition no_previous_query_text : string :=
  "Нет предыдущего запроса для переформулировки.".
Definition retries_exhausted_text : string :=
  "Достигнуто максимальное количество попыток переформулировки. Попробуйте задать вопрос по-другому.".
Definition empty_query_text : string :=
  "Пожалуйста, задайте ваш вопрос.".
Definition processing_error_text : string :=
  "Извините, произошла ошибка при обработке вашего запроса. Попробуйте позже.".
Definition rag_apology_text : string :=
  "Извините, не удалось сформировать ответ на основе доступной информации.".
Definition general_fallback_text : string :=
  "Извините, я могу помочь только с вопросами, связанными с IITU. Обратитесь к официальному сайту iitu.edu.kz за дополнительной информацией.".

(** how an f-string prints a metadata value *)
Definition meta_text (v : MetaValue) : string :=
  match v with
  | MStr s => s
  | MInt z => pretty z
  end.

(** [sep.join(parts)] *)
Fixpoint join (sep : string) (parts : list string) : string :=
  match parts with
  | [] => ""
  | [part] => part
  | part :: rest => part +:+ sep +:+ join sep rest
  end.

Definition newline : string := String (ascii_of_nat 10) EmptyString.

Definition rag_context (search_results : list SearchResult) : string :=
  let context_chunks :=
    map (fun result =>
           let content := sr_content result in
           let metadata := sr_metadata result in
           let source_info :=
             "Источник: " +:+
             meta_text (default (MStr "Неизвестно") (metadata !! "page_title")) in
           content +:+ newline +:+ "(" +:+ source_info +:+ ")")
        search_results in
  join (newline +:+ newline +:+ "---" +:+ newline +:+ newline) context_chunks.

Definition rag_prompt (query : string) (search_results : list SearchResult)
    : string :=
  "
        Ты — Ассистент для студентов и абитуриентов IITU. Твоя задача — отвечать на вопросы пользователей, используя предоставленную информацию.

        Правила ответа:
        1. Используй ТОЛЬКО информацию из предоставленного контекста
        2. Отвечай кратко и четко
        3. Если информации недостаточно, скажи об этом честно
        4. Сохраняй язык вопроса пользователя
        5. Будь вежливым и профессиональным
        6. Не добавляй лишних комментариев или пояснений

        Контекст из базы знаний IITU:
        " +:+ rag_context search_results +:+ "

        Вопрос пользователя: " +:+ query +:+ "

        Ответ:
        ".

Definition general_prompt (query : string) : string :=
  "
        Ты — Ассистент для студентов и абитуриентов IITU. Пользователь задал вопрос, который не связан с базой знаний университета.

        Правила ответа:
        1. Отвечай в рамках своей роли как ассистент IITU
        2. Если вопрос не связан с университетом, вежливо направь к релевантным темам
        3. Будь кратким и профессиональным
        4. Сохраняй язык вопроса пользователя
        5. Предлагай обратиться к официальным источникам при необходимости

        Вопрос пользователя: " +:+ query +:+ "

        Ответ:
        ".

Definition refine_context_text (context : list Interaction) : string :=
  let recent_context := Py.last_n 3 context in
  fold_left (fun context_text item =>
               context_text +:+ "Запрос: " +:+ i_query item +:+ newline +:+
               "Ответ: " +:+ Py.upto 200 (i_response item) +:+ "..." +:+
               newline +:+ newline)
            recent_context "".

Definition refine_prompt (original_query : string) (context : list Interaction)
    : string :=
  "
        Переформулируй пользовательский запрос, чтобы получить более точный ответ из базы знаний IITU.

        Исходный запрос: " +:+ original_query +:+ "

        Контекст предыдущих взаимодействий:
        " +:+ refine_context_text context +:+ "

        Создай улучшенную версию запроса, которая:
        1. Более конкретная и четкая
        2. Использует ключевые слова, связанные с IITU
        3. Учитывает контекст предыдущих вопросов
        4. Сохраняет язык оригинального запроса

        Переформулированный запрос:
        ".

Definition new_session : Session := mkSession 0 None [].

Definition with_retry_count (n : Z) (s : Session) : Session :=
  mkSession n (last_query s) (context s).
Definition with_last_query (q : option string) (s : Session) : Session :=
  mkSession (retry_count s) q (context s).
Definition with_context (c : list Interaction) (s : Session) : Session :=
  mkSession (retry_count s) (last_query s) c.

(** [if len(session['context']) > 5:
        session['context'] = session['context'][-5:]] *)
Definition keep_last_five (s : Session) : Session :=
  if (5 <? length (context s))%nat
  then with_context (Py.last_n 5 (context s)) s
  else s.

(** [await message.answer(text)] *)
Definition message_answer (message : Message) (reply : string) : M unit :=
  modify (fun w => set_outbox (outbox w ++ [(chat_id message, reply)]) w).

(** [await self.bot.send_chat_action(chat_id, 'typing')] *)
Definition send_chat_action (chat : Z) : M unit := ret tt.

(** [self.user_sessions[user_id]], a [KeyError] when absent *)
Definition session_of (user_id : Z) : M Session :=
  fun w =>
    match user_sessions w !! user_id with
    | Some session => (Ok session, w)
    | None => (Raise "KeyError", w)
    end.

(** an assignment through the alias [session = self.user_sessions[user_id]] *)
Definition update_session (user_id : Z) (f : Session -> Session) : M unit :=
  modify (fun w => set_user_sessions (alter f user_id (user_sessions w)) w).

Section IITUTelegramBot.

Variable backend_fault : nat -> bool.
Variable embedding_distance : string -> string -> float.
Variable completion : nat -> string -> option string.
(** [Config.MAX_RETRIES] *)
Variable MAX_RETRIES : Z.

Definition generate_rag_response (query : string)
    (search_results : list SearchResult) : M string :=
  let prompt := rag_prompt query search_results in
  catch
    (let* response := generate_content completion prompt in
     ret (Py.strip response))
    (fun _ => ret rag_apology_text).

Definition generate_general_response (query : string) : M string :=
  let prompt := general_prompt query in
  catch
    (let* response := generate_content completion prompt in
     ret (Py.strip response))
    (fun _ => ret general_fallback_text).

Definition refine_query (original_query : string) (context : list Interaction)
    : M string :=
  let prompt := refine_prompt original_query context in
  catch
    (let* response := generate_content completion prompt in
     let refined := Py.strip response in
     ret refined)
    (fun _ => ret original_query).

Definition process_user_query (message : Message) (query : string)
    (is_refined : bool) : M unit :=
  catch
    (run send_chat_action (chat_id message) then
     let* search_results := search backend_fault embedding_distance query 5 in
     let user_id := from_user_id message in
     let* session := session_of user_id in
     let* relevant :=
       match search_results with
       | [] => ret false
       | _ :: _ =>
           is_relevant backend_fault embedding_distance query default_threshold
       end in
     let* response :=
       if relevant then
         let* response := generate_rag_response query search_results in
         run update_session user_id (fun s =>
               with_context (context s ++ [mkInteraction query response "rag"]) s) then
         ret response
       else
         let* response := generate_general_response query in
         run update_session user_id (fun s =>
               with_context (context s ++ [mkInteraction query response "general"]) s) then
         ret response in
     run update_session user_id keep_last_five then
     message_answer message response)
    (fun _ => message_answer message processing_error_text).

Definition handle_start (message : Message) : M unit :=
  run message_answer message welcome_text then
  modify (fun w =>
    set_user_sessions (<[from_user_id message := new_session]> (user_sessions w)) w).

Definition handle_help (message : Message) : M unit :=
  message_answer message help_text.

Definition handle_return (message : Message) : M unit :=
  let user_id := from_user_id message in
  let* sessions := gets user_sessions in
  match sessions !! user_id with
  | None => message_answer message ask_first_text
  | Some session =>
      if negb (Py.truthy (default "" (last_query session)))
      then message_answer message no_previous_query_text
      else if (MAX_RETRIES <=? retry_count session)%Z
      then message_answer message retries_exhausted_text
      else
        run update_session user_id (fun s =>
              with_retry_count (retry_count s + 1) s) then
        let* session := session_of user_id in
        let* refined_query :=
          refine_query (default "" (last_query session)) (context session) in
        run message_answer message
              ("🔄 Переформулирую ваш запрос (попытка " +:+
               pretty (retry_count session) +:+ ")...") then
        process_user_query message refined_query true
  end.

Definition handle_text (message : Message) : M unit :=
  let user_query := Py.strip (text message) in
  if negb (Py.truthy user_query)
  then message_answer message empty_query_text
  else
    let user_id := from_user_id message in
    let* sessions := gets user_sessions in
    run (match sessions !! user_id with
         | None =>
             modify (fun w =>
               set_user_sessions (<[user_id := new_session]> (user_sessions w)) w)
         | Some _ => ret tt
         end) then
    run update_session user_id (with_retry_count 0) then
    run update_session user_id (with_last_query (Some user_query)) then
    process_user_query message user_query false.

(** The updates the dispatcher routes, by the handler registered for them. *)
Inductive Update :=
| CommandStart (message : Message)
| CommandHelp (message : Message)
| CommandReturn (message : Message)
| TextMessage (message : Message).

Definition handle (u : Update) : M unit :=
  match u with
  | CommandStart m => handle_start m
  | CommandHelp m => handle_help m
  | CommandReturn m => handle_return m
  | TextMessage m => handle_text m
  end.

(** the world after the updates have been handled one after the other *)
Definition feed (updates : list Update) (w : World) : World :=
  fold_left (fun w u => snd (handle u w)) updates w.

(** *** The retrieval gate in the words of the specification

    The RAG path is taken when [search(query, 5)] returns something and
    [isRelevant(query)] holds; the prompt, the reply and the context record
    follow from the path. *)

Definition gate_results (query : string) (w : World) : list SearchResult :=
  match fst (search backend_fault embedding_distance query 5 w) with
  | Ok results => results
  | Raise _ => []
  end.

Definition takes_rag_path (query : string) (w : World) : bool :=
  match search backend_fault embedding_distance query 5 w with
  | (Ok (_ :: _), w1) =>
      match fst (is_relevant backend_fault embedding_distance query
                   default_threshold w1) with
      | Ok true => true
      | _ => false
      end
  | _ => false
  end.

Definition answer_prompt (query : string) (w : World) : string :=
  if takes_rag_path query w
  then rag_prompt query (gate_results query w)
  else general_prompt query.

Definition answer_text (query : string) (w : World) : string :=
  match completion (length (ai_log w)) (answer_prompt query w) with
  | Some response => Py.strip response
  | None =>
      if takes_rag_path query w then rag_apology_text else general_fallback_text
  end.

Definition answer_record (query : string) (w : World) : Interaction :=
  mkInteraction query (answer_text query w)
    (if takes_rag_path query w then "rag" else "general").

End IITUTelegramBot.

(** the world after [message.answer(reply)] *)
Definition said (message : Message) (reply : string) (w : World) : World :=
  set_outbox (outbox w ++ [(chat_id message, reply)]) w.

(** the window of the five most recent exchanges after one more *)
Definition record_exchange (r : Interaction) (s : Session) : Session :=
  with_context (Py.last_n 5 (context s ++ [r])) s.

(** A session about to be refused a refinement, and oracles for it: a
    collaborator that always answers, a completion service that is down, and
    documents all equally far from every query. *)
Definition demo_message : Message := mkMessage 1 1 "/return".
Definition demo_session : Session := mkSession 3 (Some "What is IITU?") [].
Definition demo_sessions : gmap Z Session := {[ 1%Z := demo_session ]}.
Definition no_fault (k : nat) : bool := false.
Definition no_service (k : nat) (prompt : string) : option string := None.
Definition echo_service (k : nat) (prompt : string) : option string :=
  Some ("answer " +:+ pretty k).
Definition flat_distance (query document : string) : float := 0.125%float.

(** the context of a user's session, empty when there is none yet *)
Definition context_of (user_id : Z) (w : World) : list Interaction :=
  match user_sessions w !! user_id with
  | Some s => context s
  | None => []
  end.

(** the updates of one user sending the texts [queries] one after the other *)
Definition asks (user_id chat : Z) (queries : list string) : list Update :=
  map (fun q => TextMessage (mkMessage user_id chat q)) queries.

(** The world when the bot starts: no session yet, nothing sent, whatever
    the knowledge store holds. *)
Definition boot (stored : option (list Entry)) : World :=
  mkWorld stored 0 0 [] ∅ [].

(** Worlds with an empty knowledge base and the one session of user 1:
    out of retries in the first, with all of them left in the second; and a
    world whose knowledge base holds one chunk. *)
Definition demo_world : World := set_user_sessions demo_sessions (boot (Some [])).
Definition demo_fresh_world : World :=
  set_user_sessions {[ 1%Z := mkSession 0 (Some "What is IITU?") [] ]}
    (boot (Some [])).
Definition demo_stocked_world : World :=
  set_user_sessions demo_sessions
    (boot (Some [mkEntry 0 "Applications close on 1 July."
                   {[ "page_title" := MStr "Admission" ]}])).

(** the user an update comes from *)
Definition sender (u : Update) : Z :=
  match u with
  | CommandStart m | CommandHelp m | CommandReturn m | TextMessage m =>
      from_user_id m
  end.

(** what a refinement makes of the query it is given: the stripped answer
    of the completion service, or the query itself when the service fails *)
Definition refined_query (completion : nat -> string -> option string)
    (original : string) (context : list Interaction) (w : World) : string :=
  match completion (length (ai_log w)) (refine_prompt original context) with
  | Some response => Py.strip response
  | None => original
  end.

End Bot.

(** ** [scraper/__init__.py]: the crawler *)

Module Scraper.

(** What [scrape_page] reads of a parsed document: the [<title>] text if
    there is one, the [<meta name=description>] tag if there is one with its
    [content] attribute if it has one, the text [get_text()] gives once
    script and style nodes are removed, and the [href] of every anchor that
    is left then and has one, in document order. *)
Record Soup := mkSoup {
  soup_title : option string;
  soup_meta_description : option (option string);
  soup_text : string;
  soup_hrefs : list string
}.

(** a line boundary of [str.splitlines] below code point 128 *)
Definition is_line_break (c : ascii) : bool :=
  let n := nat_of_ascii c in
  (Nat.leb 10 n && Nat.leb n 13) || (Nat.leb 28 n && Nat.leb n 30).

(** the pieces between line boundaries; the empty pieces this yields where
    [splitlines] yields none are dropped by [extract_text_content] *)
Fixpoint split_lines (s : string) : list string :=
  match s with
  | EmptyString => [EmptyString]
  | String c rest =>
      if is_line_break c then EmptyString :: split_lines rest
      else match split_lines rest with
           | line :: lines => String c line :: lines
           | [] => [String c EmptyString]
           end
  end.

(** [s.split("  ")] *)
Fixpoint split_double_space (fuel : nat) (s : string) : list string :=
  match fuel with
  | 0 => [s]
  | S fuel' =>
      match s with
      | String " " (String " " rest) => EmptyString :: split_double_space fuel' rest
      | String c rest =>
          match split_double_space fuel' rest with
          | phrase :: phrases => String c phrase :: phrases
          | [] => [String c EmptyString]
          end
      | EmptyString => [EmptyString]
      end
  end.

(** One state of the loop of [scrape_website]: the two attributes of the
    scraper, the local frontier, and two ghost logs (the URLs handed to
    [scrape_page] and the URLs put on the frontier, oldest first). *)
Record Crawl := mkCrawl {
  visited_urls : gset string;
  scraped_data : list Page;
  urls_to_visit : list string;
  fetch_log : list string;
  enqueue_log : list string
}.

Section IITUWebScraper.

(** [Config.IITU_BASE_URL], [Config.MAX_PAGES_TO_SCRAPE] *)
Variable base_url : string.
Variable max_pages : Z.
(** [urlparse(url).netloc] and [urljoin(base, href)]; [None] on [ValueError] *)
Variable netloc : string -> option string.
Variable urljoin : string -> string -> option string.
(** the [n]-th request: [requests.get], [raise_for_status] and the parse;
    [None] when one of them raises *)
Variable http_get : nat -> string -> option Soup.
(** [time.time()] at the [n]-th request *)
Variable time_time : nat -> float.

Definition is_valid_url (url : string) : option bool :=
  match netloc url with
  | Some parsed_netloc => Some (Py.contains "iitu.edu.kz" parsed_netloc)
  | None => None
  end.

Definition extract_text_content (soup : Soup) : string :=
  let text := soup_text soup in
  let lines := map Py.strip (split_lines text) in
  let chunks :=
    flat_map (fun line =>
                map Py.strip (split_double_space (String.length line) line))
             lines in
  Bot.join " " (filter (fun chunk => Py.truthy chunk = true) chunks).

(** [None] when [urljoin] or [urlparse] raises on one of the anchors *)
Fixpoint extract_links_from (visited : gset string) (hrefs : list string)
    (current_url : string) : option (list string) :=
  match hrefs with
  | [] => Some []
  | href :: rest =>
      match urljoin current_url href with
      | None => None
      | Some url =>
          match is_valid_url url with
          | None => None
          | Some valid =>
              match extract_links_from visited rest current_url with
              | None => None
              | Some links =>
                  if valid && bool_decide (url ∉ visited)
                  then Some (url :: links)
                  else Some links
              end
          end
      end
  end.

Definition extract_links (visited : gset string) (soup : Soup)
    (current_url : string) : option (list string) :=
  extract_links_from visited (soup_hrefs soup) current_url.

Definition error_page (url e : string) (now : float) : Page :=
  mkPage url "" "" "" [] now (Some e) None None None None None None.

Definition scrape_page (visited : gset string) (n : nat) (url : string) : Page :=
  match http_get n url with
  | None => error_page url "request failed" (time_time n)
  | Some soup =>
      let title_text :=
        match soup_title soup with
        | Some title => Py.strip title
        | None => "No title"
        end in
      let description :=
        match soup_meta_description soup with
        | Some meta_desc => default "" meta_desc
        | None => ""
        end in
      let content := extract_text_content soup in
      match extract_links visited soup url with
      | None => error_page url "invalid URL" (time_time n)
      | Some links =>
          mkPage url title_text description content links (time_time n)
                 None None None None None None None
      end
  end.

(** [for link in page_data['links']: if link not in self.visited_urls and
    link not in urls_to_visit: urls_to_visit.append(link)] *)
Definition add_new_links (links : list string) (c : Crawl) : Crawl :=
  fold_left (fun c link =>
               if bool_decide (link ∉ visited_urls c)
                  && bool_decide (link ∉ urls_to_visit c)
               then mkCrawl (visited_urls c) (scraped_data c)
                            (urls_to_visit c ++ [link])
                            (fetch_log c) (enqueue_log c ++ [link])
               else c)
            links c.

(** One turn of the [while] loop; [None] when its condition is false. *)
Definition iteration (c : Crawl) : option Crawl :=
  match urls_to_visit c with
  | [] => None
  | current_url :: rest =>
      if (Z.of_nat (length (scraped_data c)) <? max_pages)%Z then
        if bool_decide (current_url ∈ visited_urls c)
        then Some (mkCrawl (visited_urls c) (scraped_data c) rest
                           (fetch_log c) (enqueue_log c))
        else
          let visited := {[current_url]} ∪ visited_urls c in
          let page_data :=
            scrape_page visited (length (scraped_data c)) current_url in
          Some (add_new_links (p_links page_data)
                  (mkCrawl visited (scraped_data c ++ [page_data]) rest
                           (fetch_log c ++ [current_url]) (enqueue_log c)))
      else None
  end.

(** The loop, at most [fuel] turns: [None] when they do not suffice. *)
Fixpoint scrape_loop (fuel : nat) (c : Crawl) : option Crawl :=
  match iteration c with
  | None => Some c
  | Some c' =>
      match fuel with
      | 0 => None
      | S fuel' => scrape_loop fuel' c'
      end
  end.

(** the state [scrape_website] starts from, on a scraper whose attributes
    are [visited] and [scraped] *)
Definition start (visited : gset string) (scraped : list Page) : Crawl :=
  mkCrawl visited scraped [base_url] [] [base_url].

Definition scrape_website (fuel : nat) (visited : gset string)
    (scraped : list Page) : option Crawl :=
  scrape_loop fuel (start visited scraped).

(** a URL that [is_valid_url] lets through: one whose network location
    holds ["iitu.edu.kz"] somewhere.  This is the test of the code, not
    membership of the domain (see [in_domain] below). *)
Definition passes_is_valid_url (url : string) : Prop :=
  is_valid_url url = Some true.

(** What holds of every state of a run that starts on a fresh scraper: what
    was put on the frontier is what was fetched followed by what still
    waits, nothing twice; the visited set is the set of fetched URLs; every
    record is that of a fetch, in order; and everything put on the frontier
    after the seed has passed [is_valid_url]. *)
Record crawl_invariant (c : Crawl) : Prop := mkCrawlInvariant {
  inv_frontier : enqueue_log c = fetch_log c ++ urls_to_visit c;
  inv_no_dup : NoDup (enqueue_log c);
  inv_visited : forall u, u ∈ visited_urls c <-> u ∈ fetch_log c;
  inv_records : map p_url (scraped_data c) = fetch_log c;
  inv_domain : exists links,
      enqueue_log c = base_url :: links /\ Forall passes_is_valid_url links
}.

End IITUWebScraper.

(** every character of [s] passes [P] *)
Fixpoint all_chars (P : ascii -> bool) (s : string) : bool :=
  match s with
  | EmptyString => true
  | String c rest => P c && all_chars P rest
  end.

(** no character of [s] is a line boundary *)
Definition one_line (s : string) : bool :=
  all_chars (fun c => negb (is_line_break c)) s.

(** what a crawl from a fresh scraper also keeps: every link recorded with
    a page has been put on the frontier *)
Definition links_known (c : Crawl) : Prop :=
  forall page_data link,
    page_data ∈ scraped_data c -> link ∈ p_links page_data ->
    link ∈ enqueue_log c.

(** A site of three pages that link to each other in a cycle and to a
    foreign host, for a crawl that stops at two pages. *)
Definition demo_netloc (url : string) : option string :=
  if String.prefix "https://iitu.edu.kz" url then Some "iitu.edu.kz"
  else Some "example.org".
Definition demo_urljoin (base href : string) : option string := Some href.
Definition demo_http_get (n : nat) (url : string) : option Soup :=
  Some (mkSoup (Some "IITU") None "text"
          ["https://iitu.edu.kz/a"; "https://iitu.edu.kz"; "https://example.org";
           "https://iitu.edu.kz/b"; "https://iitu.edu.kz/a"]).
Definition demo_clock (n : nat) : float := 0%float.
Definition demo_http_down (n : nat) (url : string) : option Soup := None.

(** [s.endswith(suffix)] *)
Fixpoint endswith (suffix s : string) : bool :=
  String.eqb s suffix
  || match s with
     | EmptyString => false
     | String _ rest => endswith suffix rest
     end.

(** The claim's words, a host whose domain matches the configured domain,
    as the docstring of [is_valid_url] has them (belongs to the domain):
    the host is the domain itself or a subdomain of it. *)
Definition domain_matches (domain host : string) : bool :=
  String.eqb host domain || endswith ("." +:+ domain) host.

(** [url] parses and its network location belongs to [domain] *)
Definition in_domain (netloc : string -> option string)
    (domain url : string) : bool :=
  match netloc url with
  | Some host => domain_matches domain host
  | None => false
  end.

(** [urlparse(url).netloc] of an [https] URL: what stands between the
    scheme and the first slash, question mark or hash; empty for a URL
    without that scheme *)
Fixpoint authority (s : string) : string :=
  match s with
  | EmptyString => EmptyString
  | String c rest =>
      if (Ascii.eqb c "/" || Ascii.eqb c "?" || Ascii.eqb c "#")%bool
      then EmptyString
      else String c (authority rest)
  end.
Definition https_netloc (url : string) : option string :=
  if String.prefix "https://" url
  then Some (authority (String.substring 8 (String.length url - 8) url))
  else Some EmptyString.

(** The site on which the domain check fails: the home page of the
    configured site has one anchor, to the login page of a foreign host
    whose name starts with the name of the site; that page has none. *)
Definition lookalike_url : string := "https://iitu.edu.kz.example.org/login".
Definition lookalike_http_get (n : nat) (url : string) : option Soup :=
  if String.eqb url "https://iitu.edu.kz"
  then Some (mkSoup (Some "IITU") None "Welcome" [lookalike_url])
  else Some (mkSoup (Some "Sign in") None "Password" []).

End Scraper.

(** ** [main.py]: building the knowledge base, with its cache on disk *)

Module Main.

Import Database Processor Scraper.

(** The two files under [data/]: [scraped_data.json] and
    [processed_data.json], each absent or holding the list of page dicts
    last dumped to it; what [json.dump] writes, [json.load] reads back. *)
Record Files := mkFiles {
  scraped_file : option (list Page);
  processed_file : option (list Page)
}.

(** What [IITUBotApplication] works on: the knowledge store and the
    completion service, the files, and the two attributes of its scraper. *)
Record App := mkApp {
  app_world : World;
  app_files : Files;
  app_visited : gset string;
  app_scraped : list Page
}.

(** [DataProcessor.load_processed_data]: the list in the file, [[]] when
    there is no file *)
Definition load_processed_data (files : Files) : list Page :=
  match processed_file files with
  | Some processed_data => processed_data
  | None => []
  end.

(** the [try] of [update_knowledge_base]: [os.remove] of the scraped file,
    then of the processed file, a [FileNotFoundError] from either ending the
    block *)
Definition remove_cached (files : Files) : Files :=
  match scraped_file files with
  | None => files
  | Some _ => mkFiles None None
  end.

Section IITUBotApplication.

Variable backend_fault : nat -> bool.
Variable completion : nat -> string -> option string.
Variable split_text : string -> option (list string).
Variable base_url : string.
Variable max_pages : Z.
Variable netloc : string -> option string.
Variable urljoin : string -> string -> option string.
Variable http_get : nat -> string -> option Soup.
Variable time_time : nat -> float.

(** [None] when the crawl is not over within [fuel] turns *)
Definition setup_knowledge_base (fuel : nat) (app : App)
    : option (result unit * App) :=
  let processed_data := load_processed_data (app_files app) in
  match processed_data with
  | [] =>
      match scrape_website base_url max_pages netloc urljoin http_get
              time_time fuel (app_visited app) (app_scraped app) with
      | None => None
      | Some c =>
          let scraped_data := scraped_data c in
          let files1 :=
            mkFiles (Some scraped_data) (processed_file (app_files app)) in
          match process_all_data completion split_text scraped_data
                  (app_world app) with
          | (Raise e, w1) =>
              Some (Raise e, mkApp w1 files1 (visited_urls c) scraped_data)
          | (Ok processed_data, w1) =>
              let files2 := mkFiles (Some scraped_data) (Some processed_data) in
              let chunks := extract_all_chunks processed_data in
              match build_knowledge_base backend_fault chunks w1 with
              | (r, w2) =>
                  Some (r, mkApp w2 files2 (visited_urls c) scraped_data)
              end
          end
      end
  | _ :: _ =>
      let chunks := extract_all_chunks processed_data in
      match build_knowledge_base backend_fault chunks (app_world app) with
      | (r, w1) =>
          Some (r, mkApp w1 (app_files app) (app_visited app) (app_scraped app))
      end
  end.

Definition update_knowledge_base (fuel : nat) (app : App)
    : option (result unit * App) :=
  setup_knowledge_base fuel
    (mkApp (app_world app) (remove_cached (app_files app))
           (app_visited app) (app_scraped app)).

End IITUBotApplication.

(** An application whose processed file holds one processed page and
    whose scraped file is gone. *)
Definition demo_cached_page : Page :=
  mkPage "https://iitu.edu.kz" "IITU" "" "Admission is open" [] 0%float
         None (Some "Admission is open") (Some "Admission is open.")
         (Some ["Admission is open."]) (Some 1) (Some true) None.
Definition demo_app : App :=
  mkApp (mkWorld (Some []) 0 0 [] ∅ [])
        (mkFiles None (Some [demo_cached_page])) ∅ [].
Definition demo_new_app : App :=
  mkApp (mkWorld (Some []) 0 0 [] ∅ []) (mkFiles None None) ∅ [].

End Main.

(** * Properties *)

(** ** The knowledge store *)

Module DatabaseFacts.

Import Database.

Lemma zip_entries_nil_metadatas documents ids : zip_entries documents [] ids = [].
Proof. destruct documents; reflexivity. Qed.

Lemma zip_entries_nil_ids documents metadatas :
  zip_entries documents metadatas [] = [].
Proof. destruct documents, metadatas; reflexivity. Qed.

Lemma zip_entries_take (n : nat) : forall documents metadatas ids,
  zip_entries (take n documents) (take n metadatas) (take n ids)
  = take n (zip_entries documents metadatas ids).
Proof.
  induction n as [|n IH]; intros [|d ds] [|m ms] [|i is_]; simpl;
    rewrite ?zip_entries_nil_metadatas, ?zip_entries_nil_ids, ?IH; reflexivity.
Qed.

Lemma zip_entries_drop (n : nat) : forall documents metadatas ids,
  zip_entries (drop n documents) (drop n metadatas) (drop n ids)
  = drop n (zip_entries documents metadatas ids).
Proof.
  induction n as [|n IH]; intros [|d ds] [|m ms] [|i is_]; simpl;
    rewrite ?zip_entries_nil_metadatas, ?zip_entries_nil_ids, ?IH; reflexivity.
Qed.

Lemma zip_entries_slice (i j : nat) documents metadatas ids :
  zip_entries (Py.slice i j documents) (Py.slice i j metadatas) (Py.slice i j ids)
  = Py.slice i j (zip_entries documents metadatas ids).
Proof. unfold Py.slice. rewrite zip_entries_take, zip_entries_drop. reflexivity. Qed.

Lemma zip_entries_unzip (es : list Entry) :
  zip_entries (map entry_document es) (map entry_metadata es) (map entry_id es) = es.
Proof. induction es as [|[i d m] es IH]; simpl; [|rewrite IH]; reflexivity. Qed.

Lemma batches_cover (len : nat) :
  len <= (len + batch_size - 1) / batch_size * batch_size.
Proof.
  unfold batch_size.
  pose proof (Nat.div_mod_eq (len + 100 - 1) 100) as E.
  pose proof (Nat.mod_upper_bound (len + 100 - 1) 100). lia.
Qed.

Section Rebuild.

Variable backend_fault : nat -> bool.

(** [prepare] draws one identifier per chunk and extends the three lists
    with the columns of [knowledge_entries]. *)
Lemma prepare_spec chunks : forall documents metadatas ids w,
  prepare chunks documents metadatas ids w
  = (Ok (documents ++ map entry_document (knowledge_entries (uuid_drawn w) chunks),
         metadatas ++ map entry_metadata (knowledge_entries (uuid_drawn w) chunks),
         ids ++ map entry_id (knowledge_entries (uuid_drawn w) chunks)),
     set_uuid_drawn (uuid_drawn w + length chunks) w).
Proof.
  induction chunks as [|chunk rest IH]; intros documents metadatas ids w.
  - simpl. unfold ret. rewrite !app_nil_r, Nat.add_0_r. destruct w; reflexivity.
  - cbn [prepare knowledge_entries]. unfold bind at 1. unfold uuid4 at 1.
    destruct (Py.blank (chunk_content chunk)).
    + rewrite IH. destruct w; cbn. rewrite Nat.add_succ_r. reflexivity.
    + rewrite IH. destruct w; cbn. rewrite <- !app_assoc, Nat.add_succ_r.
      reflexivity.
Qed.

(** As long as the client answers, the batches put the slices of the three
    lists into the collection one after the other. *)
Lemma add_batches_ok documents metadatas ids (n : nat) : forall a es w,
  collection w = Some es ->
  (forall k, db_calls w <= k -> backend_fault k = false) ->
  for_each (map (fun k => k * batch_size) (seq a n))
    (fun i => collection_add backend_fault
                (Py.slice i (i + batch_size) documents)
                (Py.slice i (i + batch_size) metadatas)
                (Py.slice i (i + batch_size) ids)) w
  = (Ok tt,
     set_collection
       (Some (es ++ take (n * batch_size)
                      (drop (a * batch_size) (zip_entries documents metadatas ids))))
       (set_db_calls (db_calls w + n) w)).
Proof.
  induction n as [|n IH]; intros a es w Hc Hf.
  - simpl. unfold ret. rewrite app_nil_r, Nat.add_0_r.
    destruct w; simpl in *; subst; reflexivity.
  - cbn [seq map for_each]. unfold bind at 1.
    unfold collection_add at 1, client_call at 1.
    rewrite (Hf (db_calls w) (le_n _)). cbn [collection set_db_calls].
    rewrite Hc.
    rewrite (IH (S a)
               (es ++ zip_entries (Py.slice (a * batch_size) (a * batch_size + batch_size) documents)
                                  (Py.slice (a * batch_size) (a * batch_size + batch_size) metadatas)
                                  (Py.slice (a * batch_size) (a * batch_size + batch_size) ids)));
      cbn [collection set_collection db_calls]; [| reflexivity |].
    + rewrite zip_entries_slice. unfold Py.slice.
      replace (a * batch_size + batch_size - a * batch_size) with batch_size by lia.
      rewrite <- app_assoc.
      replace (S a * batch_size) with (a * batch_size + batch_size) by lia.
      rewrite <- drop_drop, take_take_drop.
      replace (batch_size + n * batch_size) with (S n * batch_size) by lia.
      destruct w; cbn [set_collection set_db_calls collection db_calls uuid_drawn
                       ai_log user_sessions outbox].
      rewrite Nat.add_succ_r. reflexivity.
    + intros k Hk. apply Hf. destruct w; cbn in *. lia.
Qed.

Lemma add_chunks_ok chunks w :
  collection w = Some [] ->
  (forall k, db_calls w <= k -> backend_fault k = false) ->
  exists w',
    add_chunks backend_fault chunks w = (Ok tt, w') /\
    collection w' = Some (knowledge_entries (uuid_drawn w) chunks) /\
    db_calls w <= db_calls w'.
Proof.
  intros Hc Hf. destruct chunks as [|chunk rest].
  - exists w. cbn. repeat split; [assumption | lia].
  - unfold add_chunks, bind. rewrite prepare_spec. cbn [app].
    set (es := knowledge_entries (uuid_drawn w) (chunk :: rest)).
    destruct (map entry_document es) as [|d ds] eqn:Hd.
    + eexists. split; [reflexivity|]. destruct es; [|discriminate].
      destruct w; cbn in *. split; [assumption | lia].
    + rewrite <- Hd. unfold Py.range_step.
      rewrite (add_batches_ok _ _ _ _ 0 []).
      * eexists. split; [reflexivity|]. cbn [collection set_collection db_calls].
        rewrite zip_entries_unzip. change (0 * batch_size) with 0.
        cbn [drop app]. rewrite take_ge.
        -- destruct w; cbn. split; [reflexivity | lia].
        -- rewrite length_map. apply batches_cover.
      * destruct w; cbn in *; assumption.
      * intros k Hk. apply Hf. destruct w; cbn in *; lia.
Qed.

(** C1 (as amended): when no call to the ChromaDB client fails during it,
    [build_knowledge_base] ends normally and the collection then holds
    exactly the new entries, one per non-blank chunk, in place of the prior
    ones.  Nothing is promised when a call fails: the clear is not undone. *)
Theorem rebuild_replaces_when_client_answers
    (chunks : list Chunk) (w : World) (prior : list Entry) :
  collection w = Some prior ->
  (forall k, db_calls w <= k -> backend_fault k = false) ->
  exists w',
    build_knowledge_base backend_fault chunks w = (Ok tt, w') /\
    collection w' = Some (knowledge_entries (uuid_drawn w) chunks).
Proof.
  intros Hc Hf.
  unfold build_knowledge_base, bind at 1.
  unfold clear_collection, catch, bind at 1.
  unfold delete_collection, client_call at 1.
  rewrite (Hf _ (le_n _)). cbn [collection set_db_calls]. rewrite Hc.
  unfold create_collection, client_call.
  cbn [db_calls set_collection set_db_calls collection].
  rewrite (Hf (S (db_calls w))) by lia.
  unfold bind at 1.
  match goal with
  | |- context [add_chunks backend_fault chunks ?w1] =>
      destruct (add_chunks_ok chunks w1) as (w2 & Hadd & Hc2 & Hk2);
        [reflexivity | intros k Hk; apply Hf; cbn in Hk; lia |]
  end.
  rewrite Hadd. unfold bind, get_collection_info, catch, bind.
  unfold collection_count, client_call.
  rewrite (Hf (db_calls w2)) by (cbn in Hk2; lia).
  cbn [collection set_db_calls]. rewrite Hc2.
  eexists. split; [reflexivity|]. cbn. rewrite Hc2. reflexivity.
Qed.

End Rebuild.

Lemma rebuild_replaces_when_client_answers_witness :
  exists w',
    build_knowledge_base never_fails [demo_chunk] demo_world = (Ok tt, w') /\
    collection w' = Some (knowledge_entries (uuid_drawn demo_world) [demo_chunk]).
Proof.
  apply (rebuild_replaces_when_client_answers never_fails [demo_chunk]
           demo_world demo_prior).
  - reflexivity.
  - intros k _. reflexivity.
Defined.

(** C1 (as stated) fails.  With one prior entry and one new chunk: when the
    insert raises, the exception reaches the caller and the collection is
    left empty, neither the prior content nor the new; when the delete
    raises, the rebuild reports success and the collection holds the prior
    entry followed by the new one. *)
Lemma rebuild_not_atomic :
  collection demo_world = Some demo_prior /\
  fst (build_knowledge_base insert_fails [demo_chunk] demo_world)
    = Raise "chromadb error" /\
  collection (snd (build_knowledge_base insert_fails [demo_chunk] demo_world))
    = Some [] /\
  fst (build_knowledge_base delete_fails [demo_chunk] demo_world) = Ok tt /\
  collection (snd (build_knowledge_base delete_fails [demo_chunk] demo_world))
    = Some (demo_prior ++ knowledge_entries 0 [demo_chunk]) /\
  ~ rebuild_atomic insert_fails.
Proof.
  repeat split; try (vm_compute; reflexivity).
  intros H. specialize (H [demo_chunk] demo_world demo_prior eq_refl).
  vm_compute in H. destruct H as [H|H]; discriminate H.
Qed.

Section Relevance.

Variable backend_fault : nat -> bool.
Variable embedding_distance : string -> string -> float.

Lemma search_total query n w :
  exists results w',
    search backend_fault embedding_distance query n w = (Ok results, w').
Proof.
  unfold search, catch.
  match goal with
  | |- exists _ _, match ?m with _ => _ end = _ =>
      destruct m as [[results|e] w']
  end; eauto.
Qed.

(** A failing query degrades to the empty result. *)
Lemma search_degrades query n w :
  backend_fault (db_calls w) = true ->
  search backend_fault embedding_distance query n w
  = (Ok [], set_db_calls (S (db_calls w)) w).
Proof.
  intros Hf. unfold search, catch, bind, collection_query, client_call.
  rewrite Hf. reflexivity.
Qed.

(** An empty or missing collection yields the empty result. *)
Lemma search_nothing_stored query n w :
  collection w = Some [] \/ collection w = None ->
  search backend_fault embedding_distance query n w
  = (Ok [], set_db_calls (S (db_calls w)) w).
Proof.
  intros Hc. unfold search, catch, bind, collection_query, client_call.
  destruct (backend_fault (db_calls w)); [reflexivity|].
  cbn [collection set_db_calls].
  destruct Hc as [-> | ->]; [|reflexivity].
  unfold nearest. cbn [map fold_right]. rewrite take_nil. reflexivity.
Qed.

Lemma index_frame {A} (l : list A) (i : nat) (w : World) :
  snd (index l i w) = w.
Proof. unfold index. destruct (nth_error l i); reflexivity. Qed.

Lemma map_m_frame {A B} (body : A -> M B) (l : list A) :
  (forall x w, snd (body x w) = w) -> forall w, snd (map_m body l w) = w.
Proof.
  intros Hbody. induction l as [|x rest IH]; intros w; [reflexivity|].
  cbn [map_m]. unfold bind.
  specialize (Hbody x w). destruct (body x w) as [[y|e] w1]. 2: exact Hbody.
  cbn in Hbody. subst w1.
  specialize (IH w). destruct (map_m body rest w) as [[ys|e] w2]; exact IH.
Qed.

(** [search] always returns, and touches nothing but the call counter. *)
Lemma search_frame query n w :
  exists results,
    search backend_fault embedding_distance query n w
    = (Ok results, set_db_calls (S (db_calls w)) w).
Proof.
  unfold search, catch, bind at 1, collection_query, client_call.
  destruct (backend_fault (db_calls w)); [eexists; reflexivity|].
  cbn [collection set_db_calls].
  destruct (collection w) as [es|]; [|eexists; reflexivity].
  cbn [qr_documents qr_metadatas qr_distances].
  destruct (map (fun h => entry_document (fst h)) (nearest embedding_distance query n es))
    as [|doc docs]; [eexists; reflexivity|].
  match goal with
  | |- exists _, match map_m ?body ?l ?w1 with _ => _ end = _ =>
      assert (Hbody : forall x w0, snd (body x w0) = w0);
        [| pose proof (map_m_frame body l Hbody w1) as Hframe;
           destruct (map_m body l w1) as [[results|e] w2];
           cbn in Hframe; subst w2; eexists; reflexivity]
  end.
  intros [i d] w0. cbn [some_items default from_option]. unfold id, bind.
  change (index [?x] 0 ?w) with (@Ok _ x, w). cbv iota beta.
  match goal with
  | |- context [index ?l i w0] =>
      pose proof (index_frame l i w0) as Hi;
        destruct (index l i w0) as [[m|e'] w3]; cbn in Hi; subst w3
  end; [|reflexivity].
  match goal with
  | |- context [index ?l i w0] =>
      pose proof (index_frame l i w0) as Hi;
        destruct (index l i w0) as [[dd|e'] w3]; cbn in Hi; subst w3
  end; reflexivity.
Qed.

Lemma is_relevant_frame query threshold w :
  exists b,
    is_relevant backend_fault embedding_distance query threshold w
    = (Ok b, set_db_calls (S (db_calls w)) w).
Proof.
  unfold is_relevant, bind.
  destruct (search_frame query 1 w) as (results & ->).
  destruct results; eexists; reflexivity.
Qed.

(** C5: [is_relevant] runs [search(query, 1)], which always returns; with
    no hit the answer is [False], and with a top hit it is
    [threshold <= 1.0 - distance] in binary64 arithmetic.  A failing backend
    query counts as no hit.  The default threshold is 0.5. *)
Theorem is_relevant_spec (query : string) (threshold : float) (w : World) :
  (exists results w',
     search backend_fault embedding_distance query 1 w = (Ok results, w') /\
     is_relevant backend_fault embedding_distance query threshold w
     = (Ok (relevant_by_spec results threshold), w') /\
     (relevant_by_spec results threshold = true <->
      exists top rest,
        results = top :: rest /\
        PrimFloat.leb threshold (PrimFloat.sub 1 (sr_distance top)) = true)) /\
  (forall results w',
     search backend_fault embedding_distance query 1 w = (Ok results, w') ->
     results = [] ->
     is_relevant backend_fault embedding_distance query threshold w
     = (Ok false, w')) /\
  (backend_fault (db_calls w) = true ->
   fst (is_relevant backend_fault embedding_distance query threshold w)
   = Ok false) /\
  default_threshold = 0.5%float.
Proof.
  repeat split.
  - destruct (search_total query 1 w) as (results & w' & Hs).
    exists results, w'. split; [assumption|]. split.
    + unfold is_relevant, bind. rewrite Hs. destruct results; reflexivity.
    + destruct results as [|top rest]; cbn; split.
      * discriminate.
      * intros (? & ? & ? & _). discriminate.
      * intros H. exists top, rest. split; [reflexivity | assumption].
      * intros (top' & rest' & E & H). injection E as <- <-. assumption.
  - intros results w' Hs ->. unfold is_relevant, bind. rewrite Hs. reflexivity.
  - intros Hf. unfold is_relevant, bind. rewrite (search_degrades _ _ _ Hf).
    reflexivity.
Qed.

End Relevance.

Lemma is_relevant_spec_witness :
  fst (is_relevant delete_fails level_distance "What is IITU?" 0.5%float
         demo_world) = Ok false.
Proof.
  apply (proj1 (proj2 (proj2 (is_relevant_spec delete_fails level_distance
                                "What is IITU?" 0.5%float demo_world)))).
  reflexivity.
Defined.

(** With the client answering, the one stored entry is the top hit at
    distance 0.25: relevant at the default threshold, not at 0.8. *)
Example is_relevant_examples :
  fst (is_relevant never_fails level_distance "What is IITU?"
         default_threshold demo_world) = Ok true /\
  fst (is_relevant never_fails level_distance "What is IITU?" 0.8125%float
         demo_world) = Ok false.
Proof. split; vm_compute; reflexivity. Qed.

End DatabaseFacts.

(** ** The processor *)

Module ProcessorFacts.

Import Database Processor.

Section Enhancer.

Variable completion : nat -> string -> option string.

(** C8: [improve_text_with_ai] never raises, and when the completion
    service fails on the call it makes, it returns the raw text unchanged. *)
Theorem enhancer_is_best_effort (text page_title : string) (w : World) :
  (exists improved w',
     improve_text_with_ai completion text page_title w = (Ok improved, w')) /\
  (completion (length (ai_log w)) (improve_prompt page_title text) = None ->
   exists w',
     improve_text_with_ai completion text page_title w = (Ok text, w')).
Proof.
  unfold improve_text_with_ai. destruct (Py.blank text).
  - split; [| intros _]; eexists; try eexists; reflexivity.
  - unfold catch, bind, generate_content.
    destruct (completion (length (ai_log w)) (improve_prompt page_title text)).
    + split; [eexists; eexists; reflexivity | discriminate].
    + split; [| intros _]; eexists; try eexists; reflexivity.
Qed.

End Enhancer.

Lemma enhancer_is_best_effort_witness :
  exists w',
    improve_text_with_ai service_down "Admission is open" "IITU" quiet_world
    = (Ok "Admission is open", w').
Proof.
  apply (enhancer_is_best_effort service_down "Admission is open" "IITU"
           quiet_world).
  reflexivity.
Defined.

Section Pages.

Variable completion : nat -> string -> option string.
Variable split_text : string -> option (list string).

Lemma extract_all_chunks_app l1 l2 :
  extract_all_chunks (l1 ++ l2) = extract_all_chunks l1 ++ extract_all_chunks l2.
Proof. unfold extract_all_chunks. apply flat_map_app. Qed.

(** A page that carries an error is handed back as it is, without a call
    to the completion service or the splitter. *)
Lemma error_page_skipped page_data e w :
  p_error page_data = Some e ->
  process_page_data completion split_text page_data w = (Ok page_data, w).
Proof. intros He. unfold process_page_data. rewrite He. reflexivity. Qed.

(** [process_all_data] emits one page per page, in order. *)
Lemma process_all_data_emits scraped_data : forall w,
  exists out w',
    process_all_data completion split_text scraped_data w = (Ok out, w') /\
    Forall2 (fun p q =>
               exists w1,
                 emitted p (fst (process_page_data completion split_text p w1)) q)
            scraped_data out.
Proof.
  induction scraped_data as [|p rest IH]; intros w.
  - exists [], w. split; [reflexivity | constructor].
  - unfold process_all_data. cbn [map_m]. unfold bind at 1. unfold catch at 1.
    destruct (process_page_data completion split_text p w) as [[q|e] w1] eqn:Hp.
    + destruct (IH w1) as (out & w' & Hrest & Hall).
      unfold process_all_data in Hrest. unfold bind. rewrite Hrest.
      exists (q :: out), w'. split; [reflexivity|].
      constructor; [|assumption]. exists w. rewrite Hp. reflexivity.
    + cbn [ret]. destruct (IH w1) as (out & w' & Hrest & Hall).
      unfold process_all_data in Hrest. unfold bind. rewrite Hrest.
      exists (with_processing_error e p :: out), w'. split; [reflexivity|].
      constructor; [|assumption]. exists w. rewrite Hp. reflexivity.
Qed.

(** C10 (as amended): of the pages the scraper built, one that carries an
    error is emitted unchanged, with no call to the completion service; one
    on which processing raises is emitted as a copy with [processing_error]
    added.  Neither is given improved content or chunks or marked processed,
    and neither contributes a chunk to [extract_all_chunks]. *)
Theorem failed_pages_contribute_nothing (scraped_data : list Page) (w : World) :
  Forall unprocessed scraped_data ->
  exists out w',
    process_all_data completion split_text scraped_data w = (Ok out, w') /\
    Forall2 (fun p q =>
      exists w1,
        let r := process_page_data completion split_text p w1 in
        emitted p (fst r) q /\
        (p_error p <> None -> q = p /\ snd r = w1) /\
        (forall e, fst r = Raise e -> q = with_processing_error e p) /\
        (p_error p <> None \/ is_ok (fst r) = false ->
         p_improved_content q = None /\ p_chunks q = None /\
         p_processed q = None /\ extract_all_chunks [q] = []))
      scraped_data out.
Proof.
  intros Hun.
  destruct (process_all_data_emits scraped_data w) as (out & w' & Hrun & Hall).
  exists out, w'. split; [assumption|].
  clear Hrun. induction Hall as [|p q ps qs (w1 & Hem) _ IH];
    [constructor|].
  inversion Hun as [|? ? Hp Hps]; subst.
  constructor; [|apply IH; assumption].
  exists w1. cbn zeta.
  destruct Hp as (Ho & Hi & Hc & Hn & Hpr & He).
  split; [assumption|]. split; [|split].
  - intros Herr. destruct (p_error p) as [e|] eqn:E; [|congruence].
    rewrite (error_page_skipped p e w1 E) in *. cbn in *. auto.
  - intros e Hr. rewrite Hr in Hem. exact Hem.
  - intros [Herr | Hfail].
    + destruct (p_error p) as [e|] eqn:E; [|congruence].
      rewrite (error_page_skipped p e w1 E) in Hem. cbn in Hem. subst q.
      unfold extract_all_chunks. cbn. rewrite Hi, Hc, Hpr. auto.
    + destruct (fst (process_page_data completion split_text p w1))
        as [q'|e]; [discriminate|].
      cbn in Hem. subst q. unfold extract_all_chunks. cbn.
      rewrite Hi, Hc, Hpr. auto.
Qed.

End Pages.

Lemma failed_pages_contribute_nothing_witness :
  exists out w',
    process_all_data service_answers splitter_raises
      [demo_failed_page; demo_page] quiet_world = (Ok out, w') /\
    Forall2 (fun p q =>
      exists w1,
        let r := process_page_data service_answers splitter_raises p w1 in
        emitted p (fst r) q /\
        (p_error p <> None -> q = p /\ snd r = w1) /\
        (forall e, fst r = Raise e -> q = with_processing_error e p) /\
        (p_error p <> None \/ is_ok (fst r) = false ->
         p_improved_content q = None /\ p_chunks q = None /\
         p_processed q = None /\ extract_all_chunks [q] = []))
      [demo_failed_page; demo_page] out.
Proof.
  apply (failed_pages_contribute_nothing service_answers splitter_raises
           [demo_failed_page; demo_page] quiet_world).
  repeat constructor.
Defined.

(** A page that is processed without a failure is what contributes: here
    one chunk, numbered 0 of 1, under the page's URL and title. *)
Example processed_page_contributes :
  option_map extract_all_chunks
    (match fst (process_all_data service_answers splitter_whole
                  [demo_failed_page; demo_page] quiet_world) with
     | Ok out => Some out
     | Raise _ => None
     end)
  = Some [Database.mkChunk "Admission is open." "https://iitu.edu.kz" "IITU" "" 0 1].
Proof. vm_compute. reflexivity. Qed.

(** C10 (as stated) fails: a page on which the splitter raises, after the
    completion service was called for it, is not emitted unchanged but with
    a [processing_error] added. *)
Lemma failed_page_is_changed :
  fst (process_all_data service_answers splitter_raises [demo_page] quiet_world)
    = Ok [with_processing_error "text splitter error" demo_page] /\
  with_processing_error "text splitter error" demo_page <> demo_page /\
  length (ai_log (snd (process_all_data service_answers splitter_raises
                         [demo_page] quiet_world))) = 1.
Proof.
  split; [vm_compute; reflexivity|]. split; [|vm_compute; reflexivity].
  intros H. apply (f_equal p_processing_error) in H. discriminate H.
Qed.

End ProcessorFacts.

(** ** The bot *)

Module BotFacts.

Import Database Bot DatabaseFacts.

Lemma last_n_all {A} (n : nat) (l : list A) :
  length l <= n -> Py.last_n n l = l.
Proof.
  intros H. unfold Py.last_n.
  replace (length l - n) with 0 by lia. reflexivity.
Qed.

Lemma length_last_n {A} (n : nat) (l : list A) : length (Py.last_n n l) <= n.
Proof. unfold Py.last_n. rewrite length_drop. lia. Qed.

Lemma last_n_last_n_snoc {A} (n : nat) (l : list A) (x : A) :
  0 < n -> Py.last_n n (Py.last_n n l ++ [x]) = Py.last_n n (l ++ [x]).
Proof.
  intros Hn. unfold Py.last_n.
  rewrite length_app, length_drop, length_app. cbn [length].
  destruct (le_lt_dec (length l) n) as [Hle|Hlt].
  - replace (length l - n) with 0 by lia. cbn [drop]. f_equal. lia.
  - rewrite drop_app_le by (rewrite length_drop; lia).
    rewrite drop_drop.
    rewrite (drop_app_le l) by lia.
    f_equal. f_equal. lia.
Qed.

(** appending a record and then cutting to five is [record_exchange] *)
Lemma append_then_trim (r : Interaction) (s : Session) :
  keep_last_five (with_context (context s ++ [r]) s) = record_exchange r s.
Proof.
  unfold keep_last_five, record_exchange, with_context.
  cbn [context retry_count last_query].
  destruct (Nat.ltb_spec 5 (length (context s ++ [r]))) as [H|H].
  - reflexivity.
  - rewrite last_n_all by assumption. reflexivity.
Qed.

Lemma alter_alter (f g : Session -> Session) (i : Z) (m : gmap Z Session) :
  alter f i (alter g i m) = alter (fun s => f (g s)) i m.
Proof.
  apply map_eq. intros j.
  destruct (decide (i = j)) as [->|Hne].
  - rewrite !lookup_alter_eq. destruct (m !! j); reflexivity.
  - rewrite !lookup_alter_ne by assumption. reflexivity.
Qed.

Section Gate.

Variable backend_fault : nat -> bool.
Variable embedding_distance : string -> string -> float.
Variable completion : nat -> string -> option string.
Variable MAX_RETRIES : Z.

(** The two branches of [process_user_query] and what follows them, once
    the gate has decided. *)
Lemma gate_branches message query results (relevant : bool) (w : World) :
  let prompt :=
    if relevant then rag_prompt query results else general_prompt query in
  let reply :=
    match completion (length (ai_log w)) prompt with
    | Some response => Py.strip response
    | None => if relevant then rag_apology_text else general_fallback_text
    end in
  (let* response :=
     if relevant then
       let* response := generate_rag_response completion query results in
       run update_session (from_user_id message) (fun s =>
             with_context (context s ++ [mkInteraction query response "rag"]) s) then
       ret response
     else
       let* response := generate_general_response completion query in
       run update_session (from_user_id message) (fun s =>
             with_context (context s ++ [mkInteraction query response "general"]) s) then
       ret response in
   run update_session (from_user_id message) keep_last_five then
   message_answer message response) w
  = (Ok tt,
     mkWorld (collection w) (db_calls w) (uuid_drawn w) (ai_log w ++ [prompt])
       (alter (record_exchange
                 (mkInteraction query reply
                    (if relevant then "rag" else "general")))
              (from_user_id message) (user_sessions w))
       (outbox w ++ [(chat_id message, reply)])).
Proof.
  cbv zeta. destruct relevant.
  - unfold generate_rag_response, generate_general_response, catch, bind,
      generate_content, message_answer, update_session, modify, ret.
    destruct (completion (length (ai_log w)) (rag_prompt query results));
      unfold set_outbox, set_user_sessions, set_ai_log;
      cbn [collection db_calls uuid_drawn ai_log user_sessions outbox];
      rewrite alter_alter; f_equal; f_equal;
      apply alter_ext; intros ? _; apply append_then_trim.
  - unfold generate_rag_response, generate_general_response, catch, bind,
      generate_content, message_answer, update_session, modify, ret.
    destruct (completion (length (ai_log w)) (general_prompt query));
      unfold set_outbox, set_user_sessions, set_ai_log;
      cbn [collection db_calls uuid_drawn ai_log user_sessions outbox];
      rewrite alter_alter; f_equal; f_equal;
      apply alter_ext; intros ? _; apply append_then_trim.
Qed.

(** What [process_user_query] does for a user who has a session. *)
Lemma process_user_query_spec message query is_refined w session :
  user_sessions w !! from_user_id message = Some session ->
  exists k,
    process_user_query backend_fault embedding_distance completion
      message query is_refined w
    = (Ok tt,
       mkWorld (collection w) k (uuid_drawn w)
         (ai_log w ++ [answer_prompt backend_fault embedding_distance query w])
         (alter (record_exchange
                   (answer_record backend_fault embedding_distance completion
                      query w))
                (from_user_id message) (user_sessions w))
         (outbox w ++
          [(chat_id message,
            answer_text backend_fault embedding_distance completion query w)])).
Proof.
  intros Hsess.
  destruct (search_frame backend_fault embedding_distance query 5 w)
    as (results & Hs).
  unfold answer_record, answer_text, answer_prompt, takes_rag_path,
    gate_results.
  unfold process_user_query, catch.
  unfold bind at 1. unfold send_chat_action, ret at 1.
  unfold bind at 1. rewrite Hs. cbn [fst].
  unfold bind at 1. unfold session_of. cbn [user_sessions set_db_calls].
  rewrite Hsess.
  unfold bind at 1.
  destruct results as [|top rest].
  - unfold ret at 1.
    rewrite (gate_branches message query [] false). eexists. reflexivity.
  - destruct (is_relevant_frame backend_fault embedding_distance query
                default_threshold
                (set_db_calls (S (db_calls w)) w)) as (b & Hb).
    rewrite Hb. cbn [fst].
    rewrite (gate_branches message query (top :: rest) b).
    destruct b; eexists; reflexivity.
Qed.

Lemma alter_absent (f : Session -> Session) (i : Z) (m : gmap Z Session) :
  m !! i = None -> alter f i m = m.
Proof.
  intros Hi. apply map_eq. intros j.
  destruct (decide (i = j)) as [<-|Hne].
  - rewrite lookup_alter_eq, Hi. reflexivity.
  - apply lookup_alter_ne. assumption.
Qed.

(** Without a session the lookup raises, and the handler of the [try]
    answers with the error text. *)
Lemma process_user_query_no_session message query is_refined w :
  user_sessions w !! from_user_id message = None ->
  process_user_query backend_fault embedding_distance completion
    message query is_refined w
  = (Ok tt,
     mkWorld (collection w) (S (db_calls w)) (uuid_drawn w) (ai_log w)
       (user_sessions w)
       (outbox w ++ [(chat_id message, processing_error_text)])).
Proof.
  intros Hsess.
  destruct (search_frame backend_fault embedding_distance query 5 w)
    as (results & Hs).
  unfold process_user_query, catch.
  unfold bind at 1. unfold send_chat_action, ret at 1.
  unfold bind at 1. rewrite Hs.
  unfold bind at 1. unfold session_of. cbn [user_sessions set_db_calls].
  rewrite Hsess. reflexivity.
Qed.

(** In every case [process_user_query] ends normally; it adds one reply,
    records at most one exchange in the asking user's session, and leaves
    the collection alone. *)
Lemma process_user_query_effect message query is_refined w :
  exists k extra rec reply,
    process_user_query backend_fault embedding_distance completion
      message query is_refined w
    = (Ok tt,
       mkWorld (collection w) k (uuid_drawn w) (ai_log w ++ extra)
         (alter (record_exchange rec) (from_user_id message) (user_sessions w))
         (outbox w ++ [(chat_id message, reply)]))
    /\ i_query rec = query.
Proof.
  destruct (user_sessions w !! from_user_id message) as [session|] eqn:Hsess.
  - destruct (process_user_query_spec message query is_refined w session Hsess)
      as (k & ->).
    do 4 eexists. split; [reflexivity | reflexivity].
  - rewrite (process_user_query_no_session _ _ _ _ Hsess).
    exists (S (db_calls w)), [], (mkInteraction query "" ""), processing_error_text.
    rewrite app_nil_r, (alter_absent _ _ _ Hsess). split; reflexivity.
Qed.

(** [handle_return], branch by branch. *)
Lemma handle_return_unfold message w :
  handle_return backend_fault embedding_distance completion MAX_RETRIES message w
  = match user_sessions w !! from_user_id message with
    | None => (Ok tt, said message ask_first_text w)
    | Some session =>
        if negb (Py.truthy (default "" (last_query session)))
        then (Ok tt, said message no_previous_query_text w)
        else if (MAX_RETRIES <=? retry_count session)%Z
        then (Ok tt, said message retries_exhausted_text w)
        else
          let original := default "" (last_query session) in
          let prompt := refine_prompt original (context session) in
          let refined :=
            match completion (length (ai_log w)) prompt with
            | Some response => Py.strip response
            | None => original
            end in
          process_user_query backend_fault embedding_distance completion
            message refined true
            (mkWorld (collection w) (db_calls w) (uuid_drawn w)
               (ai_log w ++ [prompt])
               (alter (fun s => with_retry_count (retry_count s + 1) s)
                      (from_user_id message) (user_sessions w))
               (outbox w ++
                [(chat_id message,
                  "🔄 Переформулирую ваш запрос (попытка " +:+
                  pretty (retry_count session + 1)%Z +:+ ")...")]))
    end.
Proof.
  unfold handle_return. unfold bind at 1. unfold gets.
  destruct (user_sessions w !! from_user_id message) as [session|] eqn:Hsess;
    [|reflexivity].
  destruct (negb (Py.truthy (default "" (last_query session)))); [reflexivity|].
  destruct (MAX_RETRIES <=? retry_count session)%Z; [reflexivity|].
  unfold bind at 1. unfold update_session at 1, modify.
  unfold bind at 1. unfold session_of.
  cbn [user_sessions set_user_sessions]. rewrite lookup_alter_eq, Hsess.
  cbn [fmap option_fmap option_map with_retry_count last_query context retry_count].
  unfold bind at 1. unfold refine_query, catch, bind at 1, generate_content.
  cbn [ai_log set_user_sessions].
  destruct (completion (length (ai_log w))
              (refine_prompt (default "" (last_query session)) (context session)));
    unfold bind at 1; unfold message_answer at 1, modify; cbv zeta;
    destruct w; reflexivity.
Qed.

(** [handle_text], branch by branch. *)
Lemma handle_text_unfold message w :
  handle_text backend_fault embedding_distance completion message w
  = let user_query := Py.strip (text message) in
    if negb (Py.truthy user_query)
    then (Ok tt, said message empty_query_text w)
    else
      let sessions :=
        match user_sessions w !! from_user_id message with
        | None => <[from_user_id message := new_session]> (user_sessions w)
        | Some _ => user_sessions w
        end in
      process_user_query backend_fault embedding_distance completion
        message user_query false
        (set_user_sessions
           (alter (fun s => with_last_query (Some user_query)
                              (with_retry_count 0 s))
                  (from_user_id message) sessions) w).
Proof.
  unfold handle_text. cbv zeta.
  destruct (negb (Py.truthy (Py.strip (text message)))); [reflexivity|].
  unfold bind at 1. unfold gets.
  destruct (user_sessions w !! from_user_id message) as [session|];
    unfold bind at 1; unfold modify, ret; unfold bind at 1;
    unfold update_session at 1, modify; unfold bind at 1;
    unfold update_session at 1, modify;
    destruct w; cbn [set_user_sessions user_sessions collection db_calls
                     uuid_drawn ai_log outbox];
    rewrite alter_alter; reflexivity.
Qed.

Lemma map_Forall_alter_lookup (P : Session -> Prop) (f : Session -> Session)
    (i : Z) (m : gmap Z Session) :
  (forall s, m !! i = Some s -> P s -> P (f s)) ->
  map_Forall (fun _ => P) m -> map_Forall (fun _ => P) (alter f i m).
Proof.
  intros Hf Hm j s'. destruct (decide (i = j)) as [<-|Hne].
  - rewrite lookup_alter_eq. destruct (m !! i) as [s|] eqn:Hi; [|discriminate].
    cbn. intros [= <-]. apply (Hf s eq_refl). exact (Hm i s Hi).
  - rewrite lookup_alter_ne by assumption. apply Hm.
Qed.

(** A property of sessions that the four ways a handler writes a session
    keep is kept by every handler, and so by every run of the bot. *)
Section Invariant.

Variable P : Session -> Prop.
Hypothesis P_new : P new_session.
Hypothesis P_record : forall r s, P s -> P (record_exchange r s).
Hypothesis P_retry : forall s,
  P s -> (retry_count s < MAX_RETRIES)%Z ->
  P (with_retry_count (retry_count s + 1) s).
Hypothesis P_fresh : forall q s,
  P s -> P (with_last_query (Some q) (with_retry_count 0 s)).

Lemma process_user_query_keeps message query is_refined w :
  map_Forall (fun _ => P) (user_sessions w) ->
  map_Forall (fun _ => P)
    (user_sessions
       (snd (process_user_query backend_fault embedding_distance completion
               message query is_refined w))).
Proof.
  intros Hw.
  destruct (process_user_query_effect message query is_refined w)
    as (k & extra & rec & reply & -> & _).
  cbn [snd user_sessions]. apply map_Forall_alter_lookup; [|assumption].
  intros s _ Hs. apply P_record. assumption.
Qed.

Lemma handle_keeps (u : Update) (w : World) :
  map_Forall (fun _ => P) (user_sessions w) ->
  map_Forall (fun _ => P)
    (user_sessions
       (snd (handle backend_fault embedding_distance completion MAX_RETRIES u w))).
Proof.
  intros Hw. destruct u as [m|m|m|m]; cbn [handle].
  - cbn. apply map_Forall_insert_2; assumption.
  - exact Hw.
  - rewrite handle_return_unfold.
    destruct (user_sessions w !! from_user_id m) as [session|] eqn:Hsess;
      [|exact Hw].
    destruct (negb (Py.truthy (default "" (last_query session)))); [exact Hw|].
    destruct (Z.leb_spec MAX_RETRIES (retry_count session)) as [|Hlt]; [exact Hw|].
    cbv zeta. apply process_user_query_keeps. cbn [user_sessions].
    apply map_Forall_alter_lookup; [|assumption].
    intros s Hs HP. rewrite Hsess in Hs. injection Hs as <-.
    apply P_retry; assumption.
  - rewrite handle_text_unfold. cbv zeta.
    destruct (negb (Py.truthy (Py.strip (text m)))); [exact Hw|].
    apply process_user_query_keeps. cbn [user_sessions set_user_sessions].
    apply map_Forall_alter_lookup.
    + intros s _ HP. apply P_fresh. assumption.
    + destruct (user_sessions w !! from_user_id m); [assumption|].
      apply map_Forall_insert_2; assumption.
Qed.

Lemma feed_keeps (updates : list Update) : forall w,
  map_Forall (fun _ => P) (user_sessions w) ->
  map_Forall (fun _ => P)
    (user_sessions
       (feed backend_fault embedding_distance completion MAX_RETRIES updates w)).
Proof.
  induction updates as [|u rest IH]; intros w Hw; [exact Hw|].
  cbn [feed fold_left]. apply IH. apply handle_keeps. assumption.
Qed.

End Invariant.

(** One text message that is not blank: the reply is sent, and the
    exchange enters the window of the user's session. *)
Lemma handle_text_records user_id chat query w :
  Py.truthy (Py.strip query) = true ->
  exists rec w',
    handle_text backend_fault embedding_distance completion
      (mkMessage user_id chat query) w = (Ok tt, w') /\
    i_query rec = Py.strip query /\
    user_sessions w' !! user_id
      = Some (mkSession 0 (Some (Py.strip query))
                (Py.last_n 5 (context_of user_id w ++ [rec]))) /\
    outbox w' = outbox w ++ [(chat, i_response rec)].
Proof.
  intros Hq. rewrite handle_text_unfold. cbv zeta.
  cbn [text from_user_id]. rewrite Hq. cbn [negb].
  set (F := fun s => with_last_query (Some (Py.strip query)) (with_retry_count 0 s)).
  set (sessions := match user_sessions w !! user_id with
                   | Some _ => user_sessions w
                   | None => <[user_id:=new_session]> (user_sessions w)
                   end).
  set (wa := set_user_sessions (alter F user_id sessions) w).
  assert (Ha : user_sessions wa !! user_id
               = Some (mkSession 0 (Some (Py.strip query)) (context_of user_id w))).
  { unfold wa, sessions, context_of. cbn [user_sessions set_user_sessions].
    rewrite lookup_alter_eq.
    destruct (user_sessions w !! user_id) as [s|] eqn:Hs.
    - rewrite Hs. reflexivity.
    - rewrite lookup_insert_eq. reflexivity. }
  destruct (process_user_query_spec (mkMessage user_id chat query)
              (Py.strip query) false wa _ Ha) as (k & ->).
  exists (answer_record backend_fault embedding_distance completion
            (Py.strip query) wa).
  eexists. split; [reflexivity|].
  cbn [user_sessions outbox from_user_id chat_id].
  rewrite lookup_alter_eq, Ha. cbn [fmap option_fmap option_map].
  split; [reflexivity|]. split; [reflexivity|].
  unfold wa. destruct w; reflexivity.
Qed.

(** Texts from one user, one after the other: the window holds the last
    five of all the exchanges so far. *)
Lemma asks_fill_window user_id chat (queries : list string) : forall w history,
  Forall (fun q => Py.truthy (Py.strip q) = true) queries ->
  context_of user_id w = Py.last_n 5 history ->
  exists recs,
    map i_query recs = map Py.strip queries /\
    context_of user_id
      (feed backend_fault embedding_distance completion MAX_RETRIES
         (asks user_id chat queries) w)
    = Py.last_n 5 (history ++ recs) /\
    outbox (feed backend_fault embedding_distance completion MAX_RETRIES
              (asks user_id chat queries) w)
    = outbox w ++ map (fun r => (chat, i_response r)) recs.
Proof.
  induction queries as [|q rest IH]; intros w history Hall Hctx.
  - exists []. cbn. rewrite !app_nil_r. auto.
  - inversion Hall as [|? ? Hq Hrest]; subst.
    destruct (handle_text_records user_id chat q w Hq)
      as (rec & w' & Hrun & Hrq & Hsess & Hout).
    cbn [asks map feed fold_left handle]. rewrite Hrun. cbn [snd].
    destruct (IH w' (history ++ [rec]) Hrest) as (recs & Hqs & Hc & Ho).
    { unfold context_of at 1. rewrite Hsess. cbn [context].
      rewrite Hctx. apply last_n_last_n_snoc. lia. }
    exists (rec :: recs). cbn [map]. rewrite Hrq, Hqs.
    split; [reflexivity|]. split.
    + unfold asks, feed in Hc. rewrite Hc, <- app_assoc. reflexivity.
    + unfold asks, feed in Ho. rewrite Ho, Hout, <- app_assoc. reflexivity.
Qed.

(** C4: for a user who has a session, [process_user_query] ends normally
    and takes the RAG path exactly when [search(query, 5)] returned something
    and [is_relevant(query)] held, the generic path otherwise; the path shows
    in the prompt submitted and in the source of the recorded exchange.  On
    an empty (or missing) collection the path is the generic one. *)
Theorem retrieval_gate message query is_refined w session :
  user_sessions w !! from_user_id message = Some session ->
  let rag := takes_rag_path backend_fault embedding_distance query w in
  exists w',
    process_user_query backend_fault embedding_distance completion
      message query is_refined w = (Ok tt, w') /\
    ai_log w' = ai_log w ++
      [if rag
       then rag_prompt query (gate_results backend_fault embedding_distance query w)
       else general_prompt query] /\
    user_sessions w' !! from_user_id message
      = Some (record_exchange
                (mkInteraction query
                   (answer_text backend_fault embedding_distance completion query w)
                   (if rag then "rag" else "general"))
                session) /\
    (rag = true <->
     exists top rest w1,
       search backend_fault embedding_distance query 5 w = (Ok (top :: rest), w1) /\
       fst (is_relevant backend_fault embedding_distance query
              default_threshold w1) = Ok true) /\
    (collection w = Some [] \/ collection w = None -> rag = false).
Proof.
  intros Hsess rag.
  destruct (process_user_query_spec message query is_refined w session Hsess)
    as (k & Hrun).
  eexists. split; [exact Hrun|].
  cbn [ai_log user_sessions]. split; [reflexivity|]. split.
  { rewrite lookup_alter_eq, Hsess. reflexivity. }
  split.
  - unfold rag, takes_rag_path.
    destruct (search backend_fault embedding_distance query 5 w)
      as [[[|top rest]|e] w1]; split;
      try discriminate;
      try (intros (? & ? & ? & [=] & _); fail).
    + intros H. exists top, rest, w1. split; [reflexivity|].
      destruct (fst (is_relevant backend_fault embedding_distance query
                       default_threshold w1)) as [[|]|]; [reflexivity | discriminate ..].
    + intros (top' & rest' & w1' & E & Hrel). injection E as <- <- <-.
      rewrite Hrel. reflexivity.
  - intros Hempty. unfold rag, takes_rag_path.
    rewrite (search_nothing_stored _ _ _ _ _ Hempty). reflexivity.
Qed.

(** C6: a refinement request for a session that has a query and whose
    retry count has reached [MAX_RETRIES] is answered with the terminal
    message and changes nothing else: no prompt is submitted and no session
    is written.  With a maximum that is not negative, no session of any run
    of the bot ever has a retry count above it. *)
Theorem exhausted_retries_are_rejected :
  (forall message w session,
     user_sessions w !! from_user_id message = Some session ->
     Py.truthy (default "" (last_query session)) = true ->
     (MAX_RETRIES <= retry_count session)%Z ->
     handle_return backend_fault embedding_distance completion MAX_RETRIES
       message w
     = (Ok tt, said message retries_exhausted_text w) /\
     ai_log (said message retries_exhausted_text w) = ai_log w /\
     user_sessions (said message retries_exhausted_text w) = user_sessions w /\
     db_calls (said message retries_exhausted_text w) = db_calls w) /\
  ((0 <= MAX_RETRIES)%Z ->
   forall stored updates user_id s,
     user_sessions
       (feed backend_fault embedding_distance completion MAX_RETRIES
          updates (boot stored)) !! user_id = Some s ->
     (retry_count s <= MAX_RETRIES)%Z).
Proof.
  split.
  - intros message w session Hsess Hq Hmax.
    rewrite handle_return_unfold, Hsess, Hq. cbn [negb].
    destruct (Z.leb_spec MAX_RETRIES (retry_count session)); [|lia].
    repeat split; reflexivity.
  - intros Hmax stored updates user_id s Hs.
    pose proof (feed_keeps (fun s => 0 <= retry_count s <= MAX_RETRIES)%Z) as Hkeep.
    refine (proj2 (Hkeep _ _ _ _ updates (boot stored) _ user_id s Hs)).
    + cbn. lia.
    + intros r s0 H. exact H.
    + intros s0 H Hlt. cbn. lia.
    + intros q s0 H. cbn. lia.
    + intros i s0 Hi. cbn in Hi. rewrite lookup_empty in Hi. discriminate.
Qed.

(** C7: in every run of the bot every session holds at most five
    exchanges.  A processed query puts one [{query, response, source}] record
    at the end of the window, the oldest leaving first: after the texts of
    one user the window holds the last five of all the exchanges, and after
    seven texts the third to the seventh, in order. *)
Theorem context_window_is_fifo :
  (forall stored updates user_id s,
     user_sessions
       (feed backend_fault embedding_distance completion MAX_RETRIES
          updates (boot stored)) !! user_id = Some s ->
     length (context s) <= 5) /\
  (forall message query is_refined w session,
     user_sessions w !! from_user_id message = Some session ->
     exists rec w',
       process_user_query backend_fault embedding_distance completion
         message query is_refined w = (Ok tt, w') /\
       i_query rec = query /\
       outbox w' = outbox w ++ [(chat_id message, i_response rec)] /\
       context_of (from_user_id message) w'
       = Py.last_n 5 (context session ++ [rec])) /\
  (forall stored user_id chat queries,
     Forall (fun q => Py.truthy (Py.strip q) = true) queries ->
     exists recs,
       map i_query recs = map Py.strip queries /\
       context_of user_id
         (feed backend_fault embedding_distance completion MAX_RETRIES
            (asks user_id chat queries) (boot stored))
       = Py.last_n 5 recs /\
       outbox (feed backend_fault embedding_distance completion MAX_RETRIES
                 (asks user_id chat queries) (boot stored))
       = map (fun r => (chat, i_response r)) recs) /\
  (forall stored user_id chat q1 q2 q3 q4 q5 q6 q7,
     Forall (fun q => Py.truthy (Py.strip q) = true) [q1; q2; q3; q4; q5; q6; q7] ->
     exists r1 r2 r3 r4 r5 r6 r7,
       map i_query [r1; r2; r3; r4; r5; r6; r7]
       = map Py.strip [q1; q2; q3; q4; q5; q6; q7] /\
       context_of user_id
         (feed backend_fault embedding_distance completion MAX_RETRIES
            (asks user_id chat [q1; q2; q3; q4; q5; q6; q7]) (boot stored))
       = [r3; r4; r5; r6; r7]).
Proof.
  assert (Hfill : forall stored user_id chat queries,
     Forall (fun q => Py.truthy (Py.strip q) = true) queries ->
     exists recs,
       map i_query recs = map Py.strip queries /\
       context_of user_id
         (feed backend_fault embedding_distance completion MAX_RETRIES
            (asks user_id chat queries) (boot stored))
       = Py.last_n 5 recs /\
       outbox (feed backend_fault embedding_distance completion MAX_RETRIES
                 (asks user_id chat queries) (boot stored))
       = map (fun r => (chat, i_response r)) recs).
  { intros stored user_id chat queries Hall.
    destruct (asks_fill_window user_id chat queries (boot stored) [] Hall)
      as (recs & Hq & Hc & Ho); [reflexivity|].
    exists recs. auto. }
  split; [|split; [|split]].
  - intros stored updates user_id s Hs.
    pose proof (feed_keeps (fun s => length (context s) <= 5)) as Hkeep.
    refine (Hkeep _ _ _ _ updates (boot stored) _ user_id s Hs).
    + cbn. lia.
    + intros r s0 _. cbn. apply length_last_n.
    + intros s0 H _. exact H.
    + intros q s0 H. exact H.
    + intros i s0 Hi. cbn in Hi. rewrite lookup_empty in Hi. discriminate.
  - intros message query is_refined w session Hsess.
    destruct (process_user_query_spec message query is_refined w session Hsess)
      as (k & Hrun).
    exists (answer_record backend_fault embedding_distance completion query w).
    eexists. split; [exact Hrun|].
    split; [reflexivity|]. split; [reflexivity|].
    unfold context_of. cbn [user_sessions].
    rewrite lookup_alter_eq, Hsess. reflexivity.
  - exact Hfill.
  - intros stored user_id chat q1 q2 q3 q4 q5 q6 q7 Hall.
    destruct (Hfill stored user_id chat _ Hall) as (recs & Hq & Hc & _).
    destruct recs as [|r1 [|r2 [|r3 [|r4 [|r5 [|r6 [|r7 [|r8 recs]]]]]]]];
      try discriminate Hq.
    exists r1, r2, r3, r4, r5, r6, r7. split; [exact Hq | exact Hc].
Qed.

(** C9: [process_user_query] writes neither [retry_count] nor [last_query]
    of any session, for a fresh or a refined query; [handle_return] leaves
    every [last_query] as it was, and what it asks the completion service to
    refine is the [last_query] the last fresh message set. *)
Theorem answering_keeps_the_refinement_base :
  (forall message query is_refined w user_id,
     let w' := snd (process_user_query backend_fault embedding_distance
                      completion message query is_refined w) in
     retry_count <$> (user_sessions w' !! user_id)
       = retry_count <$> (user_sessions w !! user_id) /\
     last_query <$> (user_sessions w' !! user_id)
       = last_query <$> (user_sessions w !! user_id)) /\
  (forall message w user_id,
     let w' := snd (handle_return backend_fault embedding_distance completion
                      MAX_RETRIES message w) in
     last_query <$> (user_sessions w' !! user_id)
       = last_query <$> (user_sessions w !! user_id)) /\
  (forall message w session original,
     user_sessions w !! from_user_id message = Some session ->
     last_query session = Some original ->
     Py.truthy original = true ->
     (retry_count session < MAX_RETRIES)%Z ->
     let w' := snd (handle_return backend_fault embedding_distance completion
                      MAX_RETRIES message w) in
     ai_log w' !! length (ai_log w)
       = Some (refine_prompt original (context session))).
Proof.
  assert (Hpq : forall message query is_refined w user_id,
     let w' := snd (process_user_query backend_fault embedding_distance
                      completion message query is_refined w) in
     retry_count <$> (user_sessions w' !! user_id)
       = retry_count <$> (user_sessions w !! user_id) /\
     last_query <$> (user_sessions w' !! user_id)
       = last_query <$> (user_sessions w !! user_id)).
  { intros message query is_refined w user_id.
    destruct (process_user_query_effect message query is_refined w)
      as (k & extra & rec & reply & -> & _).
    cbn [snd user_sessions].
    destruct (decide (from_user_id message = user_id)) as [<-|Hne].
    - rewrite lookup_alter_eq.
      destruct (user_sessions w !! from_user_id message); split; reflexivity.
    - rewrite lookup_alter_ne by assumption. split; reflexivity. }
  split; [exact Hpq|]. split.
  - intros message w user_id. rewrite handle_return_unfold.
    destruct (user_sessions w !! from_user_id message) as [session|] eqn:Hsess;
      [|reflexivity].
    destruct (negb (Py.truthy (default "" (last_query session)))); [reflexivity|].
    destruct (MAX_RETRIES <=? retry_count session)%Z; [reflexivity|].
    cbv zeta. rewrite (proj2 (Hpq _ _ _ _ user_id)). cbn [user_sessions].
    destruct (decide (from_user_id message = user_id)) as [<-|Hne].
    + rewrite lookup_alter_eq, Hsess. reflexivity.
    + rewrite lookup_alter_ne by assumption. reflexivity.
  - intros message w session original Hsess Hlast Hq Hlt.
    rewrite handle_return_unfold, Hsess, Hlast. cbn [default from_option id].
    rewrite Hq. cbn [negb].
    destruct (Z.leb_spec MAX_RETRIES (retry_count session)); [lia|].
    cbv zeta.
    match goal with
    | |- context [process_user_query _ _ _ ?m ?q ?r ?w0] =>
        destruct (process_user_query_effect m q r w0)
          as (k & extra & rec & reply & -> & _)
    end.
    cbn [snd ai_log]. rewrite <- app_assoc.
    rewrite lookup_app_r by lia. rewrite Nat.sub_diag. reflexivity.
Qed.

End Gate.

Lemma retrieval_gate_witness :
  exists w',
    process_user_query no_fault flat_distance no_service
      demo_message "What is IITU?" false demo_world = (Ok tt, w') /\
    ai_log w' = [general_prompt "What is IITU?"] /\
    takes_rag_path no_fault flat_distance "What is IITU?" demo_world = false.
Proof.
  destruct (retrieval_gate no_fault flat_distance no_service demo_message
              "What is IITU?" false demo_world demo_session eq_refl)
    as (w' & Hrun & Hlog & _ & _ & Hempty).
  exists w'. split; [exact Hrun|].
  rewrite Hlog, (Hempty (or_introl eq_refl)). split; reflexivity.
Defined.

(** The two scenarios of the specification: on an empty knowledge base
    the query goes the generic way; with a chunk at distance 0.125 and the
    threshold 0.5 it goes the RAG way, and the prompt quotes the chunk with
    its source. *)
Example gate_scenarios :
  takes_rag_path no_fault flat_distance "What is IITU?" demo_world = false /\
  takes_rag_path no_fault flat_distance "admission deadlines" demo_stocked_world
  = true /\
  rag_context (gate_results no_fault flat_distance "admission deadlines"
                 demo_stocked_world)
  = "Applications close on 1 July." +:+ newline +:+ "(Источник: Admission)".
Proof. repeat split; vm_compute; reflexivity. Qed.

Lemma exhausted_retries_are_rejected_witness :
  handle_return no_fault flat_distance no_service 3 demo_message demo_world
  = (Ok tt, said demo_message retries_exhausted_text demo_world) /\
  match user_sessions
          (feed no_fault flat_distance no_service 3
             (asks 1 1 ["What is IITU?"] ++
              [CommandReturn demo_message; CommandReturn demo_message;
               CommandReturn demo_message; CommandReturn demo_message])
             (boot None)) !! 1%Z with
  | Some s => (retry_count s <= 3)%Z
  | None => True
  end.
Proof.
  split.
  - apply (proj1 (exhausted_retries_are_rejected no_fault flat_distance
                    no_service 3) demo_message demo_world demo_session).
    + reflexivity.
    + reflexivity.
    + cbn. lia.
  - match goal with
    | |- match ?m !! ?i with _ => _ end =>
        destruct (m !! i) as [s|] eqn:Hs; [|exact I]
    end.
    apply (proj2 (exhausted_retries_are_rejected no_fault flat_distance
                    no_service 3) ltac:(lia) _ _ _ _ Hs).
Defined.

Lemma context_window_is_fifo_witness :
  exists r1 r2 r3 r4 r5 r6 r7,
    map i_query [r1; r2; r3; r4; r5; r6; r7]
    = map Py.strip ["q1"; "q2"; "q3"; "q4"; "q5"; "q6"; "q7"] /\
    context_of 1
      (feed no_fault flat_distance echo_service 3
         (asks 1 1 ["q1"; "q2"; "q3"; "q4"; "q5"; "q6"; "q7"]) (boot None))
    = [r3; r4; r5; r6; r7].
Proof.
  apply (proj2 (proj2 (proj2 (context_window_is_fifo no_fault flat_distance
                                echo_service 3)))).
  repeat constructor.
Defined.

Lemma answering_keeps_the_refinement_base_witness :
  ai_log (snd (handle_return no_fault flat_distance no_service 3
                 demo_message demo_fresh_world)) !! 0
  = Some (refine_prompt "What is IITU?" []).
Proof.
  apply (proj2 (proj2 (answering_keeps_the_refinement_base no_fault
                         flat_distance no_service 3))
           demo_message demo_fresh_world
           (mkSession 0 (Some "What is IITU?") []) "What is IITU?").
  - reflexivity.
  - reflexivity.
  - reflexivity.
  - cbn. lia.
Defined.

End BotFacts.

(** ** The crawler *)

Module ScraperFacts.

Import Scraper.

Section Crawl.

Variable base_url : string.
Variable max_pages : Z.
Variable netloc : string -> option string.
Variable urljoin : string -> string -> option string.
Variable http_get : nat -> string -> option Soup.
Variable time_time : nat -> float.

(** The links of a page are anchors of it, resolved against its URL, that
    pass [is_valid_url] and are not visited. *)
Lemma extract_links_from_spec visited current_url hrefs : forall links,
  extract_links_from netloc urljoin visited hrefs current_url = Some links ->
  Forall (fun u => passes_is_valid_url netloc u /\ (u ∉ visited) /\
                   exists href, href ∈ hrefs /\ urljoin current_url href = Some u)
         links.
Proof.
  induction hrefs as [|href rest IH]; intros links H; cbn in H.
  - injection H as <-. constructor.
  - destruct (urljoin current_url href) as [url|] eqn:Hj; [|discriminate].
    destruct (is_valid_url netloc url) as [valid|] eqn:Hv; [|discriminate].
    destruct (extract_links_from netloc urljoin visited rest current_url)
      as [links'|]; [|discriminate].
    specialize (IH links' eq_refl).
    assert (IH' : Forall (fun u => passes_is_valid_url netloc u /\ (u ∉ visited) /\
                exists h, h ∈ href :: rest /\ urljoin current_url h = Some u) links').
    { eapply Forall_impl; [exact IH|]. intros u (? & ? & h & ? & ?).
      repeat split; try assumption. exists h. split; [right|]; assumption. }
    destruct valid; cbn in H.
    + case_bool_decide as Hin; injection H as <-; [|exact IH'].
      constructor; [|exact IH'].
      repeat split; try assumption. exists href. split; [left|assumption].
    + injection H as <-. exact IH'.
Qed.

Lemma scrape_page_spec visited n url :
  p_url (scrape_page netloc urljoin http_get time_time visited n url) = url /\
  Forall (fun u => passes_is_valid_url netloc u /\ (u ∉ visited) /\
                   exists soup href,
                     http_get n url = Some soup /\ href ∈ soup_hrefs soup /\
                     urljoin url href = Some u)
         (p_links (scrape_page netloc urljoin http_get time_time visited n url)).
Proof.
  unfold scrape_page. destruct (http_get n url) as [soup|]; [|split; [reflexivity|constructor]].
  unfold extract_links.
  destruct (extract_links_from netloc urljoin visited (soup_hrefs soup) url)
    as [links|] eqn:Hl; [|split; [reflexivity|constructor]].
  split; [reflexivity|]. cbn [p_links].
  eapply Forall_impl; [exact (extract_links_from_spec _ _ _ _ Hl)|].
  intros u (? & ? & href & ? & ?). repeat split; try assumption.
  exists soup, href. auto.
Qed.

(** The links put on the frontier: new ones only, each once. *)
Lemma add_new_links_spec links : forall c,
  exists new,
    add_new_links links c
    = mkCrawl (visited_urls c) (scraped_data c) (urls_to_visit c ++ new)
              (fetch_log c) (enqueue_log c ++ new) /\
    NoDup new /\
    Forall (fun u => u ∈ links /\ (u ∉ visited_urls c) /\ (u ∉ urls_to_visit c)) new.
Proof.
  induction links as [|link rest IH]; intros c.
  - exists []. cbn. rewrite !app_nil_r. destruct c.
    split; [reflexivity|]. split; constructor.
  - cbn [add_new_links fold_left].
    destruct (bool_decide (link ∉ visited_urls c)
              && bool_decide (link ∉ urls_to_visit c)) eqn:Hcond.
    + apply andb_true_iff in Hcond as [Hv Hq].
      apply bool_decide_eq_true in Hv, Hq.
      match goal with
      | |- context [fold_left ?f rest ?c1] =>
          destruct (IH c1) as (new & Hrun & Hnd & Hall)
      end.
      unfold add_new_links in Hrun. cbn in Hrun.
      exists (link :: new). rewrite Hrun, <- !app_assoc. cbn.
      split; [reflexivity|]. split.
      * constructor; [|assumption].
        intros Hin. rewrite Forall_forall in Hall.
        destruct (Hall link Hin) as (_ & _ & Hnq). cbn in Hnq.
        apply Hnq. apply elem_of_app. right. apply list_elem_of_singleton. reflexivity.
      * constructor; [repeat split; [left | assumption ..]|].
        eapply Forall_impl; [exact Hall|]. cbn.
        intros u (Hu & Huv & Huq). repeat split; [right; assumption | assumption |].
        intros Hin. apply Huq. apply elem_of_app. left. assumption.
    + destruct (IH c) as (new & Hrun & Hnd & Hall).
      exists new. unfold add_new_links in Hrun. rewrite Hrun.
      split; [reflexivity|]. split; [assumption|].
      eapply Forall_impl; [exact Hall|].
      intros u (Hu & ? & ?). repeat split; [right | | ]; assumption.
Qed.

Local Abbreviation iteration := (Scraper.iteration max_pages netloc urljoin http_get time_time).
Local Abbreviation scrape_loop := (Scraper.scrape_loop max_pages netloc urljoin http_get time_time).
Local Abbreviation invariant := (crawl_invariant base_url netloc).

(** A turn that finds the front of the frontier visited only drops it. *)
Lemma iteration_skip c c' current_url rest :
  urls_to_visit c = current_url :: rest ->
  current_url ∈ visited_urls c ->
  iteration c = Some c' ->
  c' = mkCrawl (visited_urls c) (scraped_data c) rest (fetch_log c) (enqueue_log c).
Proof.
  intros Hq Hv. unfold Scraper.iteration. rewrite Hq.
  destruct (Z.of_nat (length (scraped_data c)) <? max_pages)%Z; [|discriminate].
  rewrite bool_decide_eq_true_2 by assumption. intros [= <-]. reflexivity.
Qed.

(** A turn that finds it not visited marks it, fetches it once, keeps its
    record, and puts its new links behind the rest of the frontier. *)
Lemma iteration_visit c c' current_url rest :
  urls_to_visit c = current_url :: rest ->
  current_url ∉ visited_urls c ->
  iteration c = Some c' ->
  exists page_data new,
    c' = mkCrawl ({[current_url]} ∪ visited_urls c)
                 (scraped_data c ++ [page_data]) (rest ++ new)
                 (fetch_log c ++ [current_url]) (enqueue_log c ++ new) /\
    p_url page_data = current_url /\
    (Z.of_nat (length (scraped_data c)) < max_pages)%Z /\
    NoDup new /\
    Forall (fun u =>
              passes_is_valid_url netloc u /\
              (u ∉ {[current_url]} ∪ visited_urls c) /\ (u ∉ rest) /\
              exists soup href,
                http_get (length (scraped_data c)) current_url = Some soup /\
                href ∈ soup_hrefs soup /\ urljoin current_url href = Some u)
           new.
Proof.
  intros Hq Hv. unfold Scraper.iteration. rewrite Hq.
  destruct (Z.ltb_spec (Z.of_nat (length (scraped_data c))) max_pages) as [Hlt|];
    [|discriminate].
  rewrite bool_decide_eq_false_2 by assumption. cbv zeta.
  set (visited := {[current_url]} ∪ visited_urls c).
  set (page_data := scrape_page netloc urljoin http_get time_time visited
                      (length (scraped_data c)) current_url).
  destruct (scrape_page_spec visited (length (scraped_data c)) current_url)
    as [Hurl Hlinks].
  fold page_data in Hurl, Hlinks.
  match goal with
  | |- Some (add_new_links ?l ?c1) = _ -> _ =>
      destruct (add_new_links_spec l c1) as (new & -> & Hnd & Hnew)
  end.
  cbn [visited_urls scraped_data urls_to_visit fetch_log enqueue_log].
  intros [= <-]. exists page_data, new.
  split; [reflexivity|]. split; [assumption|]. split; [assumption|].
  split; [assumption|].
  rewrite Forall_forall in Hnew, Hlinks. apply Forall_forall. intros u Hu.
  destruct (Hnew u Hu) as (Hul & Huv & Hur).
  destruct (Hlinks u Hul) as (Hdom & _ & Hanchor).
  cbn in Huv, Hur. auto.
Qed.

(** The visited set only grows. *)
Lemma iteration_monotone c c' :
  iteration c = Some c' -> visited_urls c ⊆ visited_urls c'.
Proof.
  intros Hit. destruct (urls_to_visit c) as [|current_url rest] eqn:Hq.
  - unfold Scraper.iteration in Hit. rewrite Hq in Hit. discriminate.
  - destruct (decide (current_url ∈ visited_urls c)) as [Hv|Hv].
    + rewrite (iteration_skip c c' _ _ Hq Hv Hit). reflexivity.
    + destruct (iteration_visit c c' _ _ Hq Hv Hit) as (p & new & -> & _).
      cbn. apply union_subseteq_r.
Qed.

Lemma start_invariant : invariant (start base_url ∅ []).
Proof.
  constructor; cbn.
  - reflexivity.
  - apply NoDup_singleton.
  - intros u. split; [intros H; exfalso; revert H; apply not_elem_of_empty|].
    intros H. inversion H.
  - reflexivity.
  - exists []. split; [reflexivity | constructor].
Qed.

(** On a run from a fresh scraper every turn fetches: the invariant is
    kept, and one record is added. *)
Lemma iteration_invariant c c' :
  invariant c -> iteration c = Some c' ->
  invariant c' /\ length (scraped_data c') = S (length (scraped_data c)) /\
  (Z.of_nat (length (scraped_data c)) < max_pages)%Z.
Proof.
  intros [Hfr Hnd Hvis Hrec (links & Hdom & Hval)] Hit.
  destruct (urls_to_visit c) as [|current_url rest] eqn:Hq.
  { unfold Scraper.iteration in Hit. rewrite Hq in Hit. discriminate. }
  assert (Hv : current_url ∉ visited_urls c).
  { rewrite Hvis. rewrite Hfr in Hnd. apply NoDup_app in Hnd as (_ & Hdisj & _).
    intros Hin. apply (Hdisj _ Hin). left. }
  destruct (iteration_visit c c' _ _ Hq Hv Hit)
    as (page_data & new & -> & Hurl & Hlt & Hnew & Hall).
  rewrite Forall_forall in Hall.
  split; [|split; [cbn; rewrite length_app; cbn; lia | assumption]].
  constructor; cbn [visited_urls scraped_data urls_to_visit fetch_log enqueue_log].
  - rewrite Hfr, <- !app_assoc. reflexivity.
  - apply NoDup_app. split; [assumption|]. split; [|assumption].
    intros u Hu Hun. destruct (Hall u Hun) as (_ & Hnv & Hnr & _).
    rewrite Hfr in Hu. apply elem_of_app in Hu as [Hu|Hu].
    + apply Hnv. apply elem_of_union. right. apply Hvis. assumption.
    + apply elem_of_cons in Hu as [->|Hu]; [|contradiction].
      apply Hnv. apply elem_of_union. left. apply elem_of_singleton. reflexivity.
  - intros u. rewrite elem_of_union, elem_of_singleton, elem_of_app,
      list_elem_of_singleton, Hvis. tauto.
  - rewrite map_app, Hrec. cbn. rewrite Hurl. reflexivity.
  - exists (links ++ new). rewrite Hdom. split; [reflexivity|].
    apply Forall_app. split; [assumption|].
    apply Forall_forall. intros u Hu. apply (Hall u Hu).
Qed.

(** From a fresh scraper the loop ends within [max_pages] turns, with no
    more records than the limit. *)
Lemma scrape_loop_terminates (fuel : nat) : forall c,
  invariant c ->
  (Z.of_nat (length (scraped_data c)) <= max_pages)%Z ->
  Z.to_nat max_pages - length (scraped_data c) <= fuel ->
  exists c',
    scrape_loop fuel c = Some c' /\ invariant c' /\
    (Z.of_nat (length (scraped_data c')) <= max_pages)%Z.
Proof.
  induction fuel as [|fuel IH]; intros c Hinv Hlim Hfuel.
  - cbn. destruct (iteration c) as [c1|] eqn:Hit; [|eauto].
    exfalso. destruct (iteration_invariant c c1 Hinv Hit) as (_ & _ & Hlt). lia.
  - cbn. destruct (iteration c) as [c1|] eqn:Hit; [|eauto].
    destruct (iteration_invariant c c1 Hinv Hit) as (Hinv1 & Hlen & Hlt).
    apply IH; [assumption | lia | lia].
Qed.

(** Whatever the fuel, a run that ends has kept the invariant. *)
Lemma scrape_loop_invariant (fuel : nat) : forall c c',
  invariant c -> scrape_loop fuel c = Some c' -> invariant c'.
Proof.
  induction fuel as [|fuel IH]; intros c c' Hinv; cbn;
    destruct (iteration c) as [c1|] eqn:Hit;
    try discriminate; try (intros [= <-]; assumption).
  apply IH. apply (iteration_invariant c c1 Hinv Hit).
Qed.

(** C2: a crawl that starts on a fresh scraper with a limit that is not
    negative ends within [max_pages] turns; no URL is handed to [scrape_page]
    twice, no URL is put on the frontier twice, every record is that of one
    fetch, and there are at most [max_pages] records.  In every turn of the
    loop, from any state, the visited set keeps what it had; and a turn
    whose URL is already visited drops it from the frontier and changes
    nothing else, so it adds no record. *)
Theorem crawl_visits_each_url_once (fuel : nat) :
  (0 <= max_pages)%Z ->
  Z.to_nat max_pages <= fuel ->
  (exists c,
     scrape_website base_url max_pages netloc urljoin http_get time_time
       fuel ∅ [] = Some c /\
     NoDup (fetch_log c) /\
     NoDup (enqueue_log c) /\
     map p_url (scraped_data c) = fetch_log c /\
     (forall u, u ∈ visited_urls c <-> u ∈ fetch_log c) /\
     (Z.of_nat (length (scraped_data c)) <= max_pages)%Z) /\
  (forall c c', iteration c = Some c' -> visited_urls c ⊆ visited_urls c') /\
  (forall c c' current_url rest,
     urls_to_visit c = current_url :: rest ->
     current_url ∈ visited_urls c ->
     iteration c = Some c' ->
     scraped_data c' = scraped_data c /\ fetch_log c' = fetch_log c /\
     enqueue_log c' = enqueue_log c /\ visited_urls c' = visited_urls c /\
     urls_to_visit c' = rest).
Proof.
  intros Hmax Hfuel. split; [|split].
  - destruct (scrape_loop_terminates fuel (start base_url ∅ []) start_invariant)
      as (c & Hrun & [Hfr Hnd Hvis Hrec _] & Hlim); [cbn; lia | cbn; lia |].
    exists c. split; [exact Hrun|].
    repeat split; try assumption; try apply Hvis.
    rewrite Hfr in Hnd. apply NoDup_app in Hnd. tauto.
  - exact iteration_monotone.
  - intros c c' current_url rest Hq Hv Hit.
    rewrite (iteration_skip c c' _ _ Hq Hv Hit). cbn. auto.
Qed.

(** The links a turn of the loop puts on the frontier are anchors of the
    page just fetched, resolved against its URL, that pass [is_valid_url]
    and are neither visited nor already waiting, each put there once.  So
    in a run from a fresh scraper everything put on the frontier after the
    seed has passed [is_valid_url], and only what was put on the frontier
    is fetched.  The seed itself is never tested. *)
Lemma frontier_passes_is_valid_url :
  (forall c c' current_url rest,
     urls_to_visit c = current_url :: rest ->
     current_url ∉ visited_urls c ->
     iteration c = Some c' ->
     exists new,
       urls_to_visit c' = rest ++ new /\
       enqueue_log c' = enqueue_log c ++ new /\
       NoDup new /\
       Forall (fun u =>
                 passes_is_valid_url netloc u /\
                 (u ∉ visited_urls c') /\ (u ∉ rest) /\
                 exists soup href,
                   http_get (length (scraped_data c)) current_url = Some soup /\
                   href ∈ soup_hrefs soup /\ urljoin current_url href = Some u)
              new) /\
  (forall fuel c,
     scrape_website base_url max_pages netloc urljoin http_get time_time
       fuel ∅ [] = Some c ->
     (exists links,
        enqueue_log c = base_url :: links /\ Forall (passes_is_valid_url netloc) links) /\
     (forall u, u ∈ fetch_log c -> u ∈ enqueue_log c) /\
     (passes_is_valid_url netloc base_url -> Forall (passes_is_valid_url netloc) (fetch_log c))).
Proof.
  split.
  - intros c c' current_url rest Hq Hv Hit.
    destruct (iteration_visit c c' _ _ Hq Hv Hit)
      as (page_data & new & -> & _ & _ & Hnd & Hall).
    exists new. cbn. auto.
  - intros fuel c Hrun.
    pose proof (scrape_loop_invariant fuel _ c start_invariant Hrun)
      as [Hfr _ _ _ (links & Hlog & Hlinks)].
    split; [exists links; auto|]. split.
    + intros u Hu. rewrite Hfr. apply elem_of_app. left. assumption.
    + intros Hseed. apply Forall_forall. intros u Hu.
      assert (Hin : u ∈ enqueue_log c)
        by (rewrite Hfr; apply elem_of_app; left; assumption).
      rewrite Hlog in Hin. apply elem_of_cons in Hin as [->|Hin]; [assumption|].
      rewrite Forall_forall in Hlinks. apply Hlinks. assumption.
Qed.

End Crawl.

Lemma crawl_visits_each_url_once_witness :
  exists c,
    scrape_website "https://iitu.edu.kz" 2 demo_netloc demo_urljoin
      demo_http_get demo_clock 2 ∅ [] = Some c /\
    NoDup (fetch_log c) /\
    NoDup (enqueue_log c) /\
    map p_url (scraped_data c) = fetch_log c /\
    (forall u, u ∈ visited_urls c <-> u ∈ fetch_log c) /\
    (Z.of_nat (length (scraped_data c)) <= 2)%Z.
Proof.
  apply (crawl_visits_each_url_once "https://iitu.edu.kz" 2 demo_netloc
           demo_urljoin demo_http_get demo_clock 2).
  - lia.
  - cbn. lia.
Defined.

(** That crawl, evaluated: two pages fetched, the cycle and the repeated
    anchors put nothing on the frontier twice, and the foreign host never
    gets there. *)
Example demo_crawl :
  option_map (fun c => (fetch_log c, urls_to_visit c, enqueue_log c))
    (scrape_website "https://iitu.edu.kz" 2 demo_netloc demo_urljoin
       demo_http_get demo_clock 2 ∅ [])
  = Some (["https://iitu.edu.kz"; "https://iitu.edu.kz/a"],
          ["https://iitu.edu.kz/b"],
          ["https://iitu.edu.kz"; "https://iitu.edu.kz/a"; "https://iitu.edu.kz/b"]).
Proof. vm_compute. reflexivity. Qed.

(** Text extraction collapses line breaks and runs of spaces. *)
Example extract_text_content_example :
  extract_text_content
    (mkSoup None None ("  Admission   2025 " +:+ Bot.newline +:+ " is open") [])
  = "Admission 2025 is open".
Proof. vm_compute. reflexivity. Qed.

(** The domain check of [is_valid_url] is a substring test on the network
    location. *)
Example domain_check_examples :
  is_valid_url (fun url => Some url) "www.iitu.edu.kz" = Some true /\
  is_valid_url (fun url => Some url) "iitu.edu.kz.example.org" = Some true /\
  is_valid_url (fun url => Some url) "example.org" = Some false.
Proof. repeat split; reflexivity. Qed.

(** C3: the domain check is a substring test, and lets a foreign host
    through.  On the configured site [https://iitu.edu.kz], whose home page
    links to [https://iitu.edu.kz.example.org/login], the network location
    of that link is [iitu.edu.kz.example.org], which is neither the
    configured domain [iitu.edu.kz] nor a subdomain of it; [is_valid_url]
    accepts it all the same, and the crawl puts the link on the frontier
    and fetches it: of the two pages fetched the second is off the domain. *)
Theorem lookalike_host_is_crawled :
  https_netloc "https://iitu.edu.kz" = Some "iitu.edu.kz" /\
  https_netloc lookalike_url = Some "iitu.edu.kz.example.org" /\
  domain_matches "iitu.edu.kz" "iitu.edu.kz" = true /\
  domain_matches "iitu.edu.kz" "www.iitu.edu.kz" = true /\
  domain_matches "iitu.edu.kz" "iitu.edu.kz.example.org" = false /\
  is_valid_url https_netloc lookalike_url = Some true /\
  option_map
    (fun c => (enqueue_log c, fetch_log c, map p_url (scraped_data c),
               map (in_domain https_netloc "iitu.edu.kz") (fetch_log c)))
    (scrape_website "https://iitu.edu.kz" 100 https_netloc demo_urljoin
       lookalike_http_get demo_clock 100 ∅ [])
  = Some (["https://iitu.edu.kz"; lookalike_url],
          ["https://iitu.edu.kz"; lookalike_url],
          ["https://iitu.edu.kz"; lookalike_url],
          [true; false]).
Proof. vm_compute. repeat split; reflexivity. Qed.

End ScraperFacts.

(** * Further properties *)

(** ** The knowledge store: edge cases, failures, round trips *)

Module DatabaseMore.

Import Database DatabaseFacts.

Lemma for_each_app {A} (body : A -> M unit) (l1 l2 : list A) (w : World) :
  for_each (l1 ++ l2) body w
  = match for_each l1 body w with
    | (Ok _, w1) => for_each l2 body w1
    | (Raise e, w1) => (Raise e, w1)
    end.
Proof.
  revert w. induction l1 as [|x l1 IH]; intros w; [reflexivity|].
  cbn [app for_each]. unfold bind.
  destruct (body x w) as [[[]|e] w1]; [apply IH | reflexivity].
Qed.

Lemma knowledge_entries_blank (chunks : list Chunk) : forall next_id,
  Forall (fun chunk => Py.blank (chunk_content chunk) = true) chunks ->
  knowledge_entries next_id chunks = [].
Proof.
  induction chunks as [|chunk rest IH]; intros next_id Hall; [reflexivity|].
  inversion Hall as [|? ? Hb Hrest]; subst. cbn. rewrite Hb. apply IH, Hrest.
Qed.

Lemma length_knowledge_entries (chunks : list Chunk) : forall next_id,
  length (knowledge_entries next_id chunks) = length (with_content chunks).
Proof.
  unfold with_content.
  induction chunks as [|chunk rest IH]; intros next_id; [reflexivity|].
  cbn [knowledge_entries]. rewrite filter_cons.
  destruct (Py.blank (chunk_content chunk)) eqn:Hb.
  - rewrite decide_False by discriminate. apply IH.
  - rewrite decide_True by reflexivity. cbn. f_equal. apply IH.
Qed.

(** every stored entry is one of the chunks that have content *)
Lemma knowledge_entries_from_chunks (chunks : list Chunk) : forall next_id e,
  e ∈ knowledge_entries next_id chunks ->
  exists chunk,
    chunk ∈ with_content chunks /\
    entry_document e = chunk_content chunk /\
    entry_metadata e = chunk_metadata chunk.
Proof.
  unfold with_content.
  induction chunks as [|chunk rest IH]; intros next_id e He; cbn in He.
  - inversion He.
  - rewrite filter_cons. destruct (Py.blank (chunk_content chunk)) eqn:Hb.
    + rewrite decide_False by discriminate. apply (IH _ _ He).
    + rewrite decide_True by reflexivity.
      apply elem_of_cons in He as [->|He].
      * exists chunk. split; [left | split; reflexivity].
      * destruct (IH _ _ He) as (c & Hc & Hd & Hm).
        exists c. split; [right; assumption | split; assumption].
Qed.

Section Store.

Variable backend_fault : nat -> bool.

(** X1: a list of chunks that are all blank (the empty list among them)
    is added without a single call to the ChromaDB client: [add_chunks]
    returns normally and leaves the collection as it was. *)
Theorem add_chunks_nothing_to_add (chunks : list Chunk) (w : World) :
  Forall (fun chunk => Py.blank (chunk_content chunk) = true) chunks ->
  exists w',
    add_chunks backend_fault chunks w = (Ok tt, w') /\
    collection w' = collection w /\ db_calls w' = db_calls w.
Proof.
  intros Hall. destruct chunks as [|chunk rest].
  - exists w. repeat split.
  - unfold add_chunks, bind. rewrite prepare_spec.
    rewrite (knowledge_entries_blank _ _ Hall). cbn [map app].
    eexists. split; [reflexivity|]. destruct w; split; reflexivity.
Qed.

(** The batches before the first failing call go in; the failing one raises
    and the loop ends there. *)
Lemma add_batches_until_fault documents metadatas ids (j : nat) :
  forall n a es w,
  collection w = Some es ->
  (forall k, k < j -> backend_fault (db_calls w + k) = false) ->
  backend_fault (db_calls w + j) = true ->
  j < n ->
  exists w',
    for_each (map (fun k => k * batch_size) (seq a n))
      (fun i => collection_add backend_fault
                  (Py.slice i (i + batch_size) documents)
                  (Py.slice i (i + batch_size) metadatas)
                  (Py.slice i (i + batch_size) ids)) w
    = (Raise "chromadb error", w') /\
    collection w'
    = Some (es ++ take (j * batch_size)
                    (drop (a * batch_size) (zip_entries documents metadatas ids))).
Proof.
  induction j as [|j IH]; intros n a es w Hc Hok Hbad Hlt.
  - destruct n as [|n]; [lia|]. cbn [seq map for_each]. unfold bind.
    unfold collection_add, client_call. rewrite Nat.add_0_r in Hbad.
    rewrite Hbad. eexists. split; [reflexivity|].
    cbn. rewrite app_nil_r. destruct w; cbn in *; assumption.
  - destruct n as [|n]; [lia|]. cbn [seq map for_each]. unfold bind at 1.
    unfold collection_add at 1, client_call at 1.
    pose proof (Hok 0 ltac:(lia)) as H0. rewrite Nat.add_0_r in H0. rewrite H0.
    cbn [collection set_db_calls]. rewrite Hc.
    match goal with
    | |- context [for_each _ _ ?w1] =>
        destruct (IH n (S a)
                    (es ++ zip_entries
                             (Py.slice (a * batch_size) (a * batch_size + batch_size) documents)
                             (Py.slice (a * batch_size) (a * batch_size + batch_size) metadatas)
                             (Py.slice (a * batch_size) (a * batch_size + batch_size) ids))
                    w1) as (w' & Hrun & Hcol)
    end.
    + reflexivity.
    + intros k Hk. cbn [db_calls set_collection set_db_calls].
      replace (S (db_calls w) + k) with (db_calls w + S k) by lia.
      apply Hok. lia.
    + cbn [db_calls set_collection set_db_calls].
      replace (S (db_calls w) + j) with (db_calls w + S j) by lia. assumption.
    + lia.
    + exists w'. split; [exact Hrun|]. rewrite Hcol.
      rewrite zip_entries_slice. unfold Py.slice.
      replace (a * batch_size + batch_size - a * batch_size) with batch_size by lia.
      rewrite <- app_assoc.
      replace (S a * batch_size) with (a * batch_size + batch_size) by lia.
      rewrite <- drop_drop, take_take_drop.
      replace (batch_size + j * batch_size) with (S j * batch_size) by lia.
      reflexivity.
Qed.

(** X2: when the insert of batch [j] is the first call to fail,
    [add_chunks] raises to its caller and the collection keeps the [j]
    batches before it: the first [100 * j] new entries behind the ones it
    held, and none of the later ones. *)
Theorem add_chunks_stops_at_failing_batch
    (chunks : list Chunk) (w : World) (es : list Entry) (j : nat) :
  collection w = Some es ->
  j * batch_size < length (with_content chunks) ->
  (forall k, k < j -> backend_fault (db_calls w + k) = false) ->
  backend_fault (db_calls w + j) = true ->
  exists w',
    add_chunks backend_fault chunks w = (Raise "chromadb error", w') /\
    collection w'
    = Some (es ++ take (j * batch_size)
                    (knowledge_entries (uuid_drawn w) chunks)).
Proof.
  intros Hc Hj Hok Hbad.
  rewrite <- (length_knowledge_entries chunks (uuid_drawn w)) in Hj.
  destruct chunks as [|chunk rest]; [cbn in Hj; lia|].
  unfold add_chunks, bind. rewrite prepare_spec. cbn [app].
  set (new := knowledge_entries (uuid_drawn w) (chunk :: rest)) in *.
  destruct (map entry_document new) as [|d ds] eqn:Hd.
  { destruct new; [cbn in Hj; lia | discriminate]. }
  rewrite <- Hd. unfold Py.range_step.
  destruct (add_batches_until_fault (map entry_document new)
              (map entry_metadata new) (map entry_id new) j
              ((length (map entry_document new) + batch_size - 1) / batch_size)
              0 es (set_uuid_drawn (uuid_drawn w + length (chunk :: rest)) w))
    as (w' & Hrun & Hcol).
  - destruct w; cbn in *; assumption.
  - intros k Hk. destruct w; cbn in *. apply Hok. assumption.
  - destruct w; cbn in *. assumption.
  - rewrite length_map.
    pose proof (batches_cover (length new)) as Hcover.
    unfold batch_size in *. nia.
  - exists w'. split; [exact Hrun|]. rewrite Hcol, zip_entries_unzip.
    reflexivity.
Qed.

(** X3: [clear_collection] never raises.  It leaves an empty collection
    when delete and create both succeed, the collection as it was when the
    delete raises, no collection when the delete succeeds and the create
    raises, and a missing collection stays missing. *)
Theorem clear_collection_outcomes (w : World) :
  exists w',
    clear_collection backend_fault w = (Ok tt, w') /\
    collection w'
    = match collection w with
      | None => None
      | Some es =>
          if backend_fault (db_calls w) then Some es
          else if backend_fault (S (db_calls w)) then None
          else Some []
      end.
Proof.
  unfold clear_collection, catch, bind, delete_collection, create_collection,
    client_call.
  destruct w as [stored calls drawn log sessions sent].
  cbn [collection db_calls set_db_calls set_collection].
  destruct (backend_fault calls).
  - eexists. split; [reflexivity|]. destruct stored; reflexivity.
  - destruct stored as [es|]; [|eexists; split; reflexivity].
    cbn [collection db_calls set_db_calls set_collection].
    destruct (backend_fault (S calls)); eexists; split; reflexivity.
Qed.

(** X6: constructing the database object never discards stored entries:
    [connect] leaves an existing collection as it is, whether or not its
    calls succeed, and creates an empty one only when none exists and the
    client answers. *)
Theorem connect_keeps_content (w : World) :
  (forall es, collection w = Some es ->
              collection (snd (connect backend_fault w)) = Some es) /\
  (collection w = None ->
   backend_fault (db_calls w) = false ->
   backend_fault (S (db_calls w)) = false ->
   fst (connect backend_fault w) = Ok tt /\
   collection (snd (connect backend_fault w)) = Some []).
Proof.
  unfold connect, catch, get_collection, create_collection, client_call.
  destruct w as [stored calls drawn log sessions sent].
  cbn [collection db_calls set_db_calls set_collection].
  split.
  - intros es ->. destruct (backend_fault calls).
    + cbn [collection db_calls set_db_calls set_collection].
      destruct (backend_fault (S calls)); reflexivity.
    + reflexivity.
  - intros -> H0 H1. rewrite H0.
    cbn [collection db_calls set_db_calls set_collection]. rewrite H1.
    split; reflexivity.
Qed.

(** A rebuild during which the client answers: the collection holds the
    new entries, and the call counter has only grown. *)
Lemma build_knowledge_base_ok (chunks : list Chunk) (w : World)
    (prior : list Entry) :
  collection w = Some prior ->
  (forall k, db_calls w <= k -> backend_fault k = false) ->
  exists w',
    build_knowledge_base backend_fault chunks w = (Ok tt, w') /\
    collection w' = Some (knowledge_entries (uuid_drawn w) chunks) /\
    db_calls w <= db_calls w'.
Proof.
  intros Hc Hf.
  set (w1 := set_collection (Some []) (set_db_calls (S (S (db_calls w))) w)).
  assert (Hclear : clear_collection backend_fault w = (Ok tt, w1)).
  { unfold clear_collection, catch, bind, delete_collection,
      create_collection, client_call.
    rewrite (Hf _ (le_n _)). cbn [collection set_db_calls]. rewrite Hc.
    cbn [db_calls set_collection set_db_calls].
    rewrite (Hf (S (db_calls w))) by lia.
    unfold w1. destruct w; reflexivity. }
  assert (Hc1 : collection w1 = Some []) by reflexivity.
  assert (Hk1 : db_calls w <= db_calls w1) by (unfold w1; cbn; lia).
  assert (Hu1 : uuid_drawn w1 = uuid_drawn w) by reflexivity.
  destruct (add_chunks_ok backend_fault chunks w1 Hc1) as (w2 & Hadd & Hc2 & Hk2).
  { intros k Hk. apply Hf. lia. }
  unfold build_knowledge_base, bind. rewrite Hclear, Hadd.
  unfold get_collection_info, catch, bind, collection_count, client_call.
  rewrite (Hf (db_calls w2)) by lia. cbn [collection set_db_calls]. rewrite Hc2.
  eexists. split; [reflexivity|]. cbn [collection db_calls set_db_calls].
  rewrite Hc2, Hu1. split; [reflexivity | lia].
Qed.

End Store.

Lemma map_m_pointwise {A B} (body : A -> M B) (f : A -> B) (l : list A) :
  (forall x, x ∈ l -> forall w, body x w = (Ok (f x), w)) ->
  forall w, map_m body l w = (Ok (map f l), w).
Proof.
  induction l as [|x rest IH]; intros Hbody w; [reflexivity|].
  cbn [map_m map]. unfold bind. rewrite Hbody by left.
  rewrite IH; [reflexivity|]. intros y Hy. apply Hbody. right. assumption.
Qed.

Lemma index_in_range {A} (l : list A) (i : nat) (d : A) (w : World) :
  i < length l -> index l i w = (Ok (nth i l d), w).
Proof.
  intros Hi. unfold index. rewrite (nth_error_nth' l d Hi). reflexivity.
Qed.

(** numbering the documents of the hits and reading the other two columns
    at each number gives back the hits *)
Lemma hits_by_number (hits : list (Entry * float)) : forall pre,
  map (fun '(i, doc) =>
         mkSearchResult doc
           (nth i (map (fun h => entry_metadata (fst h)) (pre ++ hits)) ∅)
           (nth i (map snd (pre ++ hits)) 0%float))
      (combine (seq (length pre) (length hits))
               (map (fun h => entry_document (fst h)) hits))
  = map hit_result hits.
Proof.
  induction hits as [|h rest IH]; intros pre; [reflexivity|].
  cbn [length seq map combine]. f_equal.
  - rewrite !map_app. cbn [map].
    rewrite <- (length_map (fun h => entry_metadata (fst h)) pre) at 1.
    rewrite nth_middle.
    rewrite <- (length_map snd pre).
    rewrite nth_middle. reflexivity.
  - specialize (IH (pre ++ [h])). rewrite length_app in IH. cbn [length] in IH.
    rewrite Nat.add_1_r, <- app_assoc in IH. exact IH.
Qed.

Lemma elem_of_insert_hit (h x : Entry * float) (l : list (Entry * float)) :
  h ∈ insert_hit x l -> h = x \/ h ∈ l.
Proof.
  induction l as [|y rest IH]; cbn.
  - intros H. apply list_elem_of_singleton in H. left. assumption.
  - destruct (PrimFloat.ltb (snd x) (snd y)).
    + intros H. apply elem_of_cons in H. exact H.
    + intros H. apply elem_of_cons in H as [->|H]; [right; left|].
      destruct (IH H) as [->|Hin]; [left; reflexivity | right; right; assumption].
Qed.

Lemma length_insert_hit (x : Entry * float) (l : list (Entry * float)) :
  length (insert_hit x l) = S (length l).
Proof.
  induction l as [|y rest IH]; cbn; [reflexivity|].
  destruct (PrimFloat.ltb (snd x) (snd y)); cbn; [reflexivity | rewrite IH; reflexivity].
Qed.

Section RoundTrip.

Variable backend_fault : nat -> bool.
Variable embedding_distance : string -> string -> float.

(** the hits of a query: no more than asked for, no more than stored, each
    a stored entry with its distance *)
Lemma nearest_spec (query : string) (n : nat) (es : list Entry) :
  length (nearest embedding_distance query n es) <= n /\
  length (nearest embedding_distance query n es) <= length es /\
  Forall (fun h => fst h ∈ es /\
                   snd h = embedding_distance query (entry_document (fst h)))
         (nearest embedding_distance query n es).
Proof.
  unfold nearest.
  set (scored := map (fun e => (e, embedding_distance query (entry_document e))) es).
  assert (Hlen : length (fold_right insert_hit [] scored) = length es).
  { unfold scored. clear. induction es as [|e rest IH]; [reflexivity|].
    cbn [map fold_right]. rewrite length_insert_hit, IH. reflexivity. }
  assert (Hall : forall h, h ∈ fold_right insert_hit [] scored ->
                           fst h ∈ es /\
                           snd h = embedding_distance query (entry_document (fst h))).
  { unfold scored. clear. induction es as [|e rest IH]; intros h Hh; cbn in Hh.
    - inversion Hh.
    - apply elem_of_insert_hit in Hh as [->|Hh].
      + split; [left | reflexivity].
      + destruct (IH h Hh). split; [right|]; assumption. }
  split; [|split].
  - rewrite length_take. lia.
  - rewrite length_take. lia.
  - apply Forall_forall. intros h Hh. apply Hall.
    apply (subseteq_take n _ h Hh).
Qed.

(** When the client answers, [search] returns the hits of the query as
    they come, each with its content, metadata and distance. *)
Lemma search_answers (query : string) (n : nat) (w : World) (es : list Entry) :
  backend_fault (db_calls w) = false ->
  collection w = Some es ->
  search backend_fault embedding_distance query n w
  = (Ok (map hit_result (nearest embedding_distance query n es)),
     set_db_calls (S (db_calls w)) w).
Proof.
  intros Hf Hc.
  unfold search, catch, bind at 1, collection_query, client_call.
  rewrite Hf. cbn [collection set_db_calls]. rewrite Hc.
  cbn [qr_documents qr_metadatas qr_distances].
  set (hits := nearest embedding_distance query n es).
  destruct (map (fun h => entry_document (fst h)) hits) as [|d ds] eqn:E.
  { apply map_eq_nil in E. rewrite E. reflexivity. }
  rewrite <- E.
  rewrite (map_m_pointwise _
             (fun '(i, doc) =>
                mkSearchResult doc
                  (nth i (map (fun h => entry_metadata (fst h)) hits) ∅)
                  (nth i (map snd hits) 0%float))).
  - rewrite length_map.
    pose proof (hits_by_number hits []) as Hnum. cbn [app length] in Hnum.
    rewrite Hnum. reflexivity.
  - intros [i doc] Hin w0.
    assert (Hi : i < length hits).
    { apply list_elem_of_In, in_combine_l, in_seq in Hin.
      rewrite length_map in Hin. lia. }
    cbn [some_items default from_option]. unfold id, bind.
    change (index [?x] 0 ?w) with (@Ok _ x, w). cbv iota beta.
    rewrite (index_in_range _ i ∅) by (rewrite length_map; assumption).
    rewrite (index_in_range _ i 0%float) by (rewrite length_map; assumption).
    reflexivity.
Qed.

(** X4: after a rebuild in which the client answers, a search returns at
    most [n_results] results and no more than there are chunks with
    content; each result is one of those chunks, with the chunk's content,
    the metadata built from it and its distance to the query.  After a
    rebuild from nothing a search returns nothing. *)
Theorem rebuild_then_search (chunks : list Chunk) (query : string) (n : nat)
    (w : World) (prior : list Entry) :
  collection w = Some prior ->
  (forall k, db_calls w <= k -> backend_fault k = false) ->
  exists w1 results w2,
    build_knowledge_base backend_fault chunks w = (Ok tt, w1) /\
    search backend_fault embedding_distance query n w1 = (Ok results, w2) /\
    length results <= n /\
    length results <= length (with_content chunks) /\
    Forall (fun r =>
              exists chunk,
                chunk ∈ with_content chunks /\
                sr_content r = chunk_content chunk /\
                sr_metadata r = chunk_metadata chunk /\
                sr_distance r
                = embedding_distance query (chunk_content chunk))
           results.
Proof.
  intros Hc Hf.
  destruct (build_knowledge_base_ok backend_fault chunks w prior Hc Hf)
    as (w1 & Hbuild & Hc1 & Hk1).
  exists w1. eexists. eexists. split; [exact Hbuild|].
  split; [apply (search_answers query n w1 _ (Hf _ Hk1) Hc1)|].
  destruct (nearest_spec query n (knowledge_entries (uuid_drawn w) chunks))
    as (Hn & Hstored & Hhits).
  rewrite length_map, <- (length_knowledge_entries chunks (uuid_drawn w)).
  split; [assumption|]. split; [assumption|].
  apply Forall_map. eapply Forall_impl; [exact Hhits|].
  intros [e d] [He Hd]. cbn in He, Hd.
  destruct (knowledge_entries_from_chunks chunks _ e He) as (chunk & Hin & Hdoc & Hmeta).
  exists chunk. cbn. rewrite <- Hdoc. auto.
Qed.

End RoundTrip.

Section Info.

Variable backend_fault : nat -> bool.

(** X5: after a rebuild in which the client answers, [get_collection_info]
    reports as count the number of chunks that have content: blank chunks
    are not counted, and nothing is left of the prior entries. *)
Theorem rebuild_then_count (chunks : list Chunk) (w : World)
    (prior : list Entry) :
  collection w = Some prior ->
  (forall k, db_calls w <= k -> backend_fault k = false) ->
  exists w1 w2,
    build_knowledge_base backend_fault chunks w = (Ok tt, w1) /\
    get_collection_info backend_fault w1
    = (Ok (Some ("iitu_knowledge", length (with_content chunks))), w2).
Proof.
  intros Hc Hf.
  destruct (build_knowledge_base_ok backend_fault chunks w prior Hc Hf)
    as (w1 & Hbuild & Hc1 & Hk1).
  exists w1. eexists. split; [exact Hbuild|].
  unfold get_collection_info, catch, bind, collection_count, client_call.
  rewrite (Hf _ Hk1). cbn [collection set_db_calls]. rewrite Hc1.
  rewrite length_knowledge_entries. reflexivity.
Qed.

End Info.

Lemma rebuild_then_search_witness :
  exists w1 results w2,
    build_knowledge_base never_fails [demo_chunk] demo_world = (Ok tt, w1) /\
    search never_fails level_distance "admission" 5 w1 = (Ok results, w2) /\
    length results <= 5 /\
    length results <= length (with_content [demo_chunk]) /\
    Forall (fun r =>
              exists chunk,
                chunk ∈ with_content [demo_chunk] /\
                sr_content r = chunk_content chunk /\
                sr_metadata r = chunk_metadata chunk /\
                sr_distance r = level_distance "admission" (chunk_content chunk))
           results.
Proof.
  apply (rebuild_then_search never_fails level_distance [demo_chunk]
           "admission" 5 demo_world demo_prior).
  - reflexivity.
  - intros k _. reflexivity.
Defined.

Lemma rebuild_then_count_witness :
  exists w1 w2,
    build_knowledge_base never_fails [demo_chunk] demo_world = (Ok tt, w1) /\
    get_collection_info never_fails w1
    = (Ok (Some ("iitu_knowledge", length (with_content [demo_chunk]))), w2).
Proof.
  apply (rebuild_then_count never_fails [demo_chunk] demo_world demo_prior).
  - reflexivity.
  - intros k _. reflexivity.
Defined.

Lemma add_chunks_nothing_to_add_witness :
  exists w',
    add_chunks insert_fails [mkChunk "  " "https://iitu.edu.kz" "IITU" "" 0 1]
      demo_world = (Ok tt, w') /\
    collection w' = collection demo_world /\ db_calls w' = db_calls demo_world.
Proof.
  apply (add_chunks_nothing_to_add insert_fails
           [mkChunk "  " "https://iitu.edu.kz" "IITU" "" 0 1] demo_world).
  repeat constructor.
Defined.

Lemma add_chunks_stops_at_failing_batch_witness :
  exists w',
    add_chunks delete_fails [demo_chunk] demo_world = (Raise "chromadb error", w') /\
    collection w'
    = Some (demo_prior ++ take (0 * batch_size)
                            (knowledge_entries (uuid_drawn demo_world) [demo_chunk])).
Proof.
  apply (add_chunks_stops_at_failing_batch delete_fails [demo_chunk] demo_world
           demo_prior 0).
  - reflexivity.
  - vm_compute. lia.
  - intros k Hk. lia.
  - reflexivity.
Defined.

Lemma connect_keeps_content_witness :
  fst (connect never_fails (mkWorld None 0 0 [] ∅ [])) = Ok tt /\
  collection (snd (connect never_fails (mkWorld None 0 0 [] ∅ []))) = Some [].
Proof.
  apply (proj2 (connect_keeps_content never_fails (mkWorld None 0 0 [] ∅ [])));
    reflexivity.
Defined.

End DatabaseMore.

(** ** The processor: blank pages, degraded enhancement, chunk records *)

Module ProcessorMore.

Import Database Processor ProcessorFacts.

Lemma length_append (s1 s2 : string) :
  String.length (s1 +:+ s2) = String.length s1 + String.length s2.
Proof.
  induction s1 as [|c s1 IH]; simpl; [reflexivity | f_equal; exact IH].
Qed.

Lemma length_upto (n : nat) : forall s, String.length (Py.upto n s) <= n.
Proof.
  unfold Py.upto. induction n as [|n IH]; intros [|c s]; cbn; try lia.
  specialize (IH s). lia.
Qed.

Lemma upto_upto (n : nat) : forall s, Py.upto n (Py.upto n s) = Py.upto n s.
Proof.
  unfold Py.upto. induction n as [|n IH]; intros [|c s]; cbn; try reflexivity.
  rewrite IH. reflexivity.
Qed.

Section Processing.

Variable completion : nat -> string -> option string.
Variable split_text : string -> option (list string).

(** X7: a page without error whose content is blank is processed without
    a call to the completion service or to the splitter, whatever they would
    have done: it is marked processed with no chunks and a chunk count of 0,
    and contributes nothing to [extract_all_chunks]. *)
Theorem blank_page_needs_no_service (page_data : Page) (w : World) :
  p_error page_data = None ->
  Py.blank (p_content page_data) = true ->
  exists q,
    process_page_data completion split_text page_data w = (Ok q, w) /\
    same_scrape page_data q /\
    p_improved_content q = Some (p_content page_data) /\
    p_chunks q = Some [] /\ p_chunk_count q = Some 0 /\
    p_processed q = Some true /\
    extract_all_chunks [q] = [].
Proof.
  intros He Hb. unfold process_page_data. rewrite He.
  unfold bind, improve_text_with_ai. rewrite Hb. unfold ret at 1.
  unfold create_chunks. rewrite Hb. unfold ret.
  eexists. split; [reflexivity|].
  repeat split; cbn; congruence.
Qed.

(** X10: when the completion service fails on a page that has content,
    the page is still processed: its improved content is its original
    content, and its chunks are those the splitter makes of the original. *)
Theorem service_down_chunks_raw_content (page_data : Page) (w : World)
    (chunks : list string) :
  p_error page_data = None ->
  Py.blank (p_content page_data) = false ->
  completion (length (ai_log w))
    (improve_prompt (p_title page_data) (p_content page_data)) = None ->
  split_text (p_content page_data) = Some chunks ->
  exists q w',
    process_page_data completion split_text page_data w = (Ok q, w') /\
    p_original_content q = Some (p_content page_data) /\
    p_improved_content q = Some (p_content page_data) /\
    p_chunks q = Some chunks /\
    p_chunk_count q = Some (length chunks) /\
    p_processed q = Some true.
Proof.
  intros He Hb Hdown Hsplit. unfold process_page_data. rewrite He.
  unfold bind at 1. unfold improve_text_with_ai. rewrite Hb.
  unfold catch, bind at 1, generate_content. rewrite Hdown. unfold ret at 1.
  unfold bind, create_chunks. rewrite Hb, Hsplit. unfold ret.
  eexists. eexists. split; [reflexivity|]. cbn. repeat split; reflexivity.
Qed.

(** what [process_page_data] returns keeps what the scraper recorded *)
Lemma process_page_data_same_scrape (page_data q : Page) (w w' : World) :
  process_page_data completion split_text page_data w = (Ok q, w') ->
  same_scrape page_data q.
Proof.
  unfold process_page_data.
  destruct (p_error page_data) as [e|] eqn:He.
  - intros [= <- _]. repeat split.
  - unfold bind.
    destruct (improve_text_with_ai completion (p_content page_data)
                (p_title page_data) w) as [[improved|e] w1]; [|discriminate].
    destruct (create_chunks split_text improved w1) as [[chunks|e] w2];
      [|discriminate].
    intros [= <- _]. repeat split; cbn; congruence.
Qed.

(** what is emitted for a page keeps what the scraper recorded *)
Lemma emitted_same_scrape (p q : Page) (w1 : World) :
  emitted p (fst (process_page_data completion split_text p w1)) q ->
  same_scrape p q.
Proof.
  intros Hem.
  destruct (process_page_data completion split_text p w1) as [[q'|e] w2] eqn:Hp;
    cbn in Hem; subst q.
  - apply (process_page_data_same_scrape _ _ _ _ Hp).
  - repeat split.
Qed.

Lemma process_all_data_same_scrape (scraped_data : list Page) (w : World) :
  exists out w',
    process_all_data completion split_text scraped_data w = (Ok out, w') /\
    Forall2 same_scrape scraped_data out.
Proof.
  destruct (process_all_data_emits completion split_text scraped_data w)
    as (out & w' & Hrun & Hall).
  exists out, w'. split; [exact Hrun|].
  eapply Forall2_impl; [exact Hall|].
  intros p q (w1 & Hem). apply (emitted_same_scrape p q w1 Hem).
Qed.

(** X9: [process_all_data] never raises, whatever the completion service
    and the splitter do: it returns one page per scraped page, in order, and
    each keeps the URL, title, description, content, links, time and error
    the scraper recorded. *)
Theorem process_all_data_keeps_every_page (scraped_data : list Page)
    (w : World) :
  exists out w',
    process_all_data completion split_text scraped_data w = (Ok out, w') /\
    length out = length scraped_data /\
    Forall2 same_scrape scraped_data out.
Proof.
  destruct (process_all_data_same_scrape scraped_data w)
    as (out & w' & Hrun & Hall).
  exists out, w'. split; [exact Hrun|].
  split; [|exact Hall].
  symmetry. apply (Forall2_length _ _ _ Hall).
Qed.

(** X11: [improve_text_with_ai] submits at most one prompt, and what it
    submits carries no more than the first 2000 characters of the text: the
    prompt is at most 2000 characters longer than the one for an empty
    text, however long the page. *)
Theorem enhancer_prompt_is_bounded (text page_title : string) (w : World) :
  let w' := snd (improve_text_with_ai completion text page_title w) in
  ai_log w' = ai_log w \/
  exists prompt,
    ai_log w' = ai_log w ++ [prompt] /\
    prompt = improve_prompt page_title (Py.upto 2000 text) /\
    String.length prompt
    <= String.length (improve_prompt page_title "") + 2000.
Proof.
  cbv zeta. unfold improve_text_with_ai.
  destruct (Py.blank text); [left; reflexivity|].
  right. exists (improve_prompt page_title text). split.
  - unfold catch, bind, generate_content.
    destruct (completion (length (ai_log w)) (improve_prompt page_title text));
      reflexivity.
  - unfold improve_prompt. split.
    + rewrite upto_upto. reflexivity.
    + rewrite !length_append. pose proof (length_upto 2000 text).
      change (String.length (Py.upto 2000 "")) with 0. lia.
Qed.

End Processing.

(** X8: the chunk records [extract_all_chunks] builds are the chunks of
    the processed pages, page after page and in order; each is numbered from
    0 within its page, below the total it carries, which is the number of
    chunks of its page, and carries the URL, title and description of that
    page.  Pages not marked processed contribute nothing. *)
Theorem chunk_records_are_numbered (processed_data : list Page) :
  map chunk_content (extract_all_chunks processed_data)
  = concat (map page_chunks processed_data) /\
  Forall (fun c =>
            (0 <= chunk_index c < chunk_total_chunks c)%Z /\
            exists page_data,
              page_data ∈ processed_data /\
              chunk_source_url c = p_url page_data /\
              chunk_page_title c = p_title page_data /\
              chunk_page_description c = p_description page_data /\
              chunk_total_chunks c = Z.of_nat (length (page_chunks page_data)) /\
              page_chunks page_data !! Z.to_nat (chunk_index c)
              = Some (chunk_content c))
         (extract_all_chunks processed_data).
Proof.
  assert (Hone : forall url title description total (chunks : list string) pre,
    map chunk_content
      (map (fun '(i, chunk) =>
              mkChunk chunk url title description (Z.of_nat i) total)
           (combine (seq (length pre) (length chunks)) chunks)) = chunks /\
    Forall (fun c =>
              chunk_source_url c = url /\ chunk_page_title c = title /\
              chunk_page_description c = description /\
              chunk_total_chunks c = total /\
              (0 <= chunk_index c < Z.of_nat (length pre + length chunks))%Z /\
              (pre ++ chunks) !! Z.to_nat (chunk_index c) = Some (chunk_content c))
           (map (fun '(i, chunk) =>
                   mkChunk chunk url title description (Z.of_nat i) total)
                (combine (seq (length pre) (length chunks)) chunks))).
  { intros url title description total chunks.
    induction chunks as [|chunk rest IH]; intros pre; [split; constructor|].
    cbn [length seq combine map chunk_content].
    specialize (IH (pre ++ [chunk])). rewrite length_app in IH. cbn [length] in IH.
    rewrite Nat.add_1_r, <- app_assoc in IH. cbn [app] in IH.
    destruct IH as [IHc IHf]. split; [f_equal; exact IHc|].
    constructor.
    - cbn. repeat split; try lia.
      rewrite Nat2Z.id. rewrite lookup_app_r by lia.
      rewrite Nat.sub_diag. reflexivity.
    - eapply Forall_impl; [exact IHf|]. cbn.
      intros c (? & ? & ? & ? & ? & ?). repeat split; try assumption; lia. }
  unfold extract_all_chunks. split.
  - rewrite flat_map_concat_map, concat_map, map_map. f_equal.
    apply map_ext. intros page_data. unfold page_chunks.
    destruct (p_processed page_data) as [[|]|]; try reflexivity.
    destruct (p_chunks page_data) as [chunks|]; [|reflexivity].
    apply (Hone _ _ _ _ chunks []).
  - apply Forall_flat_map, Forall_forall. intros page_data Hin.
    destruct (p_processed page_data) as [[|]|] eqn:Hp; try constructor.
    destruct (p_chunks page_data) as [chunks|] eqn:Hc; [|constructor].
    destruct (Hone (p_url page_data) (p_title page_data)
                (p_description page_data) (Z.of_nat (length chunks)) chunks [])
      as [_ Hf].
    eapply Forall_impl; [exact Hf|]. cbn.
    intros c (Hu & Ht & Hd & Htot & Hidx & Hlook).
    split; [lia|]. exists page_data. unfold page_chunks. rewrite Hp, Hc.
    auto 10.
Qed.

Lemma blank_page_needs_no_service_witness :
  exists q,
    process_page_data service_down splitter_raises demo_blank_page quiet_world
    = (Ok q, quiet_world) /\
    same_scrape demo_blank_page q /\
    p_improved_content q = Some (p_content demo_blank_page) /\
    p_chunks q = Some [] /\ p_chunk_count q = Some 0 /\
    p_processed q = Some true /\
    extract_all_chunks [q] = [].
Proof.
  apply (blank_page_needs_no_service service_down splitter_raises
           demo_blank_page quiet_world); reflexivity.
Defined.

Lemma service_down_chunks_raw_content_witness :
  exists q w',
    process_page_data service_down splitter_whole demo_page quiet_world
    = (Ok q, w') /\
    p_original_content q = Some (p_content demo_page) /\
    p_improved_content q = Some (p_content demo_page) /\
    p_chunks q = Some [p_content demo_page] /\
    p_chunk_count q = Some (length [p_content demo_page]) /\
    p_processed q = Some true.
Proof.
  apply (service_down_chunks_raw_content service_down splitter_whole
           demo_page quiet_world [p_content demo_page]); reflexivity.
Defined.

End ProcessorMore.

(** ** The bot: guards, resets, the refinement budget, isolation *)

Module BotMore.

Import Database Bot DatabaseFacts BotFacts.

Section Handlers.

Variable backend_fault : nat -> bool.
Variable embedding_distance : string -> string -> float.
Variable completion : nat -> string -> option string.
Variable MAX_RETRIES : Z.

Local Abbreviation handle :=
  (Bot.handle backend_fault embedding_distance completion MAX_RETRIES).
Local Abbreviation handle_return :=
  (Bot.handle_return backend_fault embedding_distance completion MAX_RETRIES).
Local Abbreviation handle_text :=
  (Bot.handle_text backend_fault embedding_distance completion).
Local Abbreviation process_user_query :=
  (Bot.process_user_query backend_fault embedding_distance completion).
Local Abbreviation feed :=
  (Bot.feed backend_fault embedding_distance completion MAX_RETRIES).

(** A refinement that is let through: the retry count goes up by one, the
    last query stays, and the exchange for the refined query enters the
    window. *)
Lemma handle_return_proceeds message w session original :
  user_sessions w !! from_user_id message = Some session ->
  last_query session = Some original ->
  Py.truthy original = true ->
  (retry_count session < MAX_RETRIES)%Z ->
  exists rec w',
    handle_return message w = (Ok tt, w') /\
    i_query rec = refined_query completion original (context session) w /\
    user_sessions w' !! from_user_id message
    = Some (mkSession (retry_count session + 1) (Some original)
              (Py.last_n 5 (context session ++ [rec]))) /\
    length (outbox w') = length (outbox w) + 2.
Proof.
  intros Hsess Hlast Hq Hlt.
  rewrite handle_return_unfold, Hsess, Hlast. cbn [default from_option id].
  rewrite Hq. cbn [negb].
  destruct (Z.leb_spec MAX_RETRIES (retry_count session)); [lia|].
  cbv zeta.
  match goal with
  | |- context [Bot.process_user_query _ _ _ ?m ?q ?r ?w0] =>
      destruct (process_user_query_spec backend_fault embedding_distance
                  completion m q r w0
                  (with_retry_count (retry_count session + 1) session))
        as (k & ->);
        [cbn [user_sessions]; rewrite lookup_alter_eq, Hsess; reflexivity|];
        exists (answer_record backend_fault embedding_distance completion q w0)
  end.
  eexists. split; [reflexivity|].
  cbn [user_sessions outbox ai_log].
  split; [reflexivity|]. split.
  - rewrite !lookup_alter_eq, Hsess. cbn [fmap option_fmap option_map].
    unfold record_exchange, with_context, with_retry_count.
    cbn [retry_count last_query context]. rewrite Hlast. reflexivity.
  - rewrite !length_app. cbn. lia.
Qed.

(** X12: no handler raises to the dispatcher, whatever the vector store
    and the completion service do: every update is handled to the end. *)
Theorem handlers_never_raise (u : Update) (w : World) :
  fst (handle u w) = Ok tt.
Proof.
  destruct u as [m|m|m|m]; cbn [Bot.handle].
  - reflexivity.
  - reflexivity.
  - rewrite handle_return_unfold.
    destruct (user_sessions w !! from_user_id m) as [session|]; [|reflexivity].
    destruct (negb (Py.truthy (default "" (last_query session)))); [reflexivity|].
    destruct (MAX_RETRIES <=? retry_count session)%Z; [reflexivity|].
    cbv zeta.
    match goal with
    | |- context [Bot.process_user_query _ _ _ ?m ?q ?r ?w0] =>
        destruct (process_user_query_effect backend_fault embedding_distance
                    completion m q r w0) as (k & extra & rec & reply & -> & _)
    end.
    reflexivity.
  - rewrite handle_text_unfold. cbv zeta.
    destruct (negb (Py.truthy (Py.strip (text m)))); [reflexivity|].
    match goal with
    | |- context [Bot.process_user_query _ _ _ ?m ?q ?r ?w0] =>
        destruct (process_user_query_effect backend_fault embedding_distance
                    completion m q r w0) as (k & extra & rec & reply & -> & _)
    end.
    reflexivity.
Qed.

(** X13: handling an update of one user leaves the session of every
    other user exactly as it was (or absent if it was absent). *)
Theorem other_sessions_untouched (u : Update) (w : World) (user_id : Z) :
  user_id <> sender u ->
  user_sessions (snd (handle u w)) !! user_id = user_sessions w !! user_id.
Proof.
  intros Hne. destruct u as [m|m|m|m]; cbn [Bot.handle sender] in *.
  - cbn. apply lookup_insert_ne. congruence.
  - reflexivity.
  - rewrite handle_return_unfold.
    destruct (user_sessions w !! from_user_id m) as [session|]; [|reflexivity].
    destruct (negb (Py.truthy (default "" (last_query session)))); [reflexivity|].
    destruct (MAX_RETRIES <=? retry_count session)%Z; [reflexivity|].
    cbv zeta.
    match goal with
    | |- context [Bot.process_user_query _ _ _ ?m ?q ?r ?w0] =>
        destruct (process_user_query_effect backend_fault embedding_distance
                    completion m q r w0) as (k & extra & rec & reply & -> & _)
    end.
    cbn [snd user_sessions]. rewrite !lookup_alter_ne by congruence. reflexivity.
  - rewrite handle_text_unfold. cbv zeta.
    destruct (negb (Py.truthy (Py.strip (text m)))); [reflexivity|].
    match goal with
    | |- context [Bot.process_user_query _ _ _ ?m ?q ?r ?w0] =>
        destruct (process_user_query_effect backend_fault embedding_distance
                    completion m q r w0) as (k & extra & rec & reply & -> & _)
    end.
    cbn [snd user_sessions set_user_sessions].
    rewrite !lookup_alter_ne by congruence.
    destruct (user_sessions w !! from_user_id m); [reflexivity|].
    apply lookup_insert_ne. congruence.
Qed.

(** X14: a request that is turned away changes nothing but the outbox.
    A blank text is answered with the prompt to ask a question; a refinement
    request from a user without a session, or whose session holds no query
    (or an empty one), is answered with guidance.  In each case no session
    is created or written, the retry count is not touched, and neither the
    vector store nor the completion service is called. *)
Theorem rejected_requests_change_nothing (message : Message) (w : World) :
  (Py.truthy (Py.strip (text message)) = false ->
   handle_text message w = (Ok tt, said message empty_query_text w)) /\
  (user_sessions w !! from_user_id message = None ->
   handle_return message w = (Ok tt, said message ask_first_text w)) /\
  (forall session,
     user_sessions w !! from_user_id message = Some session ->
     Py.truthy (default "" (last_query session)) = false ->
     handle_return message w
     = (Ok tt, said message no_previous_query_text w)).
Proof.
  split; [|split].
  - intros Hb. rewrite handle_text_unfold. cbv zeta. rewrite Hb. reflexivity.
  - intros Hs. rewrite handle_return_unfold, Hs. reflexivity.
  - intros session Hs Hq. rewrite handle_return_unfold, Hs, Hq. reflexivity.
Qed.

(** X15: [/start] gives the user a fresh session, dropping the retry count,
    the last query and the whole context it had; a refinement request right
    after it is refused for want of a query. *)
Theorem start_resets_the_session (message again : Message) (w : World) :
  from_user_id again = from_user_id message ->
  let w1 := snd (Bot.handle_start message w) in
  user_sessions w1 !! from_user_id message = Some new_session /\
  outbox w1 = outbox w ++ [(chat_id message, welcome_text)] /\
  handle_return again w1 = (Ok tt, said again no_previous_query_text w1).
Proof.
  intros Hsame w1. subst w1. cbn [snd].
  unfold handle_start, bind, message_answer, modify.
  cbn [snd user_sessions set_user_sessions set_outbox outbox].
  split; [apply lookup_insert_eq|]. split; [reflexivity|].
  rewrite handle_return_unfold. cbn [user_sessions set_user_sessions set_outbox].
  rewrite Hsame, lookup_insert_eq. reflexivity.
Qed.

(** refinements that fit the budget count up and keep the query *)
Lemma returns_count_up message (n : nat) : forall w session original,
  user_sessions w !! from_user_id message = Some session ->
  last_query session = Some original ->
  Py.truthy original = true ->
  (retry_count session + Z.of_nat n <= MAX_RETRIES)%Z ->
  exists s,
    user_sessions (feed (repeat (CommandReturn message) n) w)
      !! from_user_id message = Some s /\
    retry_count s = (retry_count session + Z.of_nat n)%Z /\
    last_query s = Some original.
Proof.
  induction n as [|n IH]; intros w session original Hsess Hlast Hq Hfit.
  - exists session. cbn. rewrite Z.add_0_r. auto.
  - cbn [repeat Bot.feed fold_left Bot.handle].
    destruct (handle_return_proceeds message w session original Hsess Hlast Hq)
      as (rec & w' & Hrun & _ & Hs' & _); [lia|].
    rewrite Hrun. cbn [snd].
    destruct (IH w' _ original Hs' eq_refl Hq) as (s & Hs & Hr & Hl).
    { cbn. lia. }
    exists s. split; [exact Hs|]. split; [|exact Hl].
    rewrite Hr. cbn. lia.
Qed.

(** X16: the refinement budget.  After a text that is not blank, each of
    the next [MAX_RETRIES] refinement requests is let through, counting the
    retries up by one and refining the query of that text; the request
    after them is refused with the terminal message. *)
Theorem refinement_budget (user_id chat : Z) (query command : string)
    (w : World) :
  Py.truthy (Py.strip query) = true ->
  (0 <= MAX_RETRIES)%Z ->
  let asked := snd (handle_text (mkMessage user_id chat query) w) in
  let again := mkMessage user_id chat command in
  (forall n : nat,
     (Z.of_nat n <= MAX_RETRIES)%Z ->
     exists s,
       user_sessions (feed (repeat (CommandReturn again) n) asked) !! user_id
       = Some s /\
       retry_count s = Z.of_nat n /\
       last_query s = Some (Py.strip query)) /\
  (let spent :=
     feed (repeat (CommandReturn again) (Z.to_nat MAX_RETRIES)) asked in
   handle_return again spent
   = (Ok tt, said again retries_exhausted_text spent)).
Proof.
  intros Hq Hmax asked again.
  destruct (handle_text_records backend_fault embedding_distance completion
              user_id chat query w Hq) as (rec & w' & Hrun & _ & Hsess & _).
  assert (Hcount : forall n : nat,
     (Z.of_nat n <= MAX_RETRIES)%Z ->
     exists s,
       user_sessions (feed (repeat (CommandReturn again) n) asked) !! user_id
       = Some s /\
       retry_count s = Z.of_nat n /\
       last_query s = Some (Py.strip query)).
  { intros n Hn. subst asked. rewrite Hrun. cbn [snd].
    destruct (returns_count_up again n w' _ (Py.strip query) Hsess eq_refl Hq)
      as (s & Hs & Hr & Hl); [cbn; lia|].
    exists s. cbn in Hr. auto. }
  split; [exact Hcount|].
  cbv zeta. destruct (Hcount (Z.to_nat MAX_RETRIES)) as (s & Hs & Hr & Hl); [lia|].
  rewrite handle_return_unfold. change (from_user_id again) with user_id.
  rewrite Hs, Hl.
  cbn [default from_option id]. rewrite Hq. cbn [negb].
  destruct (Z.leb_spec MAX_RETRIES (retry_count s)); [reflexivity | lia].
Qed.

(** X17: a refinement that is let through answers the query the
    completion service made of the last query, and when that call fails, the
    last query itself: the refinement then is a retry of the same query.
    Either way the exchange is recorded and the retry is counted. *)
Theorem refinement_degrades_to_retry message w session original :
  user_sessions w !! from_user_id message = Some session ->
  last_query session = Some original ->
  Py.truthy original = true ->
  (retry_count session < MAX_RETRIES)%Z ->
  exists rec w',
    handle_return message w = (Ok tt, w') /\
    context_of (from_user_id message) w'
    = Py.last_n 5 (context session ++ [rec]) /\
    retry_count <$> (user_sessions w' !! from_user_id message)
    = Some (retry_count session + 1)%Z /\
    (forall response,
       completion (length (ai_log w))
         (refine_prompt original (context session)) = Some response ->
       i_query rec = Py.strip response) /\
    (completion (length (ai_log w))
       (refine_prompt original (context session)) = None ->
     i_query rec = original).
Proof.
  intros Hsess Hlast Hq Hlt.
  destruct (handle_return_proceeds message w session original Hsess Hlast Hq Hlt)
    as (rec & w' & Hrun & Hrq & Hs' & _).
  exists rec, w'. split; [exact Hrun|].
  unfold context_of. rewrite Hs'. cbn. split; [reflexivity|].
  split; [reflexivity|]. unfold refined_query in Hrq.
  split.
  - intros response Hr. rewrite Hr in Hrq. exact Hrq.
  - intros Hr. rewrite Hr in Hrq. exact Hrq.
Qed.

(** X18: when the completion service fails on the answer, the user is
    still answered, with the fixed text of the path taken (the apology on
    the RAG path, the pointer to the official site on the generic path), and
    that text is what the context records as the response. *)
Theorem failed_answer_falls_back message query is_refined w session :
  user_sessions w !! from_user_id message = Some session ->
  completion (length (ai_log w))
    (answer_prompt backend_fault embedding_distance query w) = None ->
  let fallback :=
    if takes_rag_path backend_fault embedding_distance query w
    then rag_apology_text else general_fallback_text in
  exists rec w',
    process_user_query message query is_refined w = (Ok tt, w') /\
    outbox w' = outbox w ++ [(chat_id message, fallback)] /\
    i_response rec = fallback /\ i_query rec = query /\
    context_of (from_user_id message) w'
    = Py.last_n 5 (context session ++ [rec]).
Proof.
  intros Hsess Hdown fallback.
  destruct (process_user_query_spec backend_fault embedding_distance completion
              message query is_refined w session Hsess) as (k & Hrun).
  exists (answer_record backend_fault embedding_distance completion query w).
  eexists. split; [exact Hrun|].
  assert (Htext : answer_text backend_fault embedding_distance completion query w
                  = fallback).
  { unfold answer_text. rewrite Hdown. reflexivity. }
  cbn [outbox]. rewrite Htext. split; [reflexivity|].
  unfold answer_record. cbn [i_response i_query]. rewrite Htext.
  split; [reflexivity|]. split; [reflexivity|].
  unfold context_of. cbn [user_sessions]. rewrite lookup_alter_eq, Hsess.
  reflexivity.
Qed.

End Handlers.

(** X19: the prompt of a refinement quotes the last three exchanges only:
    whatever came before them in the context does not change it. *)
Theorem refinement_sees_last_three (original : string)
    (older : list Interaction) (r1 r2 r3 : Interaction) :
  refine_prompt original (older ++ [r1; r2; r3])
  = refine_prompt original [r1; r2; r3].
Proof.
  unfold refine_prompt, refine_context_text, Py.last_n.
  rewrite length_app. cbn [length].
  replace (length older + 3 - 3) with (length older) by lia.
  rewrite drop_app_length. reflexivity.
Qed.

Lemma other_sessions_untouched_witness :
  user_sessions
    (snd (handle no_fault flat_distance no_service 3
            (TextMessage (mkMessage 2 2 "hello")) demo_world)) !! 1%Z
  = user_sessions demo_world !! 1%Z.
Proof.
  apply (other_sessions_untouched no_fault flat_distance no_service 3
           (TextMessage (mkMessage 2 2 "hello")) demo_world 1).
  cbn. lia.
Defined.

Lemma rejected_requests_change_nothing_witness :
  handle_text no_fault flat_distance no_service (mkMessage 1 1 "   ") demo_world
  = (Ok tt, said (mkMessage 1 1 "   ") empty_query_text demo_world) /\
  handle_return no_fault flat_distance no_service 3 demo_message (boot None)
  = (Ok tt, said demo_message ask_first_text (boot None)).
Proof.
  split.
  - apply (proj1 (rejected_requests_change_nothing no_fault flat_distance
                    no_service 3 (mkMessage 1 1 "   ") demo_world)).
    reflexivity.
  - apply (proj1 (proj2 (rejected_requests_change_nothing no_fault
                           flat_distance no_service 3 demo_message
                           (boot None)))).
    reflexivity.
Defined.

Lemma start_resets_the_session_witness :
  user_sessions (snd (handle_start demo_message demo_world)) !! 1%Z
  = Some new_session /\
  outbox (snd (handle_start demo_message demo_world))
  = outbox demo_world ++ [(1%Z, welcome_text)] /\
  handle_return no_fault flat_distance no_service 3 demo_message
    (snd (handle_start demo_message demo_world))
  = (Ok tt, said demo_message no_previous_query_text
              (snd (handle_start demo_message demo_world))).
Proof.
  apply (start_resets_the_session no_fault flat_distance no_service 3
           demo_message demo_message demo_world).
  reflexivity.
Defined.

Lemma refinement_budget_witness :
  handle_return no_fault flat_distance no_service 3 (mkMessage 1 1 "/return")
    (feed no_fault flat_distance no_service 3
       (repeat (CommandReturn (mkMessage 1 1 "/return")) (Z.to_nat 3))
       (snd (handle_text no_fault flat_distance no_service
               (mkMessage 1 1 "What is IITU?") (boot None))))
  = (Ok tt,
     said (mkMessage 1 1 "/return") retries_exhausted_text
       (feed no_fault flat_distance no_service 3
          (repeat (CommandReturn (mkMessage 1 1 "/return")) (Z.to_nat 3))
          (snd (handle_text no_fault flat_distance no_service
                  (mkMessage 1 1 "What is IITU?") (boot None))))).
Proof.
  apply (proj2 (refinement_budget no_fault flat_distance no_service 3
                  1 1 "What is IITU?" "/return" (boot None) eq_refl
                  ltac:(lia))).
Defined.

Lemma refinement_degrades_to_retry_witness :
  exists rec w',
    handle_return no_fault flat_distance no_service 3 demo_message
      demo_fresh_world = (Ok tt, w') /\
    context_of 1 w' = Py.last_n 5 ([] ++ [rec]) /\
    i_query rec = "What is IITU?".
Proof.
  destruct (refinement_degrades_to_retry no_fault flat_distance no_service 3
              demo_message demo_fresh_world
              (mkSession 0 (Some "What is IITU?") []) "What is IITU?"
              eq_refl eq_refl eq_refl ltac:(cbn; lia))
    as (rec & w' & Hrun & Hctx & _ & _ & Hdown).
  exists rec, w'. split; [exact Hrun|]. split; [exact Hctx|].
  apply Hdown. reflexivity.
Defined.

Lemma failed_answer_falls_back_witness :
  exists rec w',
    process_user_query no_fault flat_distance no_service demo_message
      "What is IITU?" false demo_world = (Ok tt, w') /\
    outbox w' = outbox demo_world ++ [(1%Z, general_fallback_text)] /\
    i_response rec = general_fallback_text.
Proof.
  destruct (failed_answer_falls_back no_fault flat_distance no_service
              demo_message "What is IITU?" false demo_world demo_session
              eq_refl eq_refl)
    as (rec & w' & Hrun & Hout & Hresp & _).
  exists rec, w'. split; [exact Hrun|].
  split; [exact Hout | exact Hresp].
Defined.

End BotMore.

(** ** The crawler: order, exhaustion, failed fetches, a second run *)

Module ScraperMore.

Import Scraper ScraperFacts.

Section Characters.

Variable P : ascii -> bool.

Lemma all_chars_append (s1 s2 : string) :
  all_chars P s1 = true -> all_chars P s2 = true ->
  all_chars P (s1 +:+ s2) = true.
Proof.
  intros H1 H2. induction s1 as [|c s1 IH]; [exact H2|].
  cbn [all_chars] in H1. apply andb_true_iff in H1 as [Hc H1].
  change (P c && all_chars P (s1 +:+ s2) = true).
  rewrite Hc. apply IH, H1.
Qed.

Lemma all_chars_lstrip (s : string) :
  all_chars P s = true -> all_chars P (Py.lstrip s) = true.
Proof.
  induction s as [|c s IH]; intros H; [reflexivity|].
  cbn [Py.lstrip]. destruct (Py.is_space c); [|exact H].
  cbn in H. apply andb_true_iff in H as [_ H]. apply IH, H.
Qed.

Lemma all_chars_rstrip (s : string) :
  all_chars P s = true -> all_chars P (Py.rstrip s) = true.
Proof.
  induction s as [|c s IH]; intros H; [reflexivity|].
  cbn in H. apply andb_true_iff in H as [Hc H]. specialize (IH H).
  cbn [Py.rstrip]. destruct (Py.rstrip s) as [|c' kept].
  - destruct (Py.is_space c); cbn; [reflexivity | rewrite Hc; reflexivity].
  - cbn [all_chars]. rewrite Hc. exact IH.
Qed.

Lemma all_chars_strip (s : string) :
  all_chars P s = true -> all_chars P (Py.strip s) = true.
Proof. intros H. apply all_chars_rstrip, all_chars_lstrip, H. Qed.

Lemma all_chars_split_double_space (fuel : nat) : forall s,
  all_chars P s = true ->
  Forall (fun phrase => all_chars P phrase = true) (split_double_space fuel s).
Proof.
  induction fuel as [|fuel IH]; intros s Hs; [repeat constructor; exact Hs|].
  destruct s as [|c rest]; [repeat constructor|].
  cbn in Hs. apply andb_true_iff in Hs as [Hc Hrest].
  assert (Hdefault :
    Forall (fun phrase => all_chars P phrase = true)
      match split_double_space fuel rest with
      | phrase :: phrases => String c phrase :: phrases
      | [] => [String c EmptyString]
      end).
  { specialize (IH rest Hrest). destruct (split_double_space fuel rest).
    - repeat constructor. cbn. rewrite Hc. reflexivity.
    - inversion IH; subst. constructor; [cbn; rewrite Hc|]; assumption. }
  cbn [split_double_space].
  destruct c as [[] [] [] [] [] [] [] []]; try exact Hdefault.
  destruct rest as [|c2 rest2]; [exact Hdefault|].
  destruct c2 as [[] [] [] [] [] [] [] []]; try exact Hdefault.
  constructor; [reflexivity|]. apply IH.
  cbn in Hrest. apply andb_true_iff in Hrest as [_ Hrest]. exact Hrest.
Qed.

Lemma all_chars_join (sep : string) (parts : list string) :
  all_chars P sep = true ->
  Forall (fun part => all_chars P part = true) parts ->
  all_chars P (Bot.join sep parts) = true.
Proof.
  intros Hsep Hparts. induction Hparts as [|part rest Hpart Hrest IH];
    [reflexivity|].
  cbn [Bot.join]. destruct rest as [|next rest]; [exact Hpart|].
  apply all_chars_append; [exact Hpart|].
  apply all_chars_append; [exact Hsep | exact IH].
Qed.

End Characters.

Lemma split_lines_one_line (s : string) :
  Forall (fun line => one_line line = true) (split_lines s).
Proof.
  induction s as [|c s IH]; [repeat constructor|].
  cbn [split_lines]. destruct (is_line_break c) eqn:Hc.
  - constructor; [reflexivity | exact IH].
  - destruct (split_lines s) as [|line lines].
    + repeat constructor. unfold one_line. cbn. rewrite Hc. reflexivity.
    + inversion IH; subst. constructor; [|assumption].
      unfold one_line in *. cbn. rewrite Hc. assumption.
Qed.

(** X28: the text [extract_text_content] makes of a page is a single
    line: whatever the page, no line boundary is left in it, so the
    paragraph and line separators of the splitter find nothing to split at
    in the content of a scraped page. *)
Theorem extracted_text_is_one_line (soup : Soup) :
  one_line (extract_text_content soup) = true.
Proof.
  unfold extract_text_content, one_line.
  apply all_chars_join; [reflexivity|].
  apply Forall_forall. intros chunk Hin.
  apply list_elem_of_filter in Hin as [_ Hin].
  apply list_elem_of_In, in_flat_map in Hin as (line & Hline & Hchunk).
  apply in_map_iff in Hchunk as (phrase & <- & Hphrase).
  apply in_map_iff in Hline as (raw & <- & Hraw).
  apply all_chars_strip.
  pose proof (all_chars_split_double_space (fun c => negb (is_line_break c))
                (String.length (Py.strip raw)) (Py.strip raw)) as Hsplit.
  rewrite Forall_forall in Hsplit. apply Hsplit.
  - apply all_chars_strip.
    pose proof (split_lines_one_line (soup_text soup)) as Hlines.
    rewrite Forall_forall in Hlines. apply Hlines, list_elem_of_In, Hraw.
  - apply list_elem_of_In, Hphrase.
Qed.

Section Crawl.

Variable base_url : string.
Variable max_pages : Z.
Variable netloc : string -> option string.
Variable urljoin : string -> string -> option string.
Variable http_get : nat -> string -> option Soup.
Variable time_time : nat -> float.

Local Abbreviation iteration :=
  (Scraper.iteration max_pages netloc urljoin http_get time_time).
Local Abbreviation scrape_loop :=
  (Scraper.scrape_loop max_pages netloc urljoin http_get time_time).
Local Abbreviation scrape_website :=
  (Scraper.scrape_website base_url max_pages netloc urljoin http_get time_time).
Local Abbreviation invariant := (crawl_invariant base_url netloc).

(** X20: the frontier is first in, first out: in a crawl from a fresh
    scraper the pages are fetched in the order in which their URLs were
    discovered, so that what was put on the frontier is, in order, what was
    fetched followed by what still waits. *)
Theorem pages_are_fetched_in_discovery_order (fuel : nat) (c : Crawl) :
  scrape_website fuel ∅ [] = Some c ->
  enqueue_log c = fetch_log c ++ urls_to_visit c /\
  map p_url (scraped_data c) = fetch_log c.
Proof.
  intros Hrun.
  destruct (scrape_loop_invariant base_url max_pages netloc urljoin http_get
              time_time fuel _ c (start_invariant base_url netloc) Hrun)
    as [Hfr _ _ Hrec _].
  split; assumption.
Qed.

(** the loop ends only when its condition is false *)
Lemma scrape_loop_ends (fuel : nat) : forall c c',
  scrape_loop fuel c = Some c' -> iteration c' = None.
Proof.
  induction fuel as [|fuel IH]; intros c c'; cbn;
    destruct (iteration c) as [c1|] eqn:Hit;
    try discriminate; try (intros [= <-]; assumption).
  apply IH.
Qed.

(** X21: a crawl stops only when the frontier is empty or the page limit
    is reached: when it returns fewer than [max_pages] records, nothing
    discovered is left unfetched. *)
Theorem crawl_ends_exhausted_or_full (fuel : nat) (visited : gset string)
    (scraped : list Page) (c : Crawl) :
  scrape_website fuel visited scraped = Some c ->
  urls_to_visit c = [] \/ (max_pages <= Z.of_nat (length (scraped_data c)))%Z.
Proof.
  intros Hrun. apply scrape_loop_ends in Hrun.
  unfold Scraper.iteration in Hrun.
  destruct (urls_to_visit c) as [|u rest]; [left; reflexivity|].
  destruct (Z.ltb_spec (Z.of_nat (length (scraped_data c))) max_pages);
    [|right; assumption].
  destruct (bool_decide (u ∈ visited_urls c)); discriminate.
Qed.

(** X22: a scraper remembers what it visited: a second [scrape_website]
    on a scraper that has visited the seed fetches nothing and adds no
    record. *)
Theorem second_run_fetches_nothing (fuel : nat) (visited : gset string)
    (scraped : list Page) :
  base_url ∈ visited ->
  1 <= fuel ->
  exists c,
    scrape_website fuel visited scraped = Some c /\
    scraped_data c = scraped /\ visited_urls c = visited /\ fetch_log c = [].
Proof.
  intros Hseen Hfuel. destruct fuel as [|fuel]; [lia|].
  unfold Scraper.scrape_website, start. cbn [Scraper.scrape_loop].
  unfold Scraper.iteration at 1. cbn [urls_to_visit scraped_data visited_urls].
  destruct (Z.of_nat (length scraped) <? max_pages)%Z.
  - rewrite bool_decide_eq_true_2 by assumption.
    destruct fuel; cbn; eexists; split; try reflexivity; auto.
  - eexists. split; [reflexivity|]. auto.
Qed.

(** X23: a fetch that fails does not stop the crawl: the page gets a
    record that carries the error and has no title, description, content or
    links; it is marked visited and takes one of the [max_pages] places; and
    the frontier goes on with the URLs that were waiting, nothing added. *)
Theorem failed_fetch_is_recorded (c : Crawl) (current_url : string)
    (rest : list string) :
  urls_to_visit c = current_url :: rest ->
  current_url ∉ visited_urls c ->
  (Z.of_nat (length (scraped_data c)) < max_pages)%Z ->
  http_get (length (scraped_data c)) current_url = None ->
  exists page_data,
    iteration c
    = Some (mkCrawl ({[current_url]} ∪ visited_urls c)
                    (scraped_data c ++ [page_data]) rest
                    (fetch_log c ++ [current_url]) (enqueue_log c)) /\
    p_url page_data = current_url /\ p_error page_data <> None /\
    p_title page_data = "" /\ p_description page_data = "" /\
    p_content page_data = "" /\ p_links page_data = [].
Proof.
  intros Hq Hv Hlt Hget. unfold Scraper.iteration. rewrite Hq.
  destruct (Z.ltb_spec (Z.of_nat (length (scraped_data c))) max_pages); [|lia].
  rewrite bool_decide_eq_false_2 by assumption. cbv zeta.
  unfold scrape_page. rewrite Hget. cbn [p_links error_page add_new_links fold_left].
  eexists. split; [reflexivity|]. cbn. repeat split. discriminate.
Qed.

(** every link handed to [add_new_links] is afterwards visited or waiting *)
Lemma add_new_links_covers (links : list string) : forall c link,
  link ∈ links ->
  link ∈ visited_urls c \/ link ∈ urls_to_visit (add_new_links links c).
Proof.
  induction links as [|l rest IH]; intros c link Hin; [inversion Hin|].
  cbn [add_new_links fold_left].
  set (c1 := if bool_decide (l ∉ visited_urls c) && bool_decide (l ∉ urls_to_visit c)
             then mkCrawl (visited_urls c) (scraped_data c) (urls_to_visit c ++ [l])
                          (fetch_log c) (enqueue_log c ++ [l])
             else c).
  assert (Hv1 : visited_urls c1 = visited_urls c)
    by (unfold c1; destruct (_ && _); reflexivity).
  change (link ∈ visited_urls c \/ link ∈ urls_to_visit (add_new_links rest c1)).
  apply elem_of_cons in Hin as [->|Hin].
  - destruct (decide (l ∈ visited_urls c)) as [Hv|Hv]; [left; assumption|].
    right. destruct (add_new_links_spec rest c1) as (new & -> & _ & _).
    cbn [urls_to_visit]. apply elem_of_app. left. unfold c1.
    rewrite (bool_decide_eq_true_2 _ Hv). cbn [andb].
    case_bool_decide as Hq; cbn [urls_to_visit].
    + apply elem_of_app. right. apply list_elem_of_singleton. reflexivity.
    + assumption.
  - rewrite <- Hv1. apply IH. assumption.
Qed.

Lemma iteration_links_known c c' :
  invariant c -> links_known c -> iteration c = Some c' -> links_known c'.
Proof.
  intros Hinv Hknown Hit.
  destruct (iteration_invariant base_url max_pages netloc urljoin http_get
              time_time c c' Hinv Hit) as ([Hfr' _ Hvis' _ _] & _ & _).
  destruct Hinv as [Hfr Hnd Hvis Hrec _].
  destruct (urls_to_visit c) as [|current_url rest] eqn:Hq.
  { unfold Scraper.iteration in Hit. rewrite Hq in Hit. discriminate. }
  assert (Hv : current_url ∉ visited_urls c).
  { rewrite Hvis. rewrite Hfr in Hnd. apply NoDup_app in Hnd as (_ & Hdisj & _).
    intros Hin. apply (Hdisj _ Hin). left. }
  revert Hit. unfold Scraper.iteration. rewrite Hq.
  destruct (Z.of_nat (length (scraped_data c)) <? max_pages)%Z; [|discriminate].
  rewrite bool_decide_eq_false_2 by assumption. cbv zeta.
  set (visited := {[current_url]} ∪ visited_urls c).
  set (page := scrape_page netloc urljoin http_get time_time visited
                 (length (scraped_data c)) current_url).
  set (c1 := mkCrawl visited (scraped_data c ++ [page]) rest
                     (fetch_log c ++ [current_url]) (enqueue_log c)).
  intros [= <-].
  destruct (add_new_links_spec (p_links page) c1) as (new & Hadd & _ & _).
  intros page_data link Hp Hl. rewrite Hadd in Hp. cbn [scraped_data c1] in Hp.
  apply elem_of_app in Hp as [Hp|Hp].
  - rewrite Hadd. cbn [enqueue_log c1]. apply elem_of_app. left.
    apply (Hknown page_data link Hp Hl).
  - apply list_elem_of_singleton in Hp. subst page_data.
    destruct (add_new_links_covers (p_links page) c1 link Hl) as [Hin|Hin].
    + rewrite Hfr'. apply elem_of_app. left. apply Hvis'.
      rewrite Hadd. cbn [visited_urls]. exact Hin.
    + rewrite Hfr'. apply elem_of_app. right. exact Hin.
Qed.

Lemma scrape_loop_links_known (fuel : nat) : forall c c',
  invariant c -> links_known c -> scrape_loop fuel c = Some c' -> links_known c'.
Proof.
  induction fuel as [|fuel IH]; intros c c' Hinv Hknown; cbn;
    destruct (iteration c) as [c1|] eqn:Hit;
    try discriminate; try (intros [= <-]; assumption).
  apply IH.
  - apply (iteration_invariant base_url max_pages netloc urljoin http_get
             time_time c c1 Hinv Hit).
  - apply (iteration_links_known c c1 Hinv Hknown Hit).
Qed.

(** X24: a crawl from a fresh scraper that stops below the page limit has
    followed every link: each link recorded with a fetched page was itself
    fetched. *)
Theorem exhausted_crawl_followed_every_link (fuel : nat) (c : Crawl) :
  scrape_website fuel ∅ [] = Some c ->
  (Z.of_nat (length (scraped_data c)) < max_pages)%Z ->
  forall page_data link,
    page_data ∈ scraped_data c -> link ∈ p_links page_data ->
    link ∈ fetch_log c.
Proof.
  intros Hrun Hbelow page_data link Hp Hl.
  assert (Hknown : links_known c).
  { apply (scrape_loop_links_known fuel _ c (start_invariant base_url netloc));
      [|exact Hrun].
    intros p l Hin. inversion Hin. }
  destruct (scrape_loop_invariant base_url max_pages netloc urljoin http_get
              time_time fuel _ c (start_invariant base_url netloc) Hrun)
    as [Hfr _ _ _ _].
  pose proof (Hknown page_data link Hp Hl) as Hin.
  apply scrape_loop_ends in Hrun. unfold Scraper.iteration in Hrun.
  destruct (urls_to_visit c) as [|u rest] eqn:Hq.
  - rewrite Hfr, app_nil_r in Hin. exact Hin.
  - destruct (Z.ltb_spec (Z.of_nat (length (scraped_data c))) max_pages); [|lia].
    destruct (bool_decide (u ∈ visited_urls c)); discriminate.
Qed.

End Crawl.

Lemma pages_are_fetched_in_discovery_order_witness :
  match scrape_website "https://iitu.edu.kz" 2 demo_netloc demo_urljoin
          demo_http_get demo_clock 2 ∅ [] with
  | Some c =>
      enqueue_log c = fetch_log c ++ urls_to_visit c /\
      map p_url (scraped_data c) = fetch_log c
  | None => True
  end.
Proof.
  destruct (scrape_website "https://iitu.edu.kz" 2 demo_netloc demo_urljoin
              demo_http_get demo_clock 2 ∅ []) as [c|] eqn:Hrun; [|exact I].
  apply (pages_are_fetched_in_discovery_order "https://iitu.edu.kz" 2
           demo_netloc demo_urljoin demo_http_get demo_clock 2 c Hrun).
Defined.

Lemma crawl_ends_exhausted_or_full_witness :
  match scrape_website "https://iitu.edu.kz" 2 demo_netloc demo_urljoin
          demo_http_get demo_clock 2 ∅ [] with
  | Some c =>
      urls_to_visit c = [] \/ (2 <= Z.of_nat (length (scraped_data c)))%Z
  | None => True
  end.
Proof.
  destruct (scrape_website "https://iitu.edu.kz" 2 demo_netloc demo_urljoin
              demo_http_get demo_clock 2 ∅ []) as [c|] eqn:Hrun; [|exact I].
  apply (crawl_ends_exhausted_or_full "https://iitu.edu.kz" 2 demo_netloc
           demo_urljoin demo_http_get demo_clock 2 ∅ [] c Hrun).
Defined.

Lemma second_run_fetches_nothing_witness :
  exists c,
    scrape_website "https://iitu.edu.kz" 2 demo_netloc demo_urljoin
      demo_http_get demo_clock 1 {[ "https://iitu.edu.kz" ]} [] = Some c /\
    scraped_data c = [] /\
    visited_urls c = {[ "https://iitu.edu.kz" ]} /\ fetch_log c = [].
Proof.
  apply (second_run_fetches_nothing "https://iitu.edu.kz" 2 demo_netloc
           demo_urljoin demo_http_get demo_clock 1 {[ "https://iitu.edu.kz" ]} []).
  - apply elem_of_singleton. reflexivity.
  - lia.
Defined.

Lemma failed_fetch_is_recorded_witness :
  exists page_data,
    iteration 2 demo_netloc demo_urljoin demo_http_down demo_clock
      (start "https://iitu.edu.kz" ∅ [])
    = Some (mkCrawl ({[ "https://iitu.edu.kz" ]} ∪ ∅) ([] ++ [page_data]) []
                    ([] ++ ["https://iitu.edu.kz"]) ["https://iitu.edu.kz"]) /\
    p_url page_data = "https://iitu.edu.kz" /\ p_error page_data <> None /\
    p_title page_data = "" /\ p_description page_data = "" /\
    p_content page_data = "" /\ p_links page_data = [].
Proof.
  apply (failed_fetch_is_recorded 2 demo_netloc demo_urljoin demo_http_down
           demo_clock (start "https://iitu.edu.kz" ∅ [])
           "https://iitu.edu.kz" []).
  - reflexivity.
  - apply not_elem_of_empty.
  - cbn. lia.
  - reflexivity.
Defined.

Lemma exhausted_crawl_followed_every_link_witness :
  match scrape_website "https://iitu.edu.kz" 10 demo_netloc demo_urljoin
          demo_http_get demo_clock 10 ∅ [] with
  | Some c =>
      forall page_data link,
        page_data ∈ scraped_data c -> link ∈ p_links page_data ->
        link ∈ fetch_log c
  | None => True
  end.
Proof.
  destruct (scrape_website "https://iitu.edu.kz" 10 demo_netloc demo_urljoin
              demo_http_get demo_clock 10 ∅ []) as [c|] eqn:Hrun; [|exact I].
  apply (exhausted_crawl_followed_every_link "https://iitu.edu.kz" 10
           demo_netloc demo_urljoin demo_http_get demo_clock 10 c Hrun).
  pose proof Hrun as Hval. vm_compute in Hval. injection Hval as <-.
  vm_compute. reflexivity.
Defined.

End ScraperMore.

(** ** The application: the cache on disk *)

Module MainFacts.

Import Database Processor Scraper Main DatabaseFacts ProcessorFacts.

Section Frames.

Variable backend_fault : nat -> bool.

Lemma client_call_ai_log {A} (op : M A) (w : World) :
  (forall w0, ai_log (snd (op w0)) = ai_log w0) ->
  ai_log (snd (client_call backend_fault op w)) = ai_log w.
Proof.
  intros Hop. unfold client_call.
  destruct (backend_fault (db_calls w)); [reflexivity|].
  rewrite Hop. reflexivity.
Qed.

Lemma collection_add_ai_log documents metadatas ids (w : World) :
  ai_log (snd (collection_add backend_fault documents metadatas ids w))
  = ai_log w.
Proof.
  apply client_call_ai_log. intros w0. destruct (collection w0); reflexivity.
Qed.

Lemma for_each_ai_log {A} (body : A -> M unit) (l : list A) :
  (forall x w, ai_log (snd (body x w)) = ai_log w) ->
  forall w, ai_log (snd (for_each l body w)) = ai_log w.
Proof.
  intros Hbody. induction l as [|x rest IH]; intros w; [reflexivity|].
  cbn [for_each]. unfold bind. specialize (Hbody x w).
  destruct (body x w) as [[[]|e] w1]; cbn in Hbody; [|exact Hbody].
  rewrite IH. exact Hbody.
Qed.

(** a rebuild of the store submits nothing to the completion service *)
Lemma build_knowledge_base_ai_log (chunks : list Chunk) (w : World) :
  ai_log (snd (build_knowledge_base backend_fault chunks w)) = ai_log w.
Proof.
  assert (Hclear : forall w0,
            ai_log (snd (clear_collection backend_fault w0)) = ai_log w0).
  { intros w0. unfold clear_collection, catch, bind, delete_collection,
      create_collection, client_call.
    destruct (backend_fault (db_calls w0)); [reflexivity|].
    cbn [collection set_db_calls].
    destruct (collection w0); [|reflexivity].
    cbn [db_calls set_collection set_db_calls].
    destruct (backend_fault (S (db_calls w0))); reflexivity. }
  assert (Hadd : forall w0,
            ai_log (snd (add_chunks backend_fault chunks w0)) = ai_log w0).
  { intros w0. destruct chunks as [|chunk rest]; [reflexivity|].
    unfold add_chunks, bind. rewrite prepare_spec.
    match goal with
    | |- context [match ?docs ++ ?new with _ => _ end] =>
        destruct (docs ++ new); [destruct w0; reflexivity|]
    end.
    rewrite for_each_ai_log; [destruct w0; reflexivity|].
    intros i w1. apply collection_add_ai_log. }
  assert (Hinfo : forall w0,
            ai_log (snd (get_collection_info backend_fault w0)) = ai_log w0).
  { intros w0. unfold get_collection_info, catch, bind, collection_count,
      client_call.
    destruct (backend_fault (db_calls w0)); [reflexivity|].
    cbn [collection set_db_calls]. destruct (collection w0); reflexivity. }
  unfold build_knowledge_base, bind.
  specialize (Hclear w).
  destruct (clear_collection backend_fault w) as [[[]|e] w1]; cbn in Hclear;
    [|exact Hclear].
  specialize (Hadd w1).
  destruct (add_chunks backend_fault chunks w1) as [[[]|e] w2]; cbn in Hadd;
    [|cbn; congruence].
  specialize (Hinfo w2).
  destruct (get_collection_info backend_fault w2) as [[info|e] w3];
    cbn in Hinfo |- *; congruence.
Qed.

End Frames.

Section Cache.

Variable backend_fault : nat -> bool.
Variable completion : nat -> string -> option string.
Variable split_text : string -> option (list string).
Variable base_url : string.
Variable max_pages : Z.
Variable netloc : string -> option string.
Variable urljoin : string -> string -> option string.
Variable http_get : nat -> string -> option Soup.
Variable time_time : nat -> float.

Local Abbreviation setup_knowledge_base :=
  (Main.setup_knowledge_base backend_fault completion split_text base_url
     max_pages netloc urljoin http_get time_time).
Local Abbreviation update_knowledge_base :=
  (Main.update_knowledge_base backend_fault completion split_text base_url
     max_pages netloc urljoin http_get time_time).

(** X25: when the processed file holds at least one page,
    [setup_knowledge_base] neither crawls nor processes: no page is fetched,
    nothing is submitted to the completion service, the files stay as they
    are, and the store is rebuilt from the chunks of the cached pages. *)
Theorem cached_setup_skips_the_crawl (fuel : nat) (app : App)
    (page_data : Page) (cached : list Page) :
  processed_file (app_files app) = Some (page_data :: cached) ->
  exists r w',
    setup_knowledge_base fuel app
    = Some (r, mkApp w' (app_files app) (app_visited app) (app_scraped app)) /\
    build_knowledge_base backend_fault
      (extract_all_chunks (page_data :: cached)) (app_world app) = (r, w') /\
    ai_log w' = ai_log (app_world app).
Proof.
  intros Hfile. unfold Main.setup_knowledge_base, load_processed_data.
  rewrite Hfile. cbv zeta.
  pose proof (build_knowledge_base_ai_log backend_fault
                (extract_all_chunks (page_data :: cached)) (app_world app)) as Hlog.
  destruct (build_knowledge_base backend_fault
              (extract_all_chunks (page_data :: cached)) (app_world app))
    as [r w'].
  exists r, w'. auto.
Qed.

(** X26: [update_knowledge_base] discards the cache only when the scraped
    file exists.  When that file is missing and the processed file holds
    pages, the processed file is kept and the "update" rebuilds the store
    from it: no page is fetched and nothing is reprocessed. *)
Theorem update_without_scraped_file_reuses_cache (fuel : nat) (app : App)
    (page_data : Page) (cached : list Page) :
  scraped_file (app_files app) = None ->
  processed_file (app_files app) = Some (page_data :: cached) ->
  exists r w',
    update_knowledge_base fuel app
    = Some (r, mkApp w' (app_files app) (app_visited app) (app_scraped app)) /\
    build_knowledge_base backend_fault
      (extract_all_chunks (page_data :: cached)) (app_world app) = (r, w') /\
    ai_log w' = ai_log (app_world app).
Proof.
  intros Hscraped Hfile.
  unfold Main.update_knowledge_base, remove_cached. rewrite Hscraped.
  unfold Main.setup_knowledge_base, load_processed_data.
  cbn [app_files app_world app_visited app_scraped]. rewrite Hfile. cbv zeta.
  pose proof (build_knowledge_base_ai_log backend_fault
                (extract_all_chunks (page_data :: cached)) (app_world app)) as Hlog.
  destruct (build_knowledge_base backend_fault
              (extract_all_chunks (page_data :: cached)) (app_world app))
    as [r w'].
  exists r, w'. auto.
Qed.

(** X27: without a usable cache (no processed file, or an empty list in
    it) [setup_knowledge_base] crawls, and it writes both files before it
    touches the store: whether the rebuild then succeeds or raises, the
    scraped file holds the records of the crawl and the processed file one
    page for each of them. *)
Theorem crawl_is_cached_before_the_rebuild (fuel : nat) (app : App)
    (r : result unit) (app' : App) :
  load_processed_data (app_files app) = [] ->
  setup_knowledge_base fuel app = Some (r, app') ->
  exists c out,
    scrape_website base_url max_pages netloc urljoin http_get time_time
      fuel (app_visited app) (app_scraped app) = Some c /\
    app_files app' = mkFiles (Some (scraped_data c)) (Some out) /\
    app_scraped app' = scraped_data c /\
    app_visited app' = visited_urls c /\
    Forall2 same_scrape (scraped_data c) out.
Proof.
  intros Hload. unfold Main.setup_knowledge_base. rewrite Hload. cbv zeta.
  destruct (scrape_website base_url max_pages netloc urljoin http_get
              time_time fuel (app_visited app) (app_scraped app)) as [c|];
    [|discriminate].
  destruct (ProcessorMore.process_all_data_same_scrape completion
              split_text (scraped_data c) (app_world app))
    as (out & w1 & Hrun & Hsame).
  rewrite Hrun.
  destruct (build_knowledge_base backend_fault (extract_all_chunks out) w1)
    as [r2 w2].
  intros [= <- <-]. exists c, out. cbn. auto.
Qed.

End Cache.

Lemma cached_setup_skips_the_crawl_witness :
  exists r w',
    setup_knowledge_base never_fails service_down splitter_raises
      "https://iitu.edu.kz" 2 demo_netloc demo_urljoin demo_http_get demo_clock
      0 demo_app
    = Some (r, mkApp w' (app_files demo_app) (app_visited demo_app)
                     (app_scraped demo_app)) /\
    build_knowledge_base never_fails
      (extract_all_chunks [demo_cached_page]) (app_world demo_app) = (r, w') /\
    ai_log w' = ai_log (app_world demo_app).
Proof.
  apply (cached_setup_skips_the_crawl never_fails service_down splitter_raises
           "https://iitu.edu.kz" 2 demo_netloc demo_urljoin demo_http_get
           demo_clock 0 demo_app demo_cached_page []).
  reflexivity.
Defined.

Lemma update_without_scraped_file_reuses_cache_witness :
  exists r w',
    update_knowledge_base never_fails service_down splitter_raises
      "https://iitu.edu.kz" 2 demo_netloc demo_urljoin demo_http_get demo_clock
      0 demo_app
    = Some (r, mkApp w' (app_files demo_app) (app_visited demo_app)
                     (app_scraped demo_app)) /\
    build_knowledge_base never_fails
      (extract_all_chunks [demo_cached_page]) (app_world demo_app) = (r, w') /\
    ai_log w' = ai_log (app_world demo_app).
Proof.
  apply (update_without_scraped_file_reuses_cache never_fails service_down
           splitter_raises "https://iitu.edu.kz" 2 demo_netloc demo_urljoin
           demo_http_get demo_clock 0 demo_app demo_cached_page []).
  - reflexivity.
  - reflexivity.
Defined.

Lemma crawl_is_cached_before_the_rebuild_witness :
  match setup_knowledge_base insert_fails service_down splitter_whole
          "https://iitu.edu.kz" 2 demo_netloc demo_urljoin demo_http_get
          demo_clock 2 demo_new_app with
  | Some (r, app') =>
      exists c out,
        scrape_website "https://iitu.edu.kz" 2 demo_netloc demo_urljoin
          demo_http_get demo_clock 2 (app_visited demo_new_app)
          (app_scraped demo_new_app) = Some c /\
        app_files app' = mkFiles (Some (scraped_data c)) (Some out) /\
        app_scraped app' = scraped_data c /\
        app_visited app' = visited_urls c /\
        Forall2 same_scrape (scraped_data c) out
  | None => True
  end.
Proof.
  destruct (setup_knowledge_base insert_fails service_down splitter_whole
              "https://iitu.edu.kz" 2 demo_netloc demo_urljoin demo_http_get
              demo_clock 2 demo_new_app) as [[r app']|] eqn:Hrun; [|exact I].
  apply (crawl_is_cached_before_the_rebuild insert_fails service_down
           splitter_whole "https://iitu.edu.kz" 2 demo_netloc demo_urljoin
           demo_http_get demo_clock 2 demo_new_app r app' eq_refl Hrun).
Defined.

(** That first run, evaluated: the insert raises, and both files are
    written all the same. *)
Example failed_rebuild_leaves_the_cache :
  option_map (fun ra =>
                (fst ra,
                 option_map (map p_url) (scraped_file (app_files (snd ra))),
                 option_map (map p_url) (processed_file (app_files (snd ra)))))
    (setup_knowledge_base insert_fails service_down splitter_whole
       "https://iitu.edu.kz" 2 demo_netloc demo_urljoin demo_http_get
       demo_clock 2 demo_new_app)
  = Some (Raise "chromadb error",
          Some ["https://iitu.edu.kz"; "https://iitu.edu.kz/a"],
          Some ["https://iitu.edu.kz"; "https://iitu.edu.kz/a"]).
Proof. vm_compute. reflexivity. Qed.

End MainFacts.
